(** * Flight delay predictor: a shallow embedding of [train_model.py],
    [ml_api.py] and [data_cleaner.py], and the properties of the
    specification checked on it.

    Conventions of the embedding.
    - A pandas/JSON number is a [value]: a Python [int], a [float] (an exact
      rational here: the float arithmetic of pandas and numpy is idealised to
      exact arithmetic on [Q]), or [NaN] (pandas' missing value).
    - A Python [dict] with string keys is a [gmap string _].  Insertion order
      is not kept: wherever the code reads a dict by order the embedding uses a
      list instead.
    - A method of [FlightDelayPredictor] is a computation in the monad [M]:
      it reads and writes the predictor object and may raise.  Attribute
      writes made before a [raise] stay in the predictor, as in Python.
    - scikit-learn objects (the fitted scaler, the fitted classifiers, the
      splitter, the metric) are opaque functions. *)

From Stdlib Require Import ZArith QArith Qround Qabs Lqa String List.
From Stdlib Require Import Sorted OrderedTypeEx.
From Stdlib Require Qcanon.
From stdpp Require Import gmap strings list fin_maps.

Open Scope Z_scope.

(** ** Numbers and cells *)

Inductive value : Type :=
| Int (z : Z)
| Flt (q : Q)
| NaN.

#[global] Instance Q_eq_dec : EqDecision Q.
Proof. solve_decision. Defined.

#[global] Instance value_eq_dec : EqDecision value.
Proof. solve_decision. Defined.

(** [pd.isna] on one cell. *)
Definition isna (v : value) : bool :=
  match v with NaN => true | _ => false end.

(** [Series.fillna(d)] on one cell. *)
Definition fillna (d v : value) : value := if isna v then d else v.

(** The rational a number denotes; [None] for a missing value. *)
Definition to_Q (v : value) : option Q :=
  match v with
  | Int z => Some (inject_Z z)
  | Flt q => Some q
  | NaN => None
  end.

(** Python's [v == 0] on a number. *)
Definition is_zero (v : value) : bool :=
  match to_Q v with
  | Some q => Qeq_bool q 0
  | None => false
  end.

(** ** Exceptions and the method monad *)

Inductive exn : Type :=
| ValueError (msg : string)
| KeyError (key : string)
| TypeError (msg : string)
| AttributeError (msg : string)
| IndexError (msg : string)
| NotFittedError (msg : string).

(** ** scikit-learn objects *)

(** A fitted classifier.  [predict_proba] is [None] when the object has no
    such attribute ([hasattr(self.model, 'predict_proba')] is false); its
    result is the row of class probabilities of the single sample.  The
    scores are exact rationals and a function of the sample: the last bits
    of the floats that a forest evaluated in parallel ([n_jobs=-1]) returns
    can differ from one call to the next, and that variation is outside
    the embedding. *)
Record Classifier : Type := {
  predict_proba : option (list value -> list Q);
  predict : list value -> Q
}.

(** [StandardScaler]: [None] until [fit_transform] has run. *)
Definition StandardScaler : Type := option (list value -> list value).

(** [model_metadata] as [train_model] writes it. *)
Record Metadata : Type := {
  model_type : string;
  roc_auc_score : Q;
  training_samples : nat;
  test_samples : nat;
  feature_count : nat;
  delay_rate : value;
  trained_on : string;
  features : list string
}.

(** ** The predictor object ([FlightDelayPredictor.__init__]) *)

Record FlightDelayPredictor : Type := {
  model : option Classifier;
  label_encoders : gmap string (list string);
  scaler : StandardScaler;
  feature_columns : list string;
  airport_stats : gmap string (gmap string (gmap string value));
  model_metadata : option Metadata
}.

Definition init : FlightDelayPredictor := {|
  model := None;
  label_encoders := ∅;
  scaler := None;
  feature_columns := [];
  airport_stats := ∅;
  model_metadata := None
|}.

Definition M (A : Type) : Type :=
  FlightDelayPredictor -> (exn + A) * FlightDelayPredictor.

Definition ret {A} (a : A) : M A := fun self => (inr a, self).

Definition raise {A} (e : exn) : M A := fun self => (inl e, self).

Definition bind {A B} (m : M A) (k : A -> M B) : M B :=
  fun self =>
    match m self with
    | (inr a, self') => k a self'
    | (inl e, self') => (inl e, self')
    end.

Definition get : M FlightDelayPredictor := fun self => (inr self, self).

Notation "x <- m ;; k" := (bind m (fun x => k))
  (at level 100, m at next level, right associativity).
Notation "m ;;; k" := (bind m (fun _ => k))
  (at level 100, right associativity).

(** [d[k]] on a dict: [KeyError] when the key is absent. *)
Definition getitem {A} (d : gmap string A) (k : string) : M A :=
  match d !! k with
  | Some a => ret a
  | None => raise (KeyError k)
  end.

(** ** Query-time feature synthesis ([predict_delay_probability]) *)

(** The literal [sample_data] dict of lines 283-291. *)
Definition base_sample (day_of_week : Z) (departure_time : option Z)
  : gmap string value :=
  list_to_map [
    ("DayOfWeek", Int day_of_week);
    ("departure_hour",
       Int (match departure_time with None => 12 | Some t => t / 100 end));
    ("arrival_hour",
       Int (match departure_time with None => 15 | Some t => t / 100 + 3 end));
    ("CRSDepTime",
       Int (match departure_time with None => 1200 | Some t => t end));
    ("CRSArrTime",
       Int (match departure_time with None => 1500 | Some t => t + 300 end));
    ("is_weekend",
       Int (if bool_decide (day_of_week ∈ [6; 7]) then 1 else 0));
    ("state_distance", Int 2)
  ].

Definition avg_origin_stats : gmap string value :=
  list_to_map [
    ("origin_ArrDel15_count", Int 500);
    ("origin_ArrDel15_mean", Flt 0.22);
    ("origin_ArrDel15_std", Flt 0.41);
    ("origin_DepDelay_mean", Flt 8.5);
    ("origin_DepDelay_std", Flt 25.0)
  ].

Definition avg_dest_stats : gmap string value :=
  list_to_map [
    ("dest_ArrDel15_count", Int 500);
    ("dest_ArrDel15_mean", Flt 0.22);
    ("dest_ArrDel15_std", Flt 0.41);
    ("dest_DepDelay_mean", Flt 8.5);
    ("dest_DepDelay_std", Flt 25.0)
  ].

Definition default_encodings : gmap string value :=
  list_to_map [
    ("Carrier_encoded", Int 0);
    ("departure_period_encoded", Int 1);
    ("season_encoded", Int 1)
  ].

(** [d.update(new)], and the loop [for k, v in new.items(): d[k] = v]:
    the keys of [new] win. *)
Definition update (d new : gmap string value) : gmap string value := new ∪ d.

(** Lines 293-320 for one role: the stored record of a known airport, the
    average profile otherwise. *)
Definition add_airport_stats (table : gmap string (gmap string value))
    (airport : string) (avg : gmap string value)
    (sample_data : gmap string value) : gmap string value :=
  match table !! airport with
  | Some stats => update sample_data stats
  | None => update sample_data avg
  end.

(** Lines 283-327: the complete [sample_data]. *)
Definition sample_data (origin_airport dest_airport : string)
    (day_of_week : Z) (departure_time : option Z)
  : M (gmap string value) :=
  self <- get ;;
  let d0 := base_sample day_of_week departure_time in
  origin_table <- getitem (airport_stats self) "origin" ;;
  let d1 := add_airport_stats origin_table origin_airport avg_origin_stats d0 in
  dest_table <- getitem (airport_stats self) "dest" ;;
  let d2 := add_airport_stats dest_table dest_airport avg_dest_stats d1 in
  ret (update d2 default_encodings).

(** Lines 329-338 on the one-row frame: a schema column that [sample_data]
    lacks is created with the integer 0; the columns are then selected in
    schema order and [fillna(0)] replaces a missing value by 0.0. *)
Definition select_features (columns : list string)
    (d : gmap string value) : list (string * value) :=
  map (fun col => (col, fillna (Flt 0) (default (Int 0) (d !! col)))) columns.

(** [X_sample] of line 338. *)
Definition X_sample (origin_airport dest_airport : string)
    (day_of_week : Z) (departure_time : option Z)
  : M (list (string * value)) :=
  d <- sample_data origin_airport dest_airport day_of_week departure_time ;;
  self <- get ;;
  ret (select_features (feature_columns self) d).

(** [self.scaler.transform(X)]. *)
Definition scaler_transform (X : list value) : M (list value) :=
  self <- get ;;
  match scaler self with
  | Some transform => ret (transform X)
  | None => raise (NotFittedError "This StandardScaler instance is not fitted yet.")
  end.

(** [a[:, 1][0]] on the one-row probability matrix. *)
Definition positive_class (row : list Q) : M Q :=
  match row !! 1%nat with
  | Some p => ret p
  | None => raise (IndexError "index 1 is out of bounds for axis 1")
  end.

(** [self.model_metadata.get('model_type') == 'RandomForest']. *)
Definition is_RandomForest (self : FlightDelayPredictor) : bool :=
  match model_metadata self with
  | Some md => bool_decide (model_type md = "RandomForest")
  | None => false
  end.

(** The features the deployed model is given, lines 344-354. *)
Definition model_input (self : FlightDelayPredictor)
    (X X_scaled : list value) : list value :=
  if is_RandomForest self then X else X_scaled.

Definition predict_delay_probability (origin_airport dest_airport : string)
    (day_of_week : Z) (departure_time : option Z) : M Q :=
  self <- get ;;
  match model self with
  | None => raise (ValueError "Model not trained yet. Call train_model() first.")
  | Some clf =>
      X <- X_sample origin_airport dest_airport day_of_week departure_time ;;
      X_scaled <- scaler_transform (map snd X) ;;
      match predict_proba clf with
      | Some proba => positive_class (proba (model_input self (map snd X) X_scaled))
      | None => ret (predict clf (model_input self (map snd X) X_scaled))
      end
  end.

(** ** Exact arithmetic for the aggregates *)

(** Round to the nearest integer, ties to the even one (Python's and numpy's
    [round]). *)
Definition round_half_even (q : Q) : Z :=
  let f := Qfloor q in
  match Qcompare (q - inject_Z f) (1 # 2) with
  | Lt => f
  | Gt => f + 1
  | Eq => if Z.even f then f else f + 1
  end.

Definition pow10 (digits : nat) : Z := 10 ^ Z.of_nat digits.

(** [round(q, digits)] on the exact rational, ties to even.  Python rounds
    the double nearest to [q], so at a decimal tie (2.675, say, whose double
    lies below the tie) the two can differ in the last digit kept. *)
Definition round_dec (digits : nat) (q : Q) : Q :=
  Qred (inject_Z (round_half_even (q * inject_Z (pow10 digits)))
        / inject_Z (pow10 digits)).

(** [round(sqrt(q), digits)] for [0 <= q]: the square root is never formed,
    [k] is the floor of [sqrt(q) * 10^digits] and the comparison of
    [q * 10^(2 digits)] with [(k + 1/2)^2] decides the direction. *)
Definition round_sqrt (digits : nat) (q : Q) : Q :=
  let x := (q * inject_Z (pow10 digits * pow10 digits))%Q in
  let k := Z.sqrt (Qfloor x) in
  let k' :=
    match Qcompare x (inject_Z (k * k + k) + (1 # 4)) with
    | Lt => k
    | Gt => k + 1
    | Eq => if Z.even k then k else k + 1
    end in
  Qred (inject_Z k' / inject_Z (pow10 digits)).

Definition Qsum (l : list Q) : Q := foldr Qplus 0%Q l.

(** The non-missing entries of a numeric column. *)
Definition non_na (vs : list value) : list Q := omap to_Q vs.

Definition Qmean (qs : list Q) : Q :=
  Qred (Qsum qs / inject_Z (Z.of_nat (length qs))).

(** Sample variance, [ddof=1]. *)
Definition Qvar (qs : list Q) : Q :=
  let m := Qmean qs in
  Qred (Qsum (map (fun x => (x - m) * (x - m))%Q qs)
        / inject_Z (Z.of_nat (length qs) - 1)).

(** What an aggregation yields before rounding: a number, or the square
    root of a rational (the standard deviation). *)
Inductive agg_result : Type :=
| Exact (v : value)
| Sqrt (q : Q).

(** The aggregations named in [agg]: pandas skips missing entries; the mean
    of no entry and the standard deviation of fewer than two are missing. *)
Definition agg_count (vs : list value) : agg_result :=
  Exact (Int (Z.of_nat (length (non_na vs)))).

(** [Series.mean()]. *)
Definition mean (vs : list value) : value :=
  match non_na vs with
  | [] => NaN
  | qs => Flt (Qmean qs)
  end.

Definition agg_mean (vs : list value) : agg_result := Exact (mean vs).

Definition agg_std (vs : list value) : agg_result :=
  match non_na vs with
  | [] | [_] => Exact NaN
  | qs => Sqrt (Qvar qs)
  end.

Definition agg_func (name : string) (vs : list value) : agg_result :=
  if String.eqb name "count" then agg_count vs
  else if String.eqb name "mean" then agg_mean vs
  else agg_std vs.

(** [DataFrame.round(digits)] on one aggregate. *)
Definition round_result (digits : nat) (r : agg_result) : value :=
  match r with
  | Exact (Flt q) => Flt (round_dec digits q)
  | Exact v => v
  | Sqrt q => Flt (round_sqrt digits q)
  end.

(** ** Data frames *)

(** A column by dtype: numeric ([int64]/[float64]), [object] (strings) or
    [category]; a missing entry is [NaN], resp. [None]. *)
Inductive column : Type :=
| NumCol (vs : list value)
| ObjCol (ss : list (option string))
| CatCol (categories : list string) (ss : list (option string)).

Record DataFrame : Type := {
  nrows : nat;
  columns : gmap string column
}.

(** [df[name] = col]. *)
Definition set_column (name : string) (col : column) (df : DataFrame)
  : DataFrame :=
  {| nrows := nrows df; columns := <[name := col]> (columns df) |}.

(** The string entries of a column; a numeric column has none. *)
Definition strings_of (c : column) : list (option string) :=
  match c with
  | NumCol vs => map (fun _ => None) vs
  | ObjCol ss => ss
  | CatCol _ ss => ss
  end.

(** The numeric entries of a column; [None] for a column that holds
    strings.  A column of dtype [object] without rows (every column of a
    file with its header and no record is read so) has no entry, and
    arithmetic and aggregation go through on it as on an empty numeric
    column. *)
Definition numbers_of (c : column) : option (list value) :=
  match c with
  | NumCol vs => Some vs
  | ObjCol [] => Some []
  | _ => None
  end.

(** ** Airport Statistics Aggregator ([create_airport_features]) *)

(** The [agg] dictionary of lines 43-47 and 53-57. *)
Definition agg_spec : list (string * list string) :=
  [ ("ArrDel15", ["count"; "mean"; "std"]);
    ("DepDelay", ["mean"; "std"]);
    ("ArrDelay", ["mean"; "std"]) ].

(** The flattened and prefixed column names of lines 49-50 and 59-60. *)
Definition stat_name (prefix col func : string) : string :=
  prefix +:+ col +:+ "_" +:+ func.

Definition stat_columns (prefix : string) : list string :=
  flat_map (fun cf => map (stat_name prefix (fst cf)) (snd cf)) agg_spec.

(** The rows of one group: the entries of [vs] at the positions where the
    key column holds [k]. *)
Definition group_values (keys : list (option string)) (vs : list value)
    (k : string) : list value :=
  map snd (filter (fun kv => fst kv = Some k) (zip keys vs)).

(** The record of one group: every aggregate of every column, rounded to
    3 digits. *)
Definition group_record (prefix : string) (keys : list (option string))
    (data : list (string * list value)) (k : string) : gmap string value :=
  list_to_map
    (flat_map
       (fun cf =>
          match list_find (fun d => fst d = fst cf) data with
          | Some (_, (_, vs)) =>
              map (fun func =>
                     (stat_name prefix (fst cf) func,
                      round_result 3 (agg_func func (group_values keys vs k))))
                  (snd cf)
          | None => []
          end)
       agg_spec).

(** [KeyError] of [agg] on columns the frame lacks; pandas names them in
    sorted order. *)
Definition missing_columns (df : DataFrame) : list string :=
  filter (fun c => columns df !! c = None) ["ArrDel15"; "ArrDelay"; "DepDelay"].

Definition quote_join (cols : list string) : string :=
  String.concat ", " (map (fun c => "'" +:+ c +:+ "'") cols).

(** The numeric entries of the aggregated columns; the mean of a column
    that holds strings is a [TypeError] (an empty [object] column
    aggregates to nothing, without error). *)
Fixpoint agg_data (df : DataFrame) (cols : list string)
  : M (list (string * list value)) :=
  match cols with
  | [] => ret []
  | c :: cols' =>
      col <- getitem (columns df) c ;;
      match numbers_of col with
      | Some vs =>
          rest <- agg_data df cols' ;;
          ret ((c, vs) :: rest)
      | None => raise (TypeError "agg function failed [how->mean,dtype->object]")
      end
  end.

(** [df.groupby(by).agg(...).round(3)] with flattened, prefixed columns,
    as the dict [to_dict('index')] gives: airport name to record.  A row
    whose key is missing is in no group; the name columns hold strings. *)
Definition groupby_agg (df : DataFrame) (by_ prefix : string)
  : M (gmap string (gmap string value)) :=
  key_col <- getitem (columns df) by_ ;;
  match missing_columns df with
  | [] =>
      data <- agg_data df (map fst agg_spec) ;;
      let keys := strings_of key_col in
      ret (foldr (fun k table => <[k := group_record prefix keys data k]> table)
                 ∅ (omap id keys))
  | cols => raise (KeyError ("Column(s) [" +:+ quote_join cols +:+ "] do not exist"))
  end.

(** Attribute writes. *)
Definition set_airport_stats
    (s : gmap string (gmap string (gmap string value))) : M unit :=
  fun self =>
    (inr tt,
     {| model := model self; label_encoders := label_encoders self;
        scaler := scaler self; feature_columns := feature_columns self;
        airport_stats := s; model_metadata := model_metadata self |}).

Definition set_label_encoders (e : gmap string (list string)) : M unit :=
  fun self =>
    (inr tt,
     {| model := model self; label_encoders := e;
        scaler := scaler self; feature_columns := feature_columns self;
        airport_stats := airport_stats self;
        model_metadata := model_metadata self |}).

Definition set_feature_columns (c : list string) : M unit :=
  fun self =>
    (inr tt,
     {| model := model self; label_encoders := label_encoders self;
        scaler := scaler self; feature_columns := c;
        airport_stats := airport_stats self;
        model_metadata := model_metadata self |}).

Definition set_scaler (s : StandardScaler) : M unit :=
  fun self =>
    (inr tt,
     {| model := model self; label_encoders := label_encoders self;
        scaler := s; feature_columns := feature_columns self;
        airport_stats := airport_stats self;
        model_metadata := model_metadata self |}).

Definition set_model (m : option Classifier) : M unit :=
  fun self =>
    (inr tt,
     {| model := m; label_encoders := label_encoders self;
        scaler := scaler self; feature_columns := feature_columns self;
        airport_stats := airport_stats self;
        model_metadata := model_metadata self |}).

Definition set_model_metadata (md : option Metadata) : M unit :=
  fun self =>
    (inr tt,
     {| model := model self; label_encoders := label_encoders self;
        scaler := scaler self; feature_columns := feature_columns self;
        airport_stats := airport_stats self; model_metadata := md |}).

Definition create_airport_features (df : DataFrame)
  : M (gmap string (gmap string value) * gmap string (gmap string value)) :=
  origin_stats <- groupby_agg df "OriginAirportName" "origin_" ;;
  dest_stats <- groupby_agg df "DestAirportName" "dest_" ;;
  set_airport_stats
    (<["origin" := origin_stats]> (<["dest" := dest_stats]> ∅)) ;;;
  ret (origin_stats, dest_stats).

(** ** Feature Engineer ([feature_engineering]) *)

(** [df.merge(stats, left_on=left_on, right_index=True, how='left')]: every
    row gets the record of its airport, or missing values when the airport
    has no record. *)
Definition merged_column (keys : list (option string))
    (stats : gmap string (gmap string value)) (c : string) : column :=
  NumCol (map (fun k : option string =>
                 match k with
                 | Some airport =>
                     match stats !! airport with
                     | Some record => default NaN (record !! c)
                     | None => NaN
                     end
                 | None => NaN
                 end) keys).

Definition merge (df : DataFrame) (left_on : string)
    (stats : gmap string (gmap string value)) (stat_cols : list string)
  : M DataFrame :=
  key_col <- getitem (columns df) left_on ;;
  let keys := strings_of key_col in
  ret (foldr (fun c df' => set_column c (merged_column keys stats c) df')
             df stat_cols).

(** Python's [v // d] for a positive integer [d]. *)
Definition floordiv (d : Z) (v : value) : value :=
  match v with
  | Int z => Int (z / d)
  | Flt q => Flt (inject_Z (Qfloor (q / inject_Z d)))
  | NaN => NaN
  end.

(** The numeric entries of [df[name]]; arithmetic on a column that holds
    strings is a [TypeError] (on an empty [object] column it gives the
    empty column). *)
Definition numeric_column (df : DataFrame) (name : string) : M (list value) :=
  col <- getitem (columns df) name ;;
  match numbers_of col with
  | Some vs => ret vs
  | None => raise (TypeError "unsupported operand type(s)")
  end.

(** [pd.cut(x, bins, labels)] on one entry, with pandas' defaults
    [right=True, include_lowest=False]: the intervals are
    [(b0, b1], (b1, b2], ...] and an entry in none of them is missing. *)
Fixpoint cut_bins (lo : Z) (edges : list Z) (labels : list string) (x : Q)
  : option string :=
  match edges, labels with
  | hi :: edges', l :: labels' =>
      if negb (Qle_bool x (inject_Z lo)) && Qle_bool x (inject_Z hi)
      then Some l
      else cut_bins hi edges' labels' x
  | _, _ => None
  end.

Definition cut (bins : list Z) (labels : list string) (v : value)
  : option string :=
  match to_Q v, bins with
  | Some x, lo :: edges => cut_bins lo edges labels x
  | _, _ => None
  end.

Definition period_bins : list Z := [0; 6; 12; 18; 24].
Definition period_labels : list string :=
  ["night"; "morning"; "afternoon"; "evening"].

(** Lines 96 and 100-104 composed: the period of a scheduled departure. *)
Definition departure_period (CRSDepTime : value) : option string :=
  cut period_bins period_labels (floordiv 100 CRSDepTime).

Definition state_codes : gmap string Z :=
  list_to_map [
    ("AL", 1); ("AK", 2); ("AZ", 3); ("AR", 4); ("CA", 5); ("CO", 6);
    ("CT", 7); ("DE", 8); ("FL", 9); ("GA", 10); ("HI", 11); ("ID", 12);
    ("IL", 13); ("IN", 14); ("IA", 15); ("KS", 16); ("KY", 17); ("LA", 18);
    ("ME", 19); ("MD", 20); ("MA", 21); ("MI", 22); ("MN", 23); ("MS", 24);
    ("MO", 25); ("MT", 26); ("NE", 27); ("NV", 28); ("NH", 29); ("NJ", 30);
    ("NM", 31); ("NY", 32); ("NC", 33); ("ND", 34); ("OH", 35); ("OK", 36);
    ("OR", 37); ("PA", 38); ("RI", 39); ("SC", 40); ("SD", 41); ("TN", 42);
    ("TX", 43); ("UT", 44); ("VT", 45); ("VA", 46); ("WA", 47); ("WV", 48);
    ("WI", 49); ("WY", 50) ].

(** [astype(float)] on one entry. *)
Definition to_float (v : value) : value :=
  match v with
  | Int z => Flt (inject_Z z)
  | _ => v
  end.

(** [df[name].map(state_codes)]: a state that is not listed, or missing,
    maps to a missing value. *)
Definition mapped_state_codes (col : column) : list value :=
  map (fun s : option string =>
         match s with
         | Some code => from_option Int NaN (state_codes !! code)
         | None => NaN
         end)
      (strings_of col).

(** [df[name].map(state_codes).fillna(0)].  The mapped column is [int64]
    when every state is listed; as soon as one entry is missing it is
    [float64], and stays so after the fill: the codes are then floats and
    the fill value is [0.0]. *)
Definition state_code_column (col : column) : list value :=
  let mapped := mapped_state_codes col in
  if forallb (fun v => negb (isna v)) mapped then mapped
  else map (fun v => fillna (Flt 0) (to_float v)) mapped.

(** [abs(a - b)] on two entries. *)
Definition abs_diff (a b : value) : value :=
  match a, b with
  | Int x, Int y => Int (Z.abs (x - y))
  | _, _ =>
      match to_Q a, to_Q b with
      | Some x, Some y => Flt (Qred (Qabs (x - y)))
      | _, _ => NaN
      end
  end.

(** The integer a number equals, if any ([6.0 == 6] in Python). *)
Definition as_Z (v : value) : option Z :=
  match v with
  | Int z => Some z
  | Flt q => if Qeq_bool q (inject_Z (Qfloor q)) then Some (Qfloor q) else None
  | NaN => None
  end.

Definition season_map : gmap Z string :=
  list_to_map [
    (12, "winter"); (1, "winter"); (2, "winter");
    (3, "spring"); (4, "spring"); (5, "spring");
    (6, "summer"); (7, "summer"); (8, "summer");
    (9, "fall"); (10, "fall"); (11, "fall") ].

(** [df['Month'].map({...})]. *)
Definition season_column (col : column) : list (option string) :=
  match col with
  | NumCol vs =>
      map (fun v => match as_Z v with
                    | Some m => season_map !! m
                    | None => None
                    end) vs
  | _ => map (fun _ => None) (strings_of col)
  end.

(** [df['DayOfWeek'].isin([6, 7]).astype(int)]. *)
Definition is_weekend_column (col : column) : list value :=
  match col with
  | NumCol vs =>
      map (fun v => Int (if bool_decide (as_Z v ∈ [Some 6; Some 7])
                         then 1 else 0)) vs
  | _ => map (fun _ => Int 0) (strings_of col)
  end.

(** Sorting rationals (for the median) and strings (for the mode and the
    label encoder). *)
Fixpoint insert_Q (x : Q) (l : list Q) : list Q :=
  match l with
  | [] => [x]
  | y :: l' => if Qle_bool x y then x :: l else y :: insert_Q x l'
  end.

Definition sort_Q (l : list Q) : list Q := foldr insert_Q [] l.

Fixpoint insert_string (x : string) (l : list string) : list string :=
  match l with
  | [] => [x]
  | y :: l' =>
      match String.compare x y with
      | Lt => x :: l
      | Eq => l
      | Gt => y :: insert_string x l'
      end
  end.

(** [sorted(set(l))]. *)
Definition sorted_unique (l : list string) : list string :=
  foldr insert_string [] l.

(** [Series.median()]: missing entries are skipped; missing if none is left. *)
Definition median (vs : list value) : value :=
  let s := sort_Q (non_na vs) in
  let n := length s in
  match n with
  | O => NaN
  | _ =>
      if Nat.odd n then Flt (nth (n / 2) s 0%Q)
      else Flt (Qred ((nth (n / 2 - 1) s 0 + nth (n / 2) s 0) / 2)%Q)
  end.

Definition occurrences (s : string) (ss : list (option string)) : nat :=
  length (filter (fun o => o = Some s) ss).

(** The most frequent of the [candidates]; among equally frequent ones the
    one listed first. *)
Definition most_frequent (candidates : list string)
    (ss : list (option string)) : option string :=
  foldr (fun c best =>
           match best with
           | Some b =>
               if (occurrences b ss <=? occurrences c ss)%nat
               then Some c else Some b
           | None => if (0 <? occurrences c ss)%nat then Some c else None
           end)
        None candidates.

(** [col.mode().iloc[0] if not col.mode().empty else 'Unknown']: the modes
    come sorted, by value for [object] and by category for [category]. *)
Definition mode_or_unknown (col : column) : string :=
  match col with
  | NumCol _ => "Unknown"
  | ObjCol ss => default "Unknown" (most_frequent (sorted_unique (omap id ss)) ss)
  | CatCol cats ss => default "Unknown" (most_frequent cats ss)
  end.

(** Lines 131-137 on one column: a numeric column is filled with its
    median, a column of strings with its mode. *)
Definition fill_column (col : column) : column :=
  match col with
  | NumCol vs => NumCol (map (fillna (median vs)) vs)
  | ObjCol ss => ObjCol (map (fun o => Some (default (mode_or_unknown col) o)) ss)
  | CatCol cats ss =>
      CatCol cats (map (fun o => Some (default (mode_or_unknown col) o)) ss)
  end.

(** pandas refuses to fill a [category] column with a value that is not one
    of its categories ("Cannot setitem on a Categorical with a new
    category"), also when there is nothing to fill. *)
Definition fillable (col : column) : bool :=
  match col with
  | CatCol cats _ => bool_decide (mode_or_unknown col ∈ cats)
  | _ => true
  end.

Definition fill_missing (df : DataFrame) : M DataFrame :=
  if forallb fillable (map snd (map_to_list (columns df)))
  then ret {| nrows := nrows df; columns := fill_column <$> columns df |}
  else raise (TypeError
    "Cannot setitem on a Categorical with a new category (Unknown), set the categories first").

Definition feature_engineering (df : DataFrame) : M DataFrame :=
  stats <- create_airport_features df ;;
  df <- merge df "OriginAirportName" (fst stats) (stat_columns "origin_") ;;
  df <- merge df "DestAirportName" (snd stats) (stat_columns "dest_") ;;
  dep <- numeric_column df "CRSDepTime" ;;
  let df := set_column "departure_hour" (NumCol (map (floordiv 100) dep)) df in
  arr <- numeric_column df "CRSArrTime" ;;
  let df := set_column "arrival_hour" (NumCol (map (floordiv 100) arr)) df in
  hours <- numeric_column df "departure_hour" ;;
  let df := set_column "departure_period"
              (CatCol period_labels (map (cut period_bins period_labels) hours))
              df in
  origin_state <- getitem (columns df) "OriginState" ;;
  let df := set_column "origin_state_code"
              (NumCol (state_code_column origin_state)) df in
  dest_state <- getitem (columns df) "DestState" ;;
  let df := set_column "dest_state_code"
              (NumCol (state_code_column dest_state)) df in
  let df := set_column "state_distance"
              (NumCol (zip_with abs_diff (state_code_column origin_state)
                                         (state_code_column dest_state))) df in
  month <- getitem (columns df) "Month" ;;
  let df := set_column "season" (ObjCol (season_column month)) df in
  day <- getitem (columns df) "DayOfWeek" ;;
  let df := set_column "is_weekend" (NumCol (is_weekend_column day)) df in
  fill_missing df.

(** ** Encoder bank and trainer ([prepare_features], [train_model]) *)

Definition base_feature_columns : list string :=
  [ "DayOfWeek"; "departure_hour"; "arrival_hour"; "state_distance";
    "is_weekend"; "CRSDepTime"; "CRSArrTime";
    "origin_ArrDel15_count"; "origin_ArrDel15_mean"; "origin_ArrDel15_std";
    "origin_DepDelay_mean"; "origin_DepDelay_std";
    "dest_ArrDel15_count"; "dest_ArrDel15_mean"; "dest_ArrDel15_std";
    "dest_DepDelay_mean"; "dest_DepDelay_std" ].

Definition categorical_features : list string :=
  ["Carrier"; "departure_period"; "season"].

(** [col in df.columns]. *)
Definition has_column (df : DataFrame) (c : string) : bool :=
  bool_decide (is_Some (columns df !! c)).

(** The position of [x] in [classes_], [LabelEncoder.transform([x])[0]]. *)
Definition class_index (classes : list string) (x : string) : Z :=
  match list_find (fun c => c = x) classes with
  | Some (i, _) => Z.of_nat i
  | None => -1
  end.

Fixpoint mapM {A B} (f : A -> M B) (l : list A) : M (list B) :=
  match l with
  | [] => ret []
  | a :: l' =>
      b <- f a ;;
      bs <- mapM f l' ;;
      ret (b :: bs)
  end.

(** [df[names]] as numeric columns. *)
Definition select_columns (df : DataFrame) (names : list string)
  : M (list (string * list value)) :=
  mapM (fun c => vs <- numeric_column df c ;; ret (c, vs)) names.

(** The samples of a feature table, one list per row. *)
Definition rows_of (n : nat) (X : list (string * list value))
  : list (list value) :=
  map (fun i => map (fun cv => nth i (snd cv) NaN) X) (seq 0 n).

(** The candidate families: the keys of the [models] dict of lines
    208-222. *)
Inductive family : Type := RandomForest | GradientBoosting.

Definition family_name (f : family) : string :=
  match f with
  | RandomForest => "RandomForest"
  | GradientBoosting => "GradientBoosting"
  end.

Definition family_of_name (name : string) : option family :=
  if String.eqb name "RandomForest" then Some RandomForest
  else if String.eqb name "GradientBoosting" then Some GradientBoosting
  else None.

(** Both candidates are ensembles of decision trees:
    [RandomForestClassifier(n_estimators=100, max_depth=15, ...)] and
    [GradientBoostingClassifier(n_estimators=100, max_depth=6, ...)] each
    grow [n_estimators] trees of depth at most [max_depth]. *)
Definition tree_based (f : family) : bool :=
  match f with
  | RandomForest => true
  | GradientBoosting => true
  end.

(** The family of the deployed model, as [model_metadata] records it. *)
Definition deployed_family (self : FlightDelayPredictor) : option family :=
  match model_metadata self with
  | Some md => family_of_name (model_type md)
  | None => None
  end.

(** [score > best_score]. *)
Definition Qgt_bool (a b : Q) : bool := negb (Qle_bool a b).

Section Training.

(** [str(x)] on a number, for [astype(str)] on a numeric column. *)
Variable str_number : value -> string.
(** [datetime.now().isoformat()] at the time of the call. *)
Variable now : string.
(** [train_test_split(X, y, test_size=0.2, random_state=42, stratify=y)]
    once the sizes are accepted: the four parts, or the splitter's error. *)
Variable stratified_split :
  list (list value) -> list value ->
  exn + (list (list value) * list (list value) * list value * list value).
(** [StandardScaler().fit(X_train)]: the fitted transform of one sample. *)
Variable StandardScaler_fit : list (list value) -> list value -> list value.
(** [RandomForestClassifier(...).fit] and
    [GradientBoostingClassifier(...).fit]. *)
Variable RandomForestClassifier_fit :
  list (list value) -> list value -> Classifier.
Variable GradientBoostingClassifier_fit :
  list (list value) -> list value -> Classifier.
(** [roc_auc_score(y_true, y_score)]. *)
Variable roc_auc : list value -> list Q -> exn + Q.

(** [col.astype(str)]. *)
Definition astype_str (col : column) : list string :=
  match col with
  | NumCol vs => map str_number vs
  | ObjCol ss => map (default "nan") ss
  | CatCol _ ss => map (default "nan") ss
  end.

(** The body of the loop of lines 161-172 for a feature the frame has. *)
Definition encode_feature (df df_encoded : DataFrame) (feature : string)
  : M DataFrame :=
  col <- getitem (columns df) feature ;;
  self <- get ;;
  match label_encoders self !! feature with
  | None =>
      let classes := sorted_unique (astype_str col) in
      set_label_encoders (<[feature := classes]> (label_encoders self)) ;;;
      ret (set_column (feature +:+ "_encoded")
             (NumCol (map (fun x => Int (class_index classes x))
                          (astype_str col)))
             df_encoded)
  | Some known_categories =>
      ret (set_column (feature +:+ "_encoded")
             (NumCol (map (fun x => Int (class_index known_categories x))
                          (astype_str col)))
             df_encoded)
  end.

Fixpoint encode_features (df : DataFrame) (todo : list string)
    (df_encoded : DataFrame) (feature_columns : list string)
  : M (DataFrame * list string) :=
  match todo with
  | [] => ret (df_encoded, feature_columns)
  | feature :: todo' =>
      if has_column df feature then
        df_encoded' <- encode_feature df df_encoded feature ;;
        encode_features df todo' df_encoded'
          (feature_columns ++ [feature +:+ "_encoded"])
      else encode_features df todo' df_encoded feature_columns
  end.

Definition prepare_features (df : DataFrame)
  : M (list (string * list value)) :=
  enc <- encode_features df categorical_features df base_feature_columns ;;
  let available_features := filter (fun c => has_column (fst enc) c) (snd enc) in
  X <- select_columns (fst enc) available_features ;;
  let X := map (fun cv => (fst cv, map (fillna (median (snd cv))) (snd cv))) X in
  set_feature_columns available_features ;;;
  ret X.

(** The size check of [train_test_split]: with [test_size=0.2] the train
    part has [floor(0.8 n)] samples and must not be empty. *)
Definition n_train (n_samples : nat) : nat := (4 * n_samples / 5)%nat.

Definition train_test_split (X : list (list value)) (y : list value)
  : M (list (list value) * list (list value) * list value * list value) :=
  if (n_train (length X) =? 0)%nat
  then raise (ValueError
    ("With n_samples=" +:+ (if (length X =? 0)%nat then "0" else "1") +:+
     ", test_size=0.2 and train_size=None, the resulting train set will be empty. Adjust any of the aforementioned parameters."))
  else match stratified_split X y with
       | inl e => raise e
       | inr parts => ret parts
       end.

(** [model.predict_proba(X)[:, 1]]. *)
Definition positive_scores (clf : Classifier) (X : list (list value))
  : M (list Q) :=
  match predict_proba clf with
  | Some proba => mapM (fun x => positive_class (proba x)) X
  | None => raise (AttributeError "predict_proba")
  end.

Definition roc_auc_score_of (y_test : list value) (scores : list Q) : M Q :=
  match roc_auc y_test scores with
  | inl e => raise e
  | inr s => ret s
  end.

(** The update of lines 245-248. *)
Definition keep_best (best : option Classifier * Q * string)
    (name : string) (clf : Classifier) (score : Q)
  : option Classifier * Q * string :=
  if Qgt_bool score (snd (fst best)) then (Some clf, score, name) else best.

Definition train_model (df : DataFrame) : M (option Classifier) :=
  df_features <- feature_engineering df ;;
  X <- prepare_features df_features ;;
  y <- numeric_column df_features "ArrDel15" ;;
  parts <- train_test_split (rows_of (nrows df_features) X) y ;;
  let '(X_train, X_test, y_train, y_test) := parts in
  let transform := StandardScaler_fit X_train in
  set_scaler (Some transform) ;;;
  let X_train_scaled := map transform X_train in
  let X_test_scaled := map transform X_test in
  let best := (None, 0%Q, "") in
  (* 'RandomForest': fitted and scored on the unscaled partitions *)
  let rf := RandomForestClassifier_fit X_train y_train in
  scores <- positive_scores rf X_test ;;
  score <- roc_auc_score_of y_test scores ;;
  let best := keep_best best (family_name RandomForest) rf score in
  (* 'GradientBoosting': fitted and scored on the scaled partitions *)
  let gb := GradientBoostingClassifier_fit X_train_scaled y_train in
  scores <- positive_scores gb X_test_scaled ;;
  score <- roc_auc_score_of y_test scores ;;
  let best := keep_best best (family_name GradientBoosting) gb score in
  set_model (fst (fst best)) ;;;
  self <- get ;;
  set_model_metadata (Some {|
    model_type := snd best;
    roc_auc_score := snd (fst best);
    training_samples := length X_train;
    test_samples := length X_test;
    feature_count := length (feature_columns self);
    delay_rate := mean y;
    trained_on := now;
    features := feature_columns self
  |}) ;;;
  ret (fst (fst best)).

End Training.

(** ** The HTTP service ([ml_api.py]) *)

(** The JSON object of a request or of one route, by parameter: [None] when
    the parameter is absent.  The parameters are taken with the types the
    handlers expect (strings and integers). *)
Record request : Type := {
  origin : option string;
  destination : option string;
  dayOfWeek : option Z;
  departureTime : option Z
}.

Record prediction : Type := {
  p_origin : string;
  p_destination : string;
  p_dayOfWeek : string;
  delayProbability : Q;
  probabilityDecimal : Q;
  confidence : string;
  confidenceScore : Q;
  message : string;
  originKnown : bool;
  destinationKnown : bool;
  modelInfo_type : string;
  modelInfo_accuracy : Q
}.

(** One entry of the [predictions] list of [/batch-predict]. *)
Record batch_entry : Type := {
  index : nat;
  route : request;
  outcome : string + Q   (* 'error' text, or 'delayProbability' *)
}.

Definition success (e : batch_entry) : bool :=
  match outcome e with inr _ => true | inl _ => false end.

Inductive body : Type :=
| Error (error : string) (detail : option string)
| Prediction (p : prediction) (timestamp : string)
| Batch (predictions : list batch_entry)
        (total_routes successful_predictions : nat).

(** A JSON body and the HTTP status. *)
Definition response : Type := body * Z.

(** [str(e)]. *)
Definition str_exn (e : exn) : string :=
  match e with
  | ValueError msg => msg
  | KeyError key => "'" +:+ key +:+ "'"
  | TypeError msg => msg
  | AttributeError msg => msg
  | IndexError msg => msg
  | NotFittedError msg => msg
  end.

(** [try: m except Exception as e: ...]: the exception becomes a value; what
    [m] wrote before raising stays. *)
Definition try_ {A} (m : M A) : M (exn + A) :=
  fun self => let '(r, self') := m self in (inr r, self').

Definition day_names : gmap Z string :=
  list_to_map [
    (1, "Monday"); (2, "Tuesday"); (3, "Wednesday"); (4, "Thursday");
    (5, "Friday"); (6, "Saturday"); (7, "Sunday") ].

(** [day_names[day_of_week]]. *)
Definition day_name (day_of_week : Z) : M string :=
  match day_names !! day_of_week with
  | Some name => ret name
  | None => raise (KeyError "day_of_week")
  end.

(** [name in predictor.airport_stats.get(role, {})]. *)
Definition known (self : FlightDelayPredictor) (role name : string) : bool :=
  bool_decide (is_Some (default ∅ (airport_stats self !! role) !! name)).

(** Lines 120-128. *)
Definition confidence_of (origin_known dest_known : bool) : string * Q :=
  if origin_known && dest_known then ("High", 0.9%Q)
  else if origin_known || dest_known then ("Medium", 0.7%Q)
  else ("Low", 0.5%Q).

(** Lines 137-142. *)
Definition message_of (probability : Q) : string :=
  if Qgt_bool probability 0.3 then
    "High likelihood of delay - consider alternative flights"
  else if Qgt_bool probability 0.2 then "Moderate delay risk"
  else "Low delay risk".

Section Service.

(** The global [model_info] and the clock reading of the response. *)
Variable model_info : option Metadata.
Variable now : string.

Definition missing_parameter (param : string) : response :=
  (Error ("Missing required parameter: " +:+ param) None, 400).

(** The [try] block of [predict_delay], lines 89-165. *)
Definition predict_delay_try (data : request) : M response :=
  match origin data, destination data, dayOfWeek data with
  | None, _, _ => ret (missing_parameter "origin")
  | Some _, None, _ => ret (missing_parameter "destination")
  | Some _, Some _, None => ret (missing_parameter "dayOfWeek")
  | Some origin, Some destination, Some day_of_week =>
      if (day_of_week <? 1) || (day_of_week >? 7) then
        ret (Error "dayOfWeek must be an integer between 1 (Monday) and 7 (Sunday)"
                   None, 400)
      else
        probability <- predict_delay_probability origin destination
                         day_of_week (departureTime data) ;;
        self <- get ;;
        let origin_known := known self "origin" origin in
        let dest_known := known self "dest" destination in
        let conf := confidence_of origin_known dest_known in
        day_name <- day_name day_of_week ;;
        ret (Prediction {|
               p_origin := origin;
               p_destination := destination;
               p_dayOfWeek := day_name;
               delayProbability := round_dec 2 (probability * 100);
               probabilityDecimal := round_dec 4 probability;
               confidence := fst conf;
               confidenceScore := snd conf;
               message := message_of probability;
               originKnown := origin_known;
               destinationKnown := dest_known;
               modelInfo_type :=
                 from_option model_type "Unknown" model_info;
               modelInfo_accuracy :=
                 from_option roc_auc_score 0%Q model_info
             |} now, 200)
  end.

(** [/predict]: [None] is the global [predictor] before [load_model]. *)
Definition predict_delay (predictor : option FlightDelayPredictor)
    (data : request) : response * option FlightDelayPredictor :=
  match predictor with
  | None => ((Error "Model not loaded" None, 500), None)
  | Some self =>
      match try_ (predict_delay_try data) self with
      | (inr (inr resp), self') => (resp, Some self')
      | (inr (inl e), self') =>
          ((Error "Prediction failed" (Some (str_exn e)), 500), Some self')
      | (inl e, self') =>
          ((Error "Prediction failed" (Some (str_exn e)), 500), Some self')
      end
  end.

End Service.

(** The double-quote character, for messages that quote a word. *)
Definition dquote : string := String (Ascii.ascii_of_nat 34) EmptyString.

(** [route[param]]. *)
Definition required {A} (param : string) (o : option A) : M A :=
  match o with
  | Some a => ret a
  | None => raise (KeyError param)
  end.

(** The [try] block of the loop of [batch_predict], lines 226-233: the
    parameters are read and the prediction is made, with no check of
    [dayOfWeek]. *)
Definition batch_route_try (route : request) : M Q :=
  origin <- required "origin" (origin route) ;;
  destination <- required "destination" (destination route) ;;
  day_of_week <- required "dayOfWeek" (dayOfWeek route) ;;
  probability <- predict_delay_probability origin destination day_of_week
                   (departureTime route) ;;
  ret (round_dec 2 (probability * 100)).

Definition batch_route (i : nat) (route : request) : M batch_entry :=
  r <- try_ (batch_route_try route) ;;
  ret {| index := i; route := route;
         outcome := match r with
                    | inr p => inr p
                    | inl e => inl (str_exn e)
                    end |}.

Fixpoint batch_routes (i : nat) (routes : list request) : M (list batch_entry) :=
  match routes with
  | [] => ret []
  | route :: routes' =>
      entry <- batch_route i route ;;
      entries <- batch_routes (S i) routes' ;;
      ret (entry :: entries)
  end.

(** [/batch-predict]; [routes] is [None] when the request has no list under
    ['routes']. *)
Definition batch_predict (predictor : option FlightDelayPredictor)
    (routes : option (list request)) : response * option FlightDelayPredictor :=
  match predictor, routes with
  | None, _ => ((Error "Model not loaded" None, 500), None)
  | Some self, None =>
      ((Error ("Request must contain a " +:+ dquote +:+ "routes" +:+ dquote
               +:+ " array") None, 400), Some self)
  | Some self, Some routes =>
      match batch_routes 0 routes self with
      | (inr predictions, self') =>
          ((Batch predictions (length routes)
                  (length (filter (fun p => success p = true) predictions)),
            200), Some self')
      | (inl e, self') =>
          ((Error "Batch prediction failed" (Some (str_exn e)), 500), Some self')
      end
  end.

(** ** Well-formed artifacts *)

(** The records of a role's table carry that role's statistic names only,
    as [create_airport_features] builds them. *)
Definition role_keys (prefix : string)
    (table : gmap string (gmap string value)) : bool :=
  bool_decide
    (map_Forall (fun _ record =>
                   dom record ⊆ (list_to_set (stat_columns prefix) : gset string))
                table).

Definition stats_ok (self : FlightDelayPredictor) : bool :=
  match airport_stats self !! "origin", airport_stats self !! "dest" with
  | Some origin_table, Some dest_table =>
      role_keys "origin_" origin_table && role_keys "dest_" dest_table
  | _, _ => false
  end.

(** A classifier whose [predict_proba] yields the probabilities of the two
    classes. *)
Definition binary (clf : Classifier) : Prop :=
  exists proba,
    predict_proba clf = Some proba /\
    forall x, exists p0 p1, proba x = [p0; p1] /\ (0 <= p1)%Q /\ (p1 <= 1)%Q.

(** A predictor after [train_model] or [load_model]: a binary classifier, a
    fitted scaler and the two tables of statistics. *)
Definition loaded (self : FlightDelayPredictor) : Prop :=
  (exists clf, model self = Some clf /\ binary clf) /\
  is_Some (scaler self) /\
  is_Some (airport_stats self !! "origin") /\
  is_Some (airport_stats self !! "dest").

(** Every column of the frame has no row. *)
Definition column_length (col : column) : nat :=
  match col with
  | NumCol vs => length vs
  | ObjCol ss => length ss
  | CatCol _ ss => length ss
  end.

Definition empty_table (df : DataFrame) : Prop :=
  nrows df = 0%nat /\
  map_Forall (fun _ col => column_length col = 0%nat) (columns df).

(** ** Sample artifacts and frames *)

Definition sample_schema : list string :=
  base_feature_columns ++
  ["Carrier_encoded"; "departure_period_encoded"; "season_encoded"].

Definition jfk_origin_record : gmap string value :=
  list_to_map [
    ("origin_ArrDel15_count", Int 812);
    ("origin_ArrDel15_mean", Flt 0.31);
    ("origin_ArrDel15_std", Flt 0.463);
    ("origin_DepDelay_mean", Flt 14.2);
    ("origin_DepDelay_std", Flt 41.7);
    ("origin_ArrDelay_mean", Flt 9.8);
    ("origin_ArrDelay_std", Flt 44.1) ].

Definition lax_dest_record : gmap string value :=
  list_to_map [
    ("dest_ArrDel15_count", Int 640);
    ("dest_ArrDel15_mean", Flt 0.18);
    ("dest_ArrDel15_std", Flt 0.384);
    ("dest_DepDelay_mean", Flt 7.4);
    ("dest_DepDelay_std", Flt 22.9);
    ("dest_ArrDelay_mean", Flt 3.1);
    ("dest_ArrDelay_std", Flt 25.6) ].

Definition sample_stats : gmap string (gmap string (gmap string value)) :=
  list_to_map [
    ("origin", {[ "JFK" := jfk_origin_record ]});
    ("dest", {[ "LAX" := lax_dest_record ]}) ].

(** A scaler that maps every feature to 0.0, and a classifier whose score
    tells a scaled sample (0.75) from an unscaled one (0.25) by its first
    feature. *)
Definition sample_transform (x : list value) : list value :=
  map (fun _ => Flt 0) x.

Definition sample_proba (x : list value) : list Q :=
  match x with
  | Flt _ :: _ => [0.25; 0.75]%Q
  | _ => [0.75; 0.25]%Q
  end.

Definition sample_classifier : Classifier :=
  {| predict_proba := Some sample_proba; predict := fun _ => 0%Q |}.

Definition sample_metadata (f : family) : Metadata :=
  {| model_type := family_name f;
     roc_auc_score := 0.7;
     training_samples := 80;
     test_samples := 20;
     feature_count := length sample_schema;
     delay_rate := Flt 0.2;
     trained_on := "2025-01-01T00:00:00";
     features := sample_schema |}.

Definition sample_predictor (f : family) : FlightDelayPredictor :=
  {| model := Some sample_classifier;
     label_encoders := ∅;
     scaler := Some sample_transform;
     feature_columns := sample_schema;
     airport_stats := sample_stats;
     model_metadata := Some (sample_metadata f) |}.

(** A corpus of one flight, JFK to LAX. *)
Definition one_flight : DataFrame :=
  {| nrows := 1;
     columns := list_to_map [
       ("Carrier", ObjCol [Some "DL"]);
       ("OriginAirportName", ObjCol [Some "JFK"]);
       ("OriginState", ObjCol [Some "NY"]);
       ("DestAirportName", ObjCol [Some "LAX"]);
       ("DestState", ObjCol [Some "CA"]);
       ("CRSDepTime", NumCol [Int 930]);
       ("CRSArrTime", NumCol [Int 1245]);
       ("DayOfWeek", NumCol [Int 3]);
       ("Month", NumCol [Int 7]);
       ("DepDelay", NumCol [Int 12]);
       ("ArrDelay", NumCol [Int 20]);
       ("ArrDel15", NumCol [Int 1]) ] |}.

(** A corpus of four flights departing at 00:30, 06:15, 12:00 and 11:30;
    JFK is the origin of one of them, LAX of three. *)
Definition four_flights : DataFrame :=
  {| nrows := 4;
     columns := list_to_map [
       ("Carrier", ObjCol [Some "DL"; Some "AA"; Some "DL"; Some "UA"]);
       ("OriginAirportName",
          ObjCol [Some "JFK"; Some "LAX"; Some "LAX"; Some "LAX"]);
       ("OriginState", ObjCol [Some "NY"; Some "CA"; Some "CA"; Some "CA"]);
       ("DestAirportName",
          ObjCol [Some "LAX"; Some "JFK"; Some "JFK"; Some "JFK"]);
       ("DestState", ObjCol [Some "CA"; Some "NY"; Some "NY"; Some "NY"]);
       ("CRSDepTime", NumCol [Int 30; Int 615; Int 1200; Int 1130]);
       ("CRSArrTime", NumCol [Int 330; Int 915; Int 1500; Int 1430]);
       ("DayOfWeek", NumCol [Int 1; Int 2; Int 6; Int 7]);
       ("Month", NumCol [Int 1; Int 4; Int 7; Int 10]);
       ("DepDelay", NumCol [Int 0; Int 5; Int 30; Int (-2)]);
       ("ArrDelay", NumCol [Int (-4); Int 3; Int 41; Int 0]);
       ("ArrDel15", NumCol [Int 0; Int 0; Int 1; Int 0]) ] |}.

(** A cleaned file with its header and no record: [read_csv] gives every
    column the dtype [object]. *)
Definition no_flight : DataFrame :=
  {| nrows := 0;
     columns := list_to_map [
       ("Carrier", ObjCol []);
       ("OriginAirportName", ObjCol []);
       ("OriginState", ObjCol []);
       ("DestAirportName", ObjCol []);
       ("DestState", ObjCol []);
       ("CRSDepTime", ObjCol []);
       ("CRSArrTime", ObjCol []);
       ("DayOfWeek", ObjCol []);
       ("Month", ObjCol []);
       ("DepDelay", ObjCol []);
       ("ArrDelay", ObjCol []);
       ("ArrDel15", ObjCol []) ] |}.

(** The same corpus as [one_flight] without the target column. *)
Definition no_target : DataFrame :=
  {| nrows := 1; columns := delete "ArrDel15" (columns one_flight) |}.


(** ** Reading the artifacts *)

(** The [sample_data] dict in closed form. *)
Definition synthesized (origin_table dest_table : gmap string (gmap string value))
    (origin_airport dest_airport : string) (day_of_week : Z)
    (departure_time : option Z) : gmap string value :=
  update
    (add_airport_stats dest_table dest_airport avg_dest_stats
       (add_airport_stats origin_table origin_airport avg_origin_stats
          (base_sample day_of_week departure_time)))
    default_encodings.

(** [table[airport][name]] where both keys exist. *)
Definition stat (table : gmap string (gmap string value))
    (airport name : string) : option value :=
  match table !! airport with
  | Some record => record !! name
  | None => None
  end.

(** The three standard deviations of a role's record. *)
Definition std_names (prefix : string) : list string :=
  [ stat_name prefix "ArrDel15" "std"; stat_name prefix "DepDelay" "std";
    stat_name prefix "ArrDelay" "std" ].

(** What [feature_engineering] may change of a predictor: the airport
    statistics only. *)
Definition same_fit (s s' : FlightDelayPredictor) : Prop :=
  model s' = model s /\ scaler s' = scaler s /\
  model_metadata s' = model_metadata s /\
  label_encoders s' = label_encoders s /\
  feature_columns s' = feature_columns s.

(** A computation that leaves the predictor as it is. *)
Definition reads_only {A} (m : M A) : Prop :=
  forall s, snd (m s) = s.

(** [train_model] with stand-ins for scikit-learn: a splitter that returns
    the whole table for both parts, the sample scaler and classifier, and a
    metric that is constantly 0.5. *)
Definition sample_train_model : DataFrame -> M (option Classifier) :=
  train_model (fun _ => "0") "2025-01-01T00:00:00"
    (fun X y => inr (X, X, y, y))
    (fun _ => sample_transform)
    (fun _ _ => sample_classifier)
    (fun _ _ => sample_classifier)
    (fun _ _ => inr 0.5%Q).

(** ** Model Artifact Store ([save_model], [load_model]) *)

(** A file of the model directory, by what [save_model] writes under its
    name: three pickles and three JSON documents. *)
Inductive artifact : Type :=
| PickledModel (m : option Classifier)
| PickledScaler (s : StandardScaler)
| PickledEncoders (e : gmap string (list string))
| JsonStats (s : gmap string (gmap string (gmap string value)))
| JsonColumns (c : list string)
| JsonMetadata (md : option Metadata).

(** The file system: the files of each directory, by name. *)
Definition filesystem : Type := gmap string (gmap string artifact).

Inductive io_error : Type :=
| FileNotFoundError (path : string)
| UnreadableFile (path : string).

(** [os.path.join(model_dir, name)]. *)
Definition path_join (model_dir name : string) : string :=
  model_dir +:+ "/" +:+ name.

(** [os.makedirs(model_dir, exist_ok=True)] and the six writes of
    [save_model], in the order of the source. *)
Definition save_model (model_dir : string) (self : FlightDelayPredictor)
    (fs : filesystem) : filesystem :=
  let files := default ∅ (fs !! model_dir) in
  let files := <["flight_delay_model.pkl" := PickledModel (model self)]> files in
  let files := <["scaler.pkl" := PickledScaler (scaler self)]> files in
  let files := <["label_encoders.pkl" := PickledEncoders (label_encoders self)]> files in
  let files := <["airport_stats.json" := JsonStats (airport_stats self)]> files in
  let files := <["feature_columns.json" := JsonColumns (feature_columns self)]> files in
  let files := <["model_metadata.json" := JsonMetadata (model_metadata self)]> files in
  <[model_dir := files]> fs.

(** Opening a file for reading. *)
Definition read_file (fs : filesystem) (model_dir name : string)
  : io_error + artifact :=
  match fs !! model_dir with
  | Some files =>
      match files !! name with
      | Some a => inr a
      | None => inl (FileNotFoundError (path_join model_dir name))
      end
  | None => inl (FileNotFoundError (path_join model_dir name))
  end.

(** [load_model]: six reads, each followed by the assignment of its
    attribute; the first read that fails ends the call, with the earlier
    assignments made.  A file is taken to hold what [save_model] writes
    under its name; any other content is an unreadable file. *)
Definition load_model (model_dir : string) (fs : filesystem)
    (self : FlightDelayPredictor) : (io_error + unit) * FlightDelayPredictor :=
  match read_file fs model_dir "flight_delay_model.pkl" with
  | inl e => (inl e, self)
  | inr (PickledModel m) =>
    let self := snd (set_model m self) in
    match read_file fs model_dir "scaler.pkl" with
    | inl e => (inl e, self)
    | inr (PickledScaler s) =>
      let self := snd (set_scaler s self) in
      match read_file fs model_dir "label_encoders.pkl" with
      | inl e => (inl e, self)
      | inr (PickledEncoders enc) =>
        let self := snd (set_label_encoders enc self) in
        match read_file fs model_dir "airport_stats.json" with
        | inl e => (inl e, self)
        | inr (JsonStats stats) =>
          let self := snd (set_airport_stats stats self) in
          match read_file fs model_dir "feature_columns.json" with
          | inl e => (inl e, self)
          | inr (JsonColumns cols) =>
            let self := snd (set_feature_columns cols self) in
            match read_file fs model_dir "model_metadata.json" with
            | inl e => (inl e, self)
            | inr (JsonMetadata md) =>
                (inr tt, snd (set_model_metadata md self))
            | inr _ =>
                (inl (UnreadableFile (path_join model_dir "model_metadata.json")),
                 self)
            end
          | inr _ =>
              (inl (UnreadableFile (path_join model_dir "feature_columns.json")),
               self)
          end
        | inr _ =>
            (inl (UnreadableFile (path_join model_dir "airport_stats.json")), self)
        end
      | inr _ =>
          (inl (UnreadableFile (path_join model_dir "label_encoders.pkl")), self)
      end
    | inr _ => (inl (UnreadableFile (path_join model_dir "scaler.pkl")), self)
    end
  | inr _ =>
      (inl (UnreadableFile (path_join model_dir "flight_delay_model.pkl")), self)
  end.

(** ** Start-up and the read-only endpoints of [ml_api.py] *)

(** The module globals [predictor] and [model_info]; an empty
    [model_info] dict is [None]. *)
Record globals : Type := {
  predictor : option FlightDelayPredictor;
  model_info : option Metadata
}.

(** The globals when the module is imported. *)
Definition initial_globals : globals :=
  {| predictor := None; model_info := None |}.

(** [load_model()] of [ml_api.py] for the directory [model_dir]: the result
    and the globals it leaves.  [predictor] is assigned a fresh object
    before anything is read; [model_info] is assigned after a load.  The
    message printed then formats [roc_auc_score] with [:.4f], which raises
    on the default ['N/A'] of an empty [model_info]; every exception is
    caught and gives [False]. *)
Definition api_load_model (model_dir : string) (fs : filesystem)
    (g : globals) : bool * globals :=
  match fs !! model_dir with
  | Some _ =>
      match load_model model_dir fs init with
      | (inr _, self) =>
          match read_file fs model_dir "model_metadata.json" with
          | inr (JsonMetadata md) =>
              (match md with Some _ => true | None => false end,
               {| predictor := Some self; model_info := md |})
          | _ => (false, {| predictor := Some self; model_info := model_info g |})
          end
      | (inl _, self) =>
          (false, {| predictor := Some self; model_info := model_info g |})
      end
  | None => (false, {| predictor := Some init; model_info := model_info g |})
  end.

(** [/health]: the ['model_loaded'] field. *)
Definition health_check (g : globals) : bool :=
  match predictor g with Some _ => true | None => false end.

(** [/model/info]: the two counts of ['available_airports'], or the 500
    answer. *)
Definition model_info_endpoint (g : globals) : string + (nat * nat) :=
  match predictor g with
  | None => inl "Model not loaded"
  | Some self =>
      inr (size (default ∅ (airport_stats self !! "origin")),
           size (default ∅ (airport_stats self !! "dest")))
  end.

(** The entry that [batch_predict] appends for the route at position [i]. *)
Definition entry_of (self : FlightDelayPredictor) (i : nat) (r : request)
  : batch_entry :=
  {| index := i; route := r;
     outcome := match fst (batch_route_try r self) with
                | inr p => inr p
                | inl e => inl (str_exn e)
                end |}.

(** The order of [sorted]: [x < y] on Python strings. *)
Definition string_lt (x y : string) : Prop := String.compare x y = Lt.

(** What [prepare_features] may change of a predictor: the encoders and
    the schema only. *)
Definition same_model (s s' : FlightDelayPredictor) : Prop :=
  model s' = model s /\ scaler s' = scaler s /\
  model_metadata s' = model_metadata s /\
  airport_stats s' = airport_stats s.

(** The names [prepare_features] appends to the schema for the categorical
    features that the table has. *)
Definition encoded_names (df : DataFrame) : list string :=
  flat_map (fun feature =>
              if has_column df feature then [feature +:+ "_encoded"] else [])
           categorical_features.

(** The outcome of the two rounds of the selection loop, lines 224-248. *)
Definition selection (rf gb : Classifier) (score_rf score_gb : Q)
  : option Classifier * Q * string :=
  keep_best (keep_best (None, 0%Q, "") (family_name RandomForest) rf score_rf)
            (family_name GradientBoosting) gb score_gb.

(** A record with every statistic of its role. *)
Definition complete_records (prefix : string)
    (table : gmap string (gmap string value)) : Prop :=
  map_Forall (fun _ record =>
                forall k, k ∈ stat_columns prefix -> is_Some (record !! k))
             table.

(** ** Airport listing ([get_airports]) *)

(** [list(d.keys())].  A [gmap] keeps no insertion order: the list comes in
    the order of the map's enumeration, and only membership and length are
    used of it. *)
Definition keys (d : gmap string (gmap string value)) : list string :=
  (map_to_list d).*1.

(** The ['airports'] and ['count'] objects of the answer of [/airports]. *)
Record airports : Type := {
  all_airports : list string;
  origin_only : list string;
  destination_only : list string;
  both : list string;
  total_unique : nat;
  origin_airports : nat;
  dest_airports : nat
}.

(** [/airports]: the listing, or the 500 answer. *)
Definition get_airports (g : globals) : string + airports :=
  match predictor g with
  | None => inl "Model not loaded"
  | Some self =>
      let origin_airports := keys (default ∅ (airport_stats self !! "origin")) in
      let dest_airports := keys (default ∅ (airport_stats self !! "dest")) in
      let all_airports := sorted_unique (origin_airports ++ dest_airports) in
      inr {| all_airports := all_airports;
             origin_only :=
               filter (fun apt => apt ∉ dest_airports) origin_airports;
             destination_only :=
               filter (fun apt => apt ∉ origin_airports) dest_airports;
             both := filter (fun apt => apt ∈ dest_airports) origin_airports;
             total_unique := length all_airports;
             origin_airports := length origin_airports;
             dest_airports := length dest_airports |}
  end.

(** ** Data cleaner ([data_cleaner.py]) *)

(** A cell of the table that [pd.read_csv] gives: a number, a string, or a
    null (NaN). *)
Inductive cell : Type :=
| Num (q : Q)
| Str (s : string)
| Null.

(** A raw table: its columns by name, each the list of its cells. *)
Definition table : Type := gmap string (list cell).

(** [Series.fillna(d)] on one cell. *)
Definition cell_fillna (d c : cell) : cell :=
  match c with
  | Null => d
  | _ => c
  end.

(** [Series.replace('', 'Unknown')] on one cell. *)
Definition replace_empty (c : cell) : cell :=
  match c with
  | Str s => if String.eqb s "" then Str "Unknown" else c
  | _ => c
  end.

Definition numeric_columns : list string :=
  ["DepDelay"; "ArrDelay"; "DepDel15"; "ArrDel15"; "CRSDepTime"; "CRSArrTime"].

Definition string_columns : list string :=
  ["Carrier"; "OriginAirportName"; "OriginCity"; "OriginState";
   "DestAirportName"; "DestCity"; "DestState"].

Definition id_columns : list string := ["OriginAirportID"; "DestAirportID"].

(** [if col in df.columns: df[col] = f(df[col])], cell by cell. *)
Definition update_column (f : cell -> cell) (df : table) (col : string)
  : table :=
  alter (map f) col df.

(** Lines 33-63: the cleaned copy of the table. *)
Definition clean_table (df : table) : table :=
  let df_clean := df in
  let df_clean :=
    foldl (update_column (cell_fillna (Num 0))) df_clean numeric_columns in
  let df_clean := update_column (cell_fillna (Num 0)) df_clean "Cancelled" in
  let df_clean :=
    foldl (fun df col =>
             update_column replace_empty
               (update_column (cell_fillna (Str "Unknown")) df col) col)
          df_clean string_columns in
  foldl (update_column (cell_fillna (Num 0))) df_clean id_columns.

(** [clean_flight_data] on a store of CSV files, each taken to hold a
    table: the store after the call, or [None] when the input file is not
    there and nothing is written.  Only the store is modelled, not how the
    call ends: the summary printed after the save (lines 86-91) writes
    nothing, and it raises a [KeyError] when [Carrier],
    [OriginAirportName], [DestAirportName] or [ArrDel15] is not a column,
    with the output file already written. *)
Definition clean_flight_data (input_file output_file : string)
    (fs : gmap string table) : option (gmap string table) :=
  match fs !! input_file with
  | Some df => Some (<[output_file := clean_table df]> fs)
  | None => None
  end.

(** The sixteen columns the cleaner names. *)
Definition cleaned_columns : list string :=
  numeric_columns ++ ["Cancelled"] ++ string_columns ++ id_columns.

(** A raw file of two records with a null delay, a null and an empty
    carrier, and a column the cleaner does not name. *)
Definition raw_flights : table :=
  list_to_map [
    ("Carrier", [Null; Str ""]);
    ("OriginAirportName", [Str "JFK"; Str "LAX"]);
    ("DepDelay", [Num 5; Null]);
    ("ArrDel15", [Num 0; Num 1]);
    ("Year", [Num 2013; Null]) ].

(** The engineered table of a sample corpus, on a fresh predictor. *)
Definition engineered (df : DataFrame) : DataFrame :=
  match fst (feature_engineering df init) with
  | inr df' => df'
  | inl _ => df
  end.

(** * Properties *)

(** ** The method monad *)

Lemma bind_inr {A B} (m : M A) (k : A -> M B) self a self' :
  m self = (inr a, self') -> bind m k self = k a self'.
Proof. intros H. unfold bind. rewrite H. reflexivity. Qed.

Lemma bind_inl {A B} (m : M A) (k : A -> M B) self e self' :
  m self = (inl e, self') -> bind m k self = (inl e, self').
Proof. intros H. unfold bind. rewrite H. reflexivity. Qed.

(** A computation that returned went through each of its steps. *)
Lemma bind_inv {A B} (m : M A) (k : A -> M B) self b self'' :
  bind m k self = (inr b, self'') ->
  exists a self', m self = (inr a, self') /\ k a self' = (inr b, self'').
Proof.
  unfold bind. destruct (m self) as [[e | a] self'] eqn:Hm; intros H.
  - discriminate.
  - eauto.
Qed.

Lemma getitem_Some {A} (d : gmap string A) k a self :
  d !! k = Some a -> getitem d k self = (inr a, self).
Proof. intros H. unfold getitem. rewrite H. reflexivity. Qed.

Lemma getitem_None {A} (d : gmap string A) k self :
  d !! k = None -> getitem d k self = (inl (KeyError k), self).
Proof. intros H. unfold getitem. rewrite H. reflexivity. Qed.

Lemma getitem_state {A} (d : gmap string A) k self :
  snd (getitem d k self) = self.
Proof. unfold getitem. destruct (d !! k); reflexivity. Qed.

Lemma getitem_inv {A} (d : gmap string A) k a self self' :
  getitem d k self = (inr a, self') -> d !! k = Some a /\ self' = self.
Proof.
  unfold getitem. destruct (d !! k); cbv [ret raise]; intros H.
  - injection H as -> ->. auto.
  - discriminate.
Qed.

(** ** Query-time synthesis *)

Lemma sample_data_spec self o d day dep ot dt :
  airport_stats self !! "origin" = Some ot ->
  airport_stats self !! "dest" = Some dt ->
  sample_data o d day dep self = (inr (synthesized ot dt o d day dep), self).
Proof.
  intros Ho Hd. unfold sample_data.
  rewrite (bind_inr _ _ self self self) by reflexivity.
  rewrite (bind_inr _ _ self ot self) by (apply getitem_Some; exact Ho).
  rewrite (bind_inr _ _ self dt self) by (apply getitem_Some; exact Hd).
  reflexivity.
Qed.

Lemma sample_data_state o d day dep self :
  snd (sample_data o d day dep self) = self.
Proof.
  unfold sample_data, bind, get, getitem, ret, raise.
  destruct (airport_stats self !! "origin"); [| reflexivity].
  destruct (airport_stats self !! "dest"); reflexivity.
Qed.

Lemma X_sample_spec self o d day dep ot dt :
  airport_stats self !! "origin" = Some ot ->
  airport_stats self !! "dest" = Some dt ->
  X_sample o d day dep self =
    (inr (select_features (feature_columns self)
            (synthesized ot dt o d day dep)), self).
Proof.
  intros Ho Hd. unfold X_sample.
  rewrite (bind_inr _ _ self _ self (sample_data_spec self o d day dep ot dt Ho Hd)).
  reflexivity.
Qed.

Lemma X_sample_state o d day dep self :
  snd (X_sample o d day dep self) = self.
Proof.
  unfold X_sample, bind.
  pose proof (sample_data_state o d day dep self) as H.
  destruct (sample_data o d day dep self) as [[e | data] self']; simpl in H;
    subst self'; reflexivity.
Qed.

Lemma select_features_names cols data :
  map fst (select_features cols data) = cols.
Proof.
  unfold select_features. rewrite map_map. simpl. apply map_id.
Qed.

Lemma select_features_lookup cols data (i : nat) col :
  cols !! i = Some col ->
  select_features cols data !! i =
    Some (col, fillna (Flt 0) (default (Int 0) (data !! col))).
Proof.
  intros H. unfold select_features. rewrite list_lookup_fmap, H. reflexivity.
Qed.

Lemma fillna_not_missing d v : isna d = false -> isna (fillna d v) = false.
Proof. intros Hd. unfold fillna. destruct v; simpl; auto. Qed.

Lemma select_features_filled cols data :
  Forall (fun cv => isna (snd cv) = false) (select_features cols data).
Proof.
  unfold select_features. apply Forall_fmap, Forall_forall. intros col _.
  simpl. apply fillna_not_missing. reflexivity.
Qed.

(** C1. For every route query on a predictor that holds the two statistics
    tables, synthesis succeeds and the feature vector carries exactly the
    names of [feature_columns], in that order; no entry is missing, and a
    schema name that [sample_data] does not produce carries the integer 0. *)
Theorem feature_vector_matches_schema self o d day dep :
  is_Some (airport_stats self !! "origin") ->
  is_Some (airport_stats self !! "dest") ->
  exists data X,
    sample_data o d day dep self = (inr data, self) /\
    X_sample o d day dep self = (inr X, self) /\
    map fst X = feature_columns self /\
    Forall (fun cv => isna (snd cv) = false) X /\
    (forall (i : nat) col,
        feature_columns self !! i = Some col ->
        data !! col = None ->
        X !! i = Some (col, Int 0)).
Proof.
  intros [ot Ho] [dt Hd].
  exists (synthesized ot dt o d day dep),
         (select_features (feature_columns self) (synthesized ot dt o d day dep)).
  split; [apply sample_data_spec; assumption |].
  split; [apply X_sample_spec; assumption |].
  split; [apply select_features_names |].
  split; [apply select_features_filled |].
  intros i col Hi Hnone.
  rewrite (select_features_lookup _ _ _ _ Hi), Hnone. reflexivity.
Qed.

(** A schema with a name no step of the synthesis produces, on the sample
    artifacts. *)
Lemma feature_vector_matches_schema_witness :
  exists data X,
    sample_data "JFK" "Nowhere" 3 None (sample_predictor RandomForest)
      = (inr data, sample_predictor RandomForest) /\
    X_sample "JFK" "Nowhere" 3 None (sample_predictor RandomForest)
      = (inr X, sample_predictor RandomForest) /\
    map fst X = feature_columns (sample_predictor RandomForest) /\
    Forall (fun cv => isna (snd cv) = false) X /\
    (forall (i : nat) col,
        feature_columns (sample_predictor RandomForest) !! i = Some col ->
        data !! col = None ->
        X !! i = Some (col, Int 0)).
Proof.
  apply (feature_vector_matches_schema (sample_predictor RandomForest)).
  - vm_compute. eexists. reflexivity.
  - vm_compute. eexists. reflexivity.
Defined.

(** ** Keys of the statistics records *)

Lemma stat_columns_origin :
  stat_columns "origin_" =
    [ "origin_ArrDel15_count"; "origin_ArrDel15_mean"; "origin_ArrDel15_std";
      "origin_DepDelay_mean"; "origin_DepDelay_std";
      "origin_ArrDelay_mean"; "origin_ArrDelay_std" ].
Proof. reflexivity. Qed.

Lemma stat_columns_dest :
  stat_columns "dest_" =
    [ "dest_ArrDel15_count"; "dest_ArrDel15_mean"; "dest_ArrDel15_std";
      "dest_DepDelay_mean"; "dest_DepDelay_std";
      "dest_ArrDelay_mean"; "dest_ArrDelay_std" ].
Proof. reflexivity. Qed.

(** Case analysis on a key known to be one of a role's statistic names. *)
Ltac stat_key_cases H :=
  first [ rewrite stat_columns_origin in H | rewrite stat_columns_dest in H ];
  set_unfold in H;
  repeat (destruct H as [H | H]; [subst |]); try subst; try contradiction.

Lemma origin_key_fresh k :
  k ∈ (list_to_set (stat_columns "origin_") : gset string) ->
  default_encodings !! k = None /\ avg_dest_stats !! k = None /\
  (k ∉ (list_to_set (stat_columns "dest_") : gset string)) /\
  k <> "arrival_hour" /\ k <> "CRSArrTime".
Proof.
  intros H. stat_key_cases H;
    (refine (conj _ (conj _ (conj _ (conj _ _))));
     [reflexivity | reflexivity | | discriminate | discriminate]);
    intros H; stat_key_cases H; discriminate.
Qed.

Lemma dest_key_fresh k :
  k ∈ (list_to_set (stat_columns "dest_") : gset string) ->
  default_encodings !! k = None /\
  k <> "arrival_hour" /\ k <> "CRSArrTime".
Proof.
  intros H. stat_key_cases H;
    (refine (conj _ (conj _ _)); [reflexivity | discriminate | discriminate]).
Qed.

Lemma avg_origin_keys k v :
  avg_origin_stats !! k = Some v ->
  k ∈ (list_to_set (stat_columns "origin_") : gset string) /\ is_zero v = false.
Proof.
  intros H. unfold avg_origin_stats in H.
  apply elem_of_list_to_map_2 in H. rewrite stat_columns_origin.
  set_unfold in H.
  repeat (destruct H as [H | H]; [injection H as -> ->; split; [set_solver | reflexivity] |]).
  contradiction.
Qed.

Lemma avg_dest_keys k v :
  avg_dest_stats !! k = Some v ->
  k ∈ (list_to_set (stat_columns "dest_") : gset string) /\ is_zero v = false.
Proof.
  intros H. unfold avg_dest_stats in H.
  apply elem_of_list_to_map_2 in H. rewrite stat_columns_dest.
  set_unfold in H.
  repeat (destruct H as [H | H]; [injection H as -> ->; split; [set_solver | reflexivity] |]).
  contradiction.
Qed.

Lemma role_keys_lookup prefix table airport record k v :
  role_keys prefix table = true ->
  table !! airport = Some record ->
  record !! k = Some v ->
  k ∈ (list_to_set (stat_columns prefix) : gset string).
Proof.
  intros Hok Hrec Hk. unfold role_keys in Hok.
  apply bool_decide_eq_true in Hok.
  specialize (Hok airport record Hrec). apply Hok.
  apply elem_of_dom. eauto.
Qed.

(** The record a role contributes: stored or average. *)
Lemma add_airport_stats_lookup table airport avg base k :
  add_airport_stats table airport avg base !! k =
    match default avg (table !! airport) !! k with
    | Some v => Some v
    | None => base !! k
    end.
Proof.
  unfold add_airport_stats, update.
  destruct (table !! airport) as [record |]; simpl; rewrite lookup_union;
    destruct (_ !! k), (base !! k); reflexivity.
Qed.

Lemma contributed_keys prefix table airport avg k v :
  role_keys prefix table = true ->
  (forall k v, avg !! k = Some v ->
               k ∈ (list_to_set (stat_columns prefix) : gset string)) ->
  default avg (table !! airport) !! k = Some v ->
  k ∈ (list_to_set (stat_columns prefix) : gset string).
Proof.
  intros Hok Havg. destruct (table !! airport) as [record |] eqn:Hrec; simpl.
  - intros Hk. eapply role_keys_lookup; eauto.
  - apply Havg.
Qed.

Lemma synthesized_lookup ot dt o d day dep k :
  synthesized ot dt o d day dep !! k =
    match default_encodings !! k with
    | Some v => Some v
    | None =>
        match default avg_dest_stats (dt !! d) !! k with
        | Some v => Some v
        | None =>
            match default avg_origin_stats (ot !! o) !! k with
            | Some v => Some v
            | None => base_sample day dep !! k
            end
        end
    end.
Proof.
  unfold synthesized, update. rewrite lookup_union.
  rewrite !add_airport_stats_lookup.
  destruct (default_encodings !! k); simpl;
    destruct (default avg_dest_stats (dt !! d) !! k); simpl;
    destruct (default avg_origin_stats (ot !! o) !! k); simpl;
    destruct (base_sample day dep !! k); reflexivity.
Qed.

Lemma synthesized_dest ot dt o d day dep k v :
  role_keys "dest_" dt = true ->
  default avg_dest_stats (dt !! d) !! k = Some v ->
  synthesized ot dt o d day dep !! k = Some v.
Proof.
  intros Hdt Hk. rewrite synthesized_lookup.
  assert (k ∈ (list_to_set (stat_columns "dest_") : gset string)) as Hin.
  { eapply contributed_keys; eauto. intros k' v' H'. apply (avg_dest_keys k' v' H'). }
  destruct (dest_key_fresh k Hin) as [-> _]. rewrite Hk. reflexivity.
Qed.

Lemma synthesized_origin ot dt o d day dep k v :
  role_keys "origin_" ot = true ->
  role_keys "dest_" dt = true ->
  default avg_origin_stats (ot !! o) !! k = Some v ->
  synthesized ot dt o d day dep !! k = Some v.
Proof.
  intros Hot Hdt Hk. rewrite synthesized_lookup.
  assert (k ∈ (list_to_set (stat_columns "origin_") : gset string)) as Hin.
  { eapply contributed_keys; eauto. intros k' v' H'. apply (avg_origin_keys k' v' H'). }
  destruct (origin_key_fresh k Hin) as (-> & _ & Hnd & _).
  destruct (default avg_dest_stats (dt !! d) !! k) as [v' |] eqn:Hd.
  - exfalso. apply Hnd. eapply contributed_keys; eauto.
    intros k' v'' H'. apply (avg_dest_keys k' v'' H').
  - rewrite Hk. reflexivity.
Qed.

Lemma synthesized_base ot dt o d day dep k :
  role_keys "origin_" ot = true ->
  role_keys "dest_" dt = true ->
  default_encodings !! k = None ->
  k ∉ (list_to_set (stat_columns "origin_") : gset string) ->
  k ∉ (list_to_set (stat_columns "dest_") : gset string) ->
  synthesized ot dt o d day dep !! k = base_sample day dep !! k.
Proof.
  intros Hot Hdt Henc Hno Hnd. rewrite synthesized_lookup, Henc.
  destruct (default avg_dest_stats (dt !! d) !! k) as [v |] eqn:Hd.
  { exfalso. apply Hnd. eapply contributed_keys; eauto.
    intros k' v' H'. apply (avg_dest_keys k' v' H'). }
  destruct (default avg_origin_stats (ot !! o) !! k) as [v |] eqn:Ho.
  { exfalso. apply Hno. eapply contributed_keys; eauto.
    intros k' v' H'. apply (avg_origin_keys k' v' H'). }
  reflexivity.
Qed.

Lemma stats_ok_tables self :
  stats_ok self = true ->
  exists ot dt,
    airport_stats self !! "origin" = Some ot /\
    airport_stats self !! "dest" = Some dt /\
    role_keys "origin_" ot = true /\ role_keys "dest_" dt = true.
Proof.
  unfold stats_ok.
  destruct (airport_stats self !! "origin") as [ot |]; [| discriminate].
  destruct (airport_stats self !! "dest") as [dt |]; [| discriminate].
  intros H. apply andb_true_iff in H. destruct H. eauto 6.
Qed.

(** ** Scoring *)

Lemma scaler_transform_spec self transform X :
  scaler self = Some transform ->
  scaler_transform X self = (inr (transform X), self).
Proof.
  intros H. unfold scaler_transform, bind, get. rewrite H. reflexivity.
Qed.

(** [predict_delay_probability] in closed form on a predictor that holds a
    classifier with [predict_proba], a fitted scaler and the two tables. *)
Lemma predict_delay_probability_spec self clf proba transform ot dt o d day dep p :
  model self = Some clf ->
  predict_proba clf = Some proba ->
  scaler self = Some transform ->
  airport_stats self !! "origin" = Some ot ->
  airport_stats self !! "dest" = Some dt ->
  let X := map snd (select_features (feature_columns self)
                      (synthesized ot dt o d day dep)) in
  proba (model_input self X (transform X)) !! 1%nat = Some p ->
  predict_delay_probability o d day dep self = (inr p, self).
Proof.
  intros Hm Hp Hs Ho Hd X Hrow. unfold predict_delay_probability.
  rewrite (bind_inr _ _ self self self) by reflexivity.
  rewrite Hm.
  rewrite (bind_inr _ _ self _ self (X_sample_spec self o d day dep ot dt Ho Hd)).
  rewrite (bind_inr _ _ self _ self (scaler_transform_spec self transform _ Hs)).
  rewrite Hp. unfold positive_class. fold X. rewrite Hrow. reflexivity.
Qed.

Lemma loaded_predicts self o d day dep :
  loaded self ->
  exists p, predict_delay_probability o d day dep self = (inr p, self) /\
            (0 <= p)%Q /\ (p <= 1)%Q.
Proof.
  intros ((clf & Hm & proba & Hp & Hrow) & [transform Hs] & [ot Ho] & [dt Hd]).
  set (X := map snd (select_features (feature_columns self)
                       (synthesized ot dt o d day dep))).
  destruct (Hrow (model_input self X (transform X))) as (p0 & p1 & Hx & H0 & H1).
  exists p1. split; [| split; assumption].
  eapply predict_delay_probability_spec; eauto.
  fold X. rewrite Hx. reflexivity.
Qed.

(** Prediction leaves the predictor as it found it, whether it returns or
    raises. *)
Lemma predict_delay_probability_state o d day dep self :
  snd (predict_delay_probability o d day dep self) = self.
Proof.
  unfold predict_delay_probability.
  rewrite (bind_inr _ _ self self self) by reflexivity.
  destruct (model self) as [clf |]; [| reflexivity].
  unfold bind at 1.
  pose proof (X_sample_state o d day dep self) as HX.
  destruct (X_sample o d day dep self) as [[e | X] self']; simpl in HX;
    subst self'; [reflexivity |].
  destruct (scaler self) as [transform |] eqn:Hs.
  - rewrite (bind_inr _ _ self _ self (scaler_transform_spec self transform _ Hs)).
    destruct (predict_proba clf) as [proba |]; [| reflexivity].
    unfold positive_class. destruct (proba _ !! 1%nat); reflexivity.
  - erewrite bind_inl; [reflexivity |].
    unfold scaler_transform, bind, get. rewrite Hs. reflexivity.
Qed.

Lemma sample_predictor_loaded f : loaded (sample_predictor f).
Proof.
  split; [| split; [| split]].
  - exists sample_classifier. split; [reflexivity |].
    exists sample_proba. split; [reflexivity |].
    intros x. unfold sample_proba.
    destruct x as [| [z | q |] x']; do 2 eexists;
      (split; [reflexivity | split; discriminate]).
  - eexists. reflexivity.
  - eexists. reflexivity.
  - eexists. reflexivity.
Qed.

(** C7. On a loaded predictor whose tables carry their role's statistic
    names, prediction does not raise, and each role contributes on its own:
    an airport absent from the role's table gets the average-profile
    constants (none of which is zero), an airport present gets its stored
    record; the feature vector carries these values at the schema
    positions. *)
Theorem unknown_airport_uses_average_profile self o d day dep :
  loaded self ->
  stats_ok self = true ->
  exists ot dt data X p,
    airport_stats self !! "origin" = Some ot /\
    airport_stats self !! "dest" = Some dt /\
    sample_data o d day dep self = (inr data, self) /\
    X_sample o d day dep self = (inr X, self) /\
    predict_delay_probability o d day dep self = (inr p, self) /\
    (ot !! o = None ->
       forall k v, avg_origin_stats !! k = Some v ->
                   data !! k = Some v /\ is_zero v = false) /\
    (forall record, ot !! o = Some record ->
       forall k v, record !! k = Some v -> data !! k = Some v) /\
    (dt !! d = None ->
       forall k v, avg_dest_stats !! k = Some v ->
                   data !! k = Some v /\ is_zero v = false) /\
    (forall record, dt !! d = Some record ->
       forall k v, record !! k = Some v -> data !! k = Some v) /\
    (forall (i : nat) k v,
       feature_columns self !! i = Some k -> data !! k = Some v ->
       X !! i = Some (k, fillna (Flt 0) v)).
Proof.
  intros Hl Hok.
  destruct (stats_ok_tables self Hok) as (ot & dt & Ho & Hd & Hot & Hdt).
  destruct (loaded_predicts self o d day dep Hl) as (p & Hp & _).
  exists ot, dt, (synthesized ot dt o d day dep),
    (select_features (feature_columns self) (synthesized ot dt o d day dep)), p.
  split; [exact Ho |]. split; [exact Hd |].
  split; [apply sample_data_spec; assumption |].
  split; [apply X_sample_spec; assumption |].
  split; [exact Hp |].
  split; [| split; [| split; [| split]]].
  - intros Hnone k v Hk. split; [| apply (avg_origin_keys k v Hk)].
    apply synthesized_origin; auto. rewrite Hnone. exact Hk.
  - intros record Hrec k v Hk.
    apply synthesized_origin; auto. rewrite Hrec. exact Hk.
  - intros Hnone k v Hk. split; [| apply (avg_dest_keys k v Hk)].
    apply synthesized_dest; auto. rewrite Hnone. exact Hk.
  - intros record Hrec k v Hk.
    apply synthesized_dest; auto. rewrite Hrec. exact Hk.
  - intros i k v Hi Hk.
    rewrite (select_features_lookup _ _ _ _ Hi), Hk. reflexivity.
Qed.

(** The query JFK to an airport the corpus never saw, on the sample
    artifacts. *)
Lemma unknown_airport_uses_average_profile_witness :
  exists ot dt data X p,
    airport_stats (sample_predictor RandomForest) !! "origin" = Some ot /\
    airport_stats (sample_predictor RandomForest) !! "dest" = Some dt /\
    sample_data "JFK" "Nowhere" 3 None (sample_predictor RandomForest)
      = (inr data, sample_predictor RandomForest) /\
    X_sample "JFK" "Nowhere" 3 None (sample_predictor RandomForest)
      = (inr X, sample_predictor RandomForest) /\
    predict_delay_probability "JFK" "Nowhere" 3 None
      (sample_predictor RandomForest) = (inr p, sample_predictor RandomForest) /\
    (ot !! "JFK" = None ->
       forall k v, avg_origin_stats !! k = Some v ->
                   data !! k = Some v /\ is_zero v = false) /\
    (forall record, ot !! "JFK" = Some record ->
       forall k v, record !! k = Some v -> data !! k = Some v) /\
    (dt !! "Nowhere" = None ->
       forall k v, avg_dest_stats !! k = Some v ->
                   data !! k = Some v /\ is_zero v = false) /\
    (forall record, dt !! "Nowhere" = Some record ->
       forall k v, record !! k = Some v -> data !! k = Some v) /\
    (forall (i : nat) k v,
       feature_columns (sample_predictor RandomForest) !! i = Some k ->
       data !! k = Some v ->
       X !! i = Some (k, fillna (Flt 0) v)).
Proof.
  apply (unknown_airport_uses_average_profile (sample_predictor RandomForest)).
  - apply sample_predictor_loaded.
  - vm_compute. reflexivity.
Defined.

(** C10. With a departure time [t], on tables that carry their role's
    statistic names, the synthesized data and the feature vector hold
    [arrival_hour = t // 100 + 3] and [CRSArrTime = t + 300]; from
    [t // 100 >= 21] on these exceed 23 and 2359: there is no wrap-around at
    midnight. *)
Theorem arrival_fields_do_not_wrap self o d day t :
  stats_ok self = true ->
  exists data X,
    sample_data o d day (Some t) self = (inr data, self) /\
    X_sample o d day (Some t) self = (inr X, self) /\
    data !! "arrival_hour" = Some (Int (t / 100 + 3)) /\
    data !! "CRSArrTime" = Some (Int (t + 300)) /\
    (forall i : nat, feature_columns self !! i = Some "arrival_hour" ->
                     X !! i = Some ("arrival_hour", Int (t / 100 + 3))) /\
    (forall i : nat, feature_columns self !! i = Some "CRSArrTime" ->
                     X !! i = Some ("CRSArrTime", Int (t + 300))) /\
    (21 <= t / 100 -> 23 < t / 100 + 3 /\ 2359 < t + 300).
Proof.
  intros Hok.
  destruct (stats_ok_tables self Hok) as (ot & dt & Ho & Hd & Hot & Hdt).
  exists (synthesized ot dt o d day (Some t)),
    (select_features (feature_columns self) (synthesized ot dt o d day (Some t))).
  assert (synthesized ot dt o d day (Some t) !! "arrival_hour"
          = Some (Int (t / 100 + 3))) as Hah.
  { rewrite synthesized_base;
      [reflexivity | assumption | assumption | reflexivity | |];
      intros H; stat_key_cases H; discriminate. }
  assert (synthesized ot dt o d day (Some t) !! "CRSArrTime"
          = Some (Int (t + 300))) as Hat.
  { rewrite synthesized_base;
      [reflexivity | assumption | assumption | reflexivity | |];
      intros H; stat_key_cases H; discriminate. }
  split; [apply sample_data_spec; assumption |].
  split; [apply X_sample_spec; assumption |].
  split; [exact Hah |]. split; [exact Hat |].
  split; [| split].
  - intros i Hi. rewrite (select_features_lookup _ _ _ _ Hi), Hah. reflexivity.
  - intros i Hi. rewrite (select_features_lookup _ _ _ _ Hi), Hat. reflexivity.
  - intros Hh.
    assert (2100 <= t) by (pose proof (Z.mul_div_le t 100); lia).
    lia.
Qed.

(** A departure at 21:30 on the sample artifacts. *)
Lemma arrival_fields_do_not_wrap_witness :
  exists data X,
    sample_data "JFK" "LAX" 5 (Some 2130) (sample_predictor RandomForest)
      = (inr data, sample_predictor RandomForest) /\
    X_sample "JFK" "LAX" 5 (Some 2130) (sample_predictor RandomForest)
      = (inr X, sample_predictor RandomForest) /\
    data !! "arrival_hour" = Some (Int (2130 / 100 + 3)) /\
    data !! "CRSArrTime" = Some (Int (2130 + 300)) /\
    (forall i : nat,
        feature_columns (sample_predictor RandomForest) !! i = Some "arrival_hour" ->
        X !! i = Some ("arrival_hour", Int (2130 / 100 + 3))) /\
    (forall i : nat,
        feature_columns (sample_predictor RandomForest) !! i = Some "CRSArrTime" ->
        X !! i = Some ("CRSArrTime", Int (2130 + 300))) /\
    (21 <= 2130 / 100 -> 23 < 2130 / 100 + 3 /\ 2359 < 2130 + 300).
Proof.
  apply (arrival_fields_do_not_wrap (sample_predictor RandomForest)).
  vm_compute. reflexivity.
Defined.

(** ** The scaled and the unscaled path *)

Lemma family_of_name_RandomForest name :
  family_of_name name = Some RandomForest <-> name = "RandomForest".
Proof.
  unfold family_of_name.
  destruct (String.eqb name "RandomForest") eqn:E.
  - apply String.eqb_eq in E. tauto.
  - apply String.eqb_neq in E.
    destruct (String.eqb name "GradientBoosting"); split; intros H;
      try discriminate; contradiction.
Qed.

Lemma is_RandomForest_family self :
  is_RandomForest self = true <-> deployed_family self = Some RandomForest.
Proof.
  unfold is_RandomForest, deployed_family.
  destruct (model_metadata self) as [md |].
  - rewrite bool_decide_eq_true. symmetry. apply family_of_name_RandomForest.
  - split; discriminate.
Qed.

(** C4, as stated, fails on a deployed gradient-boosting model: it is an
    ensemble of trees, and it is given the scaled features. *)
Lemma gradient_boosting_consumes_scaled_features :
  deployed_family (sample_predictor GradientBoosting) = Some GradientBoosting /\
  tree_based GradientBoosting = true /\
  exists X,
    X_sample "JFK" "LAX" 3 None (sample_predictor GradientBoosting)
      = (inr X, sample_predictor GradientBoosting) /\
    sample_transform (map snd X) <> map snd X /\
    model_input (sample_predictor GradientBoosting) (map snd X)
      (sample_transform (map snd X)) = sample_transform (map snd X) /\
    sample_proba (map snd X) !! 1%nat = Some 0.25%Q /\
    sample_proba (sample_transform (map snd X)) !! 1%nat = Some 0.75%Q /\
    predict_delay_probability "JFK" "LAX" 3 None (sample_predictor GradientBoosting)
      = (inr 0.75%Q, sample_predictor GradientBoosting).
Proof.
  split; [reflexivity |]. split; [reflexivity |].
  eexists. split; [vm_compute; reflexivity |].
  split; [discriminate |].
  repeat split; vm_compute; reflexivity.
Qed.

(** C4, amended.  The deployed classifier is given the unscaled features
    exactly when the recorded model type is RandomForest and the features
    transformed by the persisted scaler otherwise; the result is the score
    of the positive class, and lies in [0,1] when the classifier yields
    class probabilities. *)
Theorem scaling_follows_recorded_model_type
    self clf proba transform ot dt o d day dep :
  model self = Some clf ->
  predict_proba clf = Some proba ->
  scaler self = Some transform ->
  airport_stats self !! "origin" = Some ot ->
  airport_stats self !! "dest" = Some dt ->
  (forall x, exists p0 p1, proba x = [p0; p1] /\ (0 <= p1)%Q /\ (p1 <= 1)%Q) ->
  exists X p,
    X_sample o d day dep self = (inr X, self) /\
    predict_delay_probability o d day dep self = (inr p, self) /\
    (deployed_family self = Some RandomForest ->
       proba (map snd X) !! 1%nat = Some p) /\
    (deployed_family self <> Some RandomForest ->
       proba (transform (map snd X)) !! 1%nat = Some p) /\
    (0 <= p)%Q /\ (p <= 1)%Q.
Proof.
  intros Hm Hp Hs Ho Hd Hrow.
  set (X := select_features (feature_columns self) (synthesized ot dt o d day dep)).
  destruct (Hrow (model_input self (map snd X) (transform (map snd X))))
    as (p0 & p1 & Hx & H0 & H1).
  exists X, p1.
  split; [apply X_sample_spec; assumption |].
  split.
  { eapply predict_delay_probability_spec; eauto.
    fold X. rewrite Hx. reflexivity. }
  unfold model_input in Hx.
  split; [| split; [| split; assumption]].
  - intros Hf. apply is_RandomForest_family in Hf. rewrite Hf in Hx.
    rewrite Hx. reflexivity.
  - intros Hf. destruct (is_RandomForest self) eqn:E.
    + exfalso. apply Hf, is_RandomForest_family, E.
    + rewrite Hx. reflexivity.
Qed.

Lemma scaling_follows_recorded_model_type_witness :
  exists X p,
    X_sample "JFK" "LAX" 3 None (sample_predictor GradientBoosting)
      = (inr X, sample_predictor GradientBoosting) /\
    predict_delay_probability "JFK" "LAX" 3 None (sample_predictor GradientBoosting)
      = (inr p, sample_predictor GradientBoosting) /\
    (deployed_family (sample_predictor GradientBoosting) = Some RandomForest ->
       sample_proba (map snd X) !! 1%nat = Some p) /\
    (deployed_family (sample_predictor GradientBoosting) <> Some RandomForest ->
       sample_proba (sample_transform (map snd X)) !! 1%nat = Some p) /\
    (0 <= p)%Q /\ (p <= 1)%Q.
Proof.
  apply (scaling_follows_recorded_model_type
           (sample_predictor GradientBoosting) sample_classifier sample_proba
           sample_transform {[ "JFK" := jfk_origin_record ]}
           {[ "LAX" := lax_dest_record ]}).
  - reflexivity.
  - reflexivity.
  - reflexivity.
  - reflexivity.
  - reflexivity.
  - intros x. unfold sample_proba.
    destruct x as [| [z | q |] x']; do 2 eexists;
      (split; [reflexivity | split; discriminate]).
Defined.

(** ** The service *)

Lemma day_name_valid day self :
  1 <= day <= 7 -> exists name, day_name day self = (inr name, self).
Proof.
  intros H.
  assert (day = 1 \/ day = 2 \/ day = 3 \/ day = 4 \/ day = 5 \/ day = 6 \/ day = 7)
    as Hd by lia.
  repeat (destruct Hd as [-> | Hd]; [eexists; reflexivity |]).
  subst. eexists. reflexivity.
Qed.

(** C8. On a loaded predictor, with [origin_table] and [dest_table] the
    statistics tables of the two roles, a request with a day of the week in
    [1,7] is answered with a prediction whose confidence label is High when
    the origin has a record in [origin_table] and the destination has one
    in [dest_table], Medium when exactly one of them has, and Low when
    neither has. *)
Theorem confidence_label_follows_known_airports
    model_info now self origin_table dest_table o d day dep :
  loaded self ->
  airport_stats self !! "origin" = Some origin_table ->
  airport_stats self !! "dest" = Some dest_table ->
  1 <= day <= 7 ->
  exists p,
    predict_delay model_info now (Some self)
      {| origin := Some o; destination := Some d;
         dayOfWeek := Some day; departureTime := dep |}
    = ((Prediction p now, 200), Some self) /\
    (is_Some (origin_table !! o) -> is_Some (dest_table !! d) ->
       confidence p = "High") /\
    (is_Some (origin_table !! o) -> dest_table !! d = None ->
       confidence p = "Medium") /\
    (origin_table !! o = None -> is_Some (dest_table !! d) ->
       confidence p = "Medium") /\
    (origin_table !! o = None -> dest_table !! d = None ->
       confidence p = "Low") /\
    (originKnown p = true <-> is_Some (origin_table !! o)) /\
    (destinationKnown p = true <-> is_Some (dest_table !! d)).
Proof.
  intros Hl Ho Hd Hday.
  destruct (loaded_predicts self o d day dep Hl) as (q & Hq & _).
  destruct (day_name_valid day self Hday) as (name & Hname).
  eexists. split.
  - unfold predict_delay, try_, predict_delay_try. simpl.
    replace ((day <? 1) || (day >? 7)) with false
      by (symmetry; apply orb_false_iff; split; lia).
    rewrite (bind_inr _ _ self q self Hq).
    rewrite (bind_inr _ _ self self self) by reflexivity.
    rewrite (bind_inr _ _ self name self Hname).
    reflexivity.
  - cbn [confidence originKnown destinationKnown].
    unfold confidence_of, known. rewrite Ho, Hd. cbn [default].
    assert (forall (t : gmap string (gmap string value)) k,
              t !! k = None -> is_Some (t !! k) -> False) as Hno
      by (intros t k E [x Hx]; congruence).
    destruct (decide (is_Some (origin_table !! o))) as [Io | Io],
             (decide (is_Some (dest_table !! d))) as [Id | Id];
      rewrite ?(bool_decide_eq_true_2 _ Io), ?(bool_decide_eq_false_2 _ Io),
        ?(bool_decide_eq_true_2 _ Id), ?(bool_decide_eq_false_2 _ Id);
      cbn [andb orb fst];
      refine (conj _ (conj _ (conj _ (conj _ (conj _ _)))));
      try (intros H1 H2;
           first [ reflexivity | contradiction
                 | exfalso; exact (Hno _ _ H1 Io)
                 | exfalso; exact (Hno _ _ H2 Id) ]);
      (split; intros H;
         first [ reflexivity | assumption | contradiction | discriminate ]).
Qed.

Lemma confidence_label_follows_known_airports_witness :
  exists p,
    predict_delay None "2025-06-01T12:00:00" (Some (sample_predictor RandomForest))
      {| origin := Some "JFK"; destination := Some "Nowhere";
         dayOfWeek := Some 3; departureTime := None |}
    = ((Prediction p "2025-06-01T12:00:00", 200),
       Some (sample_predictor RandomForest)) /\
    (is_Some (default ∅ (sample_stats !! "origin") !! "JFK") ->
     is_Some (default ∅ (sample_stats !! "dest") !! "Nowhere") ->
       confidence p = "High") /\
    (is_Some (default ∅ (sample_stats !! "origin") !! "JFK") ->
     default ∅ (sample_stats !! "dest") !! "Nowhere" = None ->
       confidence p = "Medium") /\
    (default ∅ (sample_stats !! "origin") !! "JFK" = None ->
     is_Some (default ∅ (sample_stats !! "dest") !! "Nowhere") ->
       confidence p = "Medium") /\
    (default ∅ (sample_stats !! "origin") !! "JFK" = None ->
     default ∅ (sample_stats !! "dest") !! "Nowhere" = None ->
       confidence p = "Low") /\
    (originKnown p = true <->
       is_Some (default ∅ (sample_stats !! "origin") !! "JFK")) /\
    (destinationKnown p = true <->
       is_Some (default ∅ (sample_stats !! "dest") !! "Nowhere")).
Proof.
  apply (confidence_label_follows_known_airports None "2025-06-01T12:00:00"
           (sample_predictor RandomForest)
           (default ∅ (sample_stats !! "origin"))
           (default ∅ (sample_stats !! "dest")) "JFK" "Nowhere" 3 None).
  - apply sample_predictor_loaded.
  - vm_compute. reflexivity.
  - vm_compute. reflexivity.
  - lia.
Defined.

(** [/predict] rejects every day of the week outside [1,7] and computes
    nothing. *)
Lemma predict_delay_rejects_day_out_of_range model_info now self o d day dep :
  day < 1 \/ 7 < day ->
  predict_delay model_info now (Some self)
    {| origin := Some o; destination := Some d;
       dayOfWeek := Some day; departureTime := dep |}
  = ((Error "dayOfWeek must be an integer between 1 (Monday) and 7 (Sunday)"
            None, 400), Some self).
Proof.
  intros Hday. unfold predict_delay, try_, predict_delay_try. simpl.
  replace ((day <? 1) || (day >? 7)) with true; [reflexivity |].
  symmetry. apply orb_true_iff. destruct Hday; [left | right]; lia.
Qed.

(** [predict_delay_probability] itself accepts any day of the week. *)
Lemma predict_delay_probability_accepts_any_day self o d day dep :
  loaded self ->
  exists p, predict_delay_probability o d day dep self = (inr p, self).
Proof.
  intros Hl. destruct (loaded_predicts self o d day dep Hl) as (p & Hp & _).
  eauto.
Qed.

(** C5, at the failing input: a route with day of the week 9.  [/predict]
    answers 400; [predict_delay_probability] and [/batch-predict] compute a
    probability from the day as given. *)
Theorem batch_predict_accepts_day_out_of_range :
  let route := {| origin := Some "JFK"; destination := Some "LAX";
                  dayOfWeek := Some 9; departureTime := None |} in
  fst (predict_delay None "2025-06-01T12:00:00"
         (Some (sample_predictor RandomForest)) route)
  = (Error "dayOfWeek must be an integer between 1 (Monday) and 7 (Sunday)"
           None, 400) /\
  (exists X,
     X_sample "JFK" "LAX" 9 None (sample_predictor RandomForest)
       = (inr X, sample_predictor RandomForest) /\
     X !! 0%nat = Some ("DayOfWeek", Int 9)) /\
  predict_delay_probability "JFK" "LAX" 9 None (sample_predictor RandomForest)
  = (inr 0.25%Q, sample_predictor RandomForest) /\
  fst (batch_predict (Some (sample_predictor RandomForest)) (Some [route]))
  = (Batch [ {| index := 0; route := route; outcome := inr 25%Q |} ] 1 1, 200).
Proof.
  cbv zeta. split; [vm_compute; reflexivity |].
  split; [eexists; split; vm_compute; reflexivity |].
  split; vm_compute; reflexivity.
Qed.

(** ** Time-of-day buckets *)

Lemma Qle_bool_inject_Z a b :
  Qle_bool (inject_Z a) (inject_Z b) = (a <=? b).
Proof. unfold Qle_bool. simpl. rewrite !Z.mul_1_r. reflexivity. Qed.

(** The bucket of an integer hour: the intervals are closed on the right
    and hour 0 is in none. *)
Lemma cut_integer_hour h :
  cut period_bins period_labels (Int h) =
    if (h <=? 0) then None
    else if (h <=? 6) then Some "night"
    else if (h <=? 12) then Some "morning"
    else if (h <=? 18) then Some "afternoon"
    else if (h <=? 24) then Some "evening"
    else None.
Proof.
  unfold cut, period_bins, period_labels, to_Q, cut_bins.
  rewrite !Qle_bool_inject_Z.
  destruct (h <=? 0) eqn:E0, (h <=? 6) eqn:E6, (h <=? 12) eqn:E12,
    (h <=? 18) eqn:E18, (h <=? 24) eqn:E24; simpl; try reflexivity; lia.
Qed.

(** C3, at the failing inputs.  A departure at 00:30 (hour 0) gets no
    bucket, and a departure at 06:15 (hour 6) gets 'night'; likewise hour 12
    is 'morning' and hour 18 'afternoon'.  In the engineered table the
    flight of hour 0 then carries the most frequent bucket of the corpus
    ('morning' in [four_flights]). *)
Theorem departure_period_is_closed_on_the_right :
  departure_period (Int 30) = None /\
  departure_period (Int 615) = Some "night" /\
  departure_period (Int 1200) = Some "morning" /\
  departure_period (Int 1800) = Some "afternoon" /\
  departure_period (Int 559) = Some "night" /\
  departure_period (Int 1159) = Some "morning" /\
  exists df self',
    feature_engineering four_flights init = (inr df, self') /\
    columns df !! "departure_hour" = Some (NumCol [Int 0; Int 6; Int 12; Int 11]) /\
    columns df !! "departure_period" =
      Some (CatCol period_labels
              [Some "morning"; Some "night"; Some "morning"; Some "morning"]).
Proof.
  repeat (split; [reflexivity |]).
  do 2 eexists. split; [vm_compute; reflexivity |].
  split; vm_compute; reflexivity.
Qed.

(** ** The aggregator *)

Lemma non_na_length vs : (length (non_na vs) <= length vs)%nat.
Proof.
  unfold non_na. induction vs as [| v vs IH]; cbn; [lia |].
  destruct (to_Q v); cbn; lia.
Qed.

Lemma group_values_length keys vs k :
  (length (group_values keys vs k) <= occurrences k keys)%nat.
Proof.
  unfold group_values, occurrences. rewrite length_map.
  revert vs. induction keys as [| key keys IH]; intros vs; [simpl; lia |].
  destruct vs as [| v vs]; [simpl; lia |].
  simpl zip. rewrite !filter_cons. simpl.
  specialize (IH vs).
  destruct (decide (key = Some k)); simpl; lia.
Qed.

(** The standard deviation of at most one value is missing, and stays so
    after rounding. *)
Lemma agg_std_few vs :
  (length (non_na vs) <= 1)%nat ->
  round_result 3 (agg_func "std" vs) = NaN.
Proof.
  intros H. change (agg_func "std" vs) with (agg_std vs). unfold agg_std.
  destruct (non_na vs) as [| q [| q' qs]]; simpl in *; try reflexivity; lia.
Qed.

Lemma group_std_single keys vs k :
  occurrences k keys = 1%nat ->
  round_result 3 (agg_func "std" (group_values keys vs k)) = NaN.
Proof.
  intros H. apply agg_std_few.
  pose proof (non_na_length (group_values keys vs k)).
  pose proof (group_values_length keys vs k). lia.
Qed.

Lemma occurrences_elem k keys :
  occurrences k keys = 1%nat -> k ∈ omap id keys.
Proof.
  unfold occurrences. intros H.
  destruct (filter (fun o => o = Some k) keys) as [| o l] eqn:E; [discriminate |].
  assert (o ∈ filter (fun o => o = Some k) keys) as Hin by (rewrite E; left).
  apply list_elem_of_filter in Hin as [-> Hin].
  apply list_elem_of_omap. exists (Some k). auto.
Qed.

(** The table built by the fold of [groupby_agg]. *)
Lemma group_table_lookup (f : string -> gmap string value) ks k :
  k ∈ ks ->
  foldr (fun k table => <[k := f k]> table)
        (∅ : gmap string (gmap string value)) ks !! k = Some (f k).
Proof.
  induction ks as [| k' ks IH]; intros Hin; [inversion Hin |].
  simpl. destruct (decide (k' = k)) as [-> | Hne].
  - apply lookup_insert_eq.
  - rewrite lookup_insert_ne by exact Hne. apply IH.
    apply elem_of_cons in Hin as [-> | Hin]; [contradiction | exact Hin].
Qed.

Lemma group_table_Forall (f : string -> gmap string value)
    (P : string -> gmap string value -> Prop) ks :
  (forall k, P k (f k)) ->
  map_Forall P (foldr (fun k table => <[k := f k]> table)
                      (∅ : gmap string (gmap string value)) ks).
Proof.
  intros HP. induction ks as [| k ks IH]; simpl.
  - apply map_Forall_empty.
  - apply map_Forall_insert_2; [apply HP | exact IH].
Qed.

Lemma agg_data_spec df v1 v2 v3 self :
  columns df !! "ArrDel15" = Some (NumCol v1) ->
  columns df !! "DepDelay" = Some (NumCol v2) ->
  columns df !! "ArrDelay" = Some (NumCol v3) ->
  agg_data df (map fst agg_spec) self
    = (inr [("ArrDel15", v1); ("DepDelay", v2); ("ArrDelay", v3)], self).
Proof.
  intros H1 H2 H3. simpl.
  unfold bind, getitem. rewrite H1, H2, H3. reflexivity.
Qed.

Lemma missing_columns_none df v1 v2 v3 :
  columns df !! "ArrDel15" = Some v1 ->
  columns df !! "DepDelay" = Some v2 ->
  columns df !! "ArrDelay" = Some v3 ->
  missing_columns df = [].
Proof.
  intros H1 H2 H3. unfold missing_columns.
  rewrite !filter_cons, filter_nil.
  repeat match goal with
         | |- context [decide ?P] => destruct (decide P); [congruence |]
         end.
  reflexivity.
Qed.

(** [groupby_agg] in closed form on a frame that has the key column and the
    three numeric columns. *)
Lemma groupby_agg_spec df by_ prefix key_col v1 v2 v3 self :
  columns df !! by_ = Some key_col ->
  columns df !! "ArrDel15" = Some (NumCol v1) ->
  columns df !! "DepDelay" = Some (NumCol v2) ->
  columns df !! "ArrDelay" = Some (NumCol v3) ->
  groupby_agg df by_ prefix self =
    (inr (foldr (fun k table =>
                   <[k := group_record prefix (strings_of key_col)
                            [("ArrDel15", v1); ("DepDelay", v2); ("ArrDelay", v3)] k]>
                     table)
                ∅ (omap id (strings_of key_col))), self).
Proof.
  intros Hk H1 H2 H3. unfold groupby_agg.
  rewrite (bind_inr _ _ self key_col self) by (apply getitem_Some; exact Hk).
  rewrite (missing_columns_none df _ _ _ H1 H2 H3).
  rewrite (bind_inr _ _ self _ self (agg_data_spec df v1 v2 v3 self H1 H2 H3)).
  reflexivity.
Qed.

(** The aggregated columns in closed form; [c1], [c2], [c3] are numeric, or
    of dtype [object] and empty. *)
Lemma agg_data_numbers df c1 c2 c3 v1 v2 v3 self :
  columns df !! "ArrDel15" = Some c1 -> numbers_of c1 = Some v1 ->
  columns df !! "DepDelay" = Some c2 -> numbers_of c2 = Some v2 ->
  columns df !! "ArrDelay" = Some c3 -> numbers_of c3 = Some v3 ->
  agg_data df (map fst agg_spec) self
    = (inr [("ArrDel15", v1); ("DepDelay", v2); ("ArrDelay", v3)], self).
Proof.
  intros H1 N1 H2 N2 H3 N3. simpl.
  rewrite (bind_inr _ _ self c1 self) by (apply getitem_Some; exact H1).
  rewrite N1.
  rewrite (bind_inr _ _ self [("DepDelay", v2); ("ArrDelay", v3)] self);
    [reflexivity |].
  rewrite (bind_inr _ _ self c2 self) by (apply getitem_Some; exact H2).
  rewrite N2.
  rewrite (bind_inr _ _ self [("ArrDelay", v3)] self); [reflexivity |].
  rewrite (bind_inr _ _ self c3 self) by (apply getitem_Some; exact H3).
  rewrite N3. reflexivity.
Qed.

Lemma groupby_agg_numbers df by_ prefix key_col c1 c2 c3 v1 v2 v3 self :
  columns df !! by_ = Some key_col ->
  columns df !! "ArrDel15" = Some c1 -> numbers_of c1 = Some v1 ->
  columns df !! "DepDelay" = Some c2 -> numbers_of c2 = Some v2 ->
  columns df !! "ArrDelay" = Some c3 -> numbers_of c3 = Some v3 ->
  groupby_agg df by_ prefix self =
    (inr (foldr (fun k table =>
                   <[k := group_record prefix (strings_of key_col)
                            [("ArrDel15", v1); ("DepDelay", v2); ("ArrDelay", v3)] k]>
                     table)
                ∅ (omap id (strings_of key_col))), self).
Proof.
  intros Hk H1 N1 H2 N2 H3 N3. unfold groupby_agg.
  rewrite (bind_inr _ _ self key_col self) by (apply getitem_Some; exact Hk).
  rewrite (missing_columns_none df _ _ _ H1 H2 H3).
  rewrite (bind_inr _ _ self _ self
             (agg_data_numbers df c1 c2 c3 v1 v2 v3 self H1 N1 H2 N2 H3 N3)).
  reflexivity.
Qed.

(** The record of a group in closed form. *)
Lemma group_record_spec prefix keys v1 v2 v3 k :
  group_record prefix keys
    [("ArrDel15", v1); ("DepDelay", v2); ("ArrDelay", v3)] k =
  list_to_map [
    (stat_name prefix "ArrDel15" "count",
       round_result 3 (agg_func "count" (group_values keys v1 k)));
    (stat_name prefix "ArrDel15" "mean",
       round_result 3 (agg_func "mean" (group_values keys v1 k)));
    (stat_name prefix "ArrDel15" "std",
       round_result 3 (agg_func "std" (group_values keys v1 k)));
    (stat_name prefix "DepDelay" "mean",
       round_result 3 (agg_func "mean" (group_values keys v2 k)));
    (stat_name prefix "DepDelay" "std",
       round_result 3 (agg_func "std" (group_values keys v2 k)));
    (stat_name prefix "ArrDelay" "mean",
       round_result 3 (agg_func "mean" (group_values keys v3 k)));
    (stat_name prefix "ArrDelay" "std",
       round_result 3 (agg_func "std" (group_values keys v3 k))) ].
Proof. reflexivity. Qed.

Lemma group_record_keys prefix keys v1 v2 v3 k :
  dom (group_record prefix keys
         [("ArrDel15", v1); ("DepDelay", v2); ("ArrDelay", v3)] k)
  ⊆ (list_to_set (stat_columns prefix) : gset string).
Proof.
  rewrite group_record_spec, dom_list_to_map_L. reflexivity.
Qed.

Lemma group_record_std prefix keys v1 v2 v3 k name :
  prefix = "origin_" \/ prefix = "dest_" ->
  occurrences k keys = 1%nat ->
  name ∈ std_names prefix ->
  group_record prefix keys
    [("ArrDel15", v1); ("DepDelay", v2); ("ArrDelay", v3)] k !! name
  = Some NaN.
Proof.
  intros Hp Hocc Hname. rewrite group_record_spec.
  rewrite !(group_std_single keys _ k Hocc).
  repeat match goal with
         | |- context [round_result 3 ?x] =>
             generalize (round_result 3 x); intro
         end.
  unfold std_names in Hname.
  apply elem_of_cons in Hname as [Hname | Hname];
    [| apply elem_of_cons in Hname as [Hname | Hname];
       [| apply list_elem_of_singleton in Hname]];
    subst name; destruct Hp; subst prefix; reflexivity.
Qed.

(** [create_airport_features] in closed form. *)
Lemma create_airport_features_spec df origins dests v1 v2 v3 self :
  columns df !! "OriginAirportName" = Some origins ->
  columns df !! "DestAirportName" = Some dests ->
  columns df !! "ArrDel15" = Some (NumCol v1) ->
  columns df !! "DepDelay" = Some (NumCol v2) ->
  columns df !! "ArrDelay" = Some (NumCol v3) ->
  exists origin_stats dest_stats self',
    create_airport_features df self = (inr (origin_stats, dest_stats), self') /\
    same_fit self self' /\
    airport_stats self' !! "origin" = Some origin_stats /\
    airport_stats self' !! "dest" = Some dest_stats /\
    role_keys "origin_" origin_stats = true /\
    role_keys "dest_" dest_stats = true /\
    (forall k, k ∈ omap id (strings_of origins) ->
       origin_stats !! k =
         Some (group_record "origin_" (strings_of origins)
                 [("ArrDel15", v1); ("DepDelay", v2); ("ArrDelay", v3)] k)) /\
    (forall k, k ∈ omap id (strings_of dests) ->
       dest_stats !! k =
         Some (group_record "dest_" (strings_of dests)
                 [("ArrDel15", v1); ("DepDelay", v2); ("ArrDelay", v3)] k)).
Proof.
  intros Ho Hd H1 H2 H3.
  do 3 eexists. split.
  { unfold create_airport_features.
    rewrite (bind_inr _ _ self _ self
               (groupby_agg_spec df _ "origin_" origins v1 v2 v3 self Ho H1 H2 H3)).
    rewrite (bind_inr _ _ self _ self
               (groupby_agg_spec df _ "dest_" dests v1 v2 v3 self Hd H1 H2 H3)).
    reflexivity. }
  split; [repeat split |].
  split; [reflexivity |]. split; [reflexivity |].
  split; [| split; [| split]].
  - apply bool_decide_eq_true.
    apply group_table_Forall. intros k. apply group_record_keys.
  - apply bool_decide_eq_true.
    apply group_table_Forall. intros k. apply group_record_keys.
  - intros k Hk.
    apply (group_table_lookup
             (group_record "origin_" (strings_of origins)
                [("ArrDel15", v1); ("DepDelay", v2); ("ArrDelay", v3)])).
    exact Hk.
  - intros k Hk.
    apply (group_table_lookup
             (group_record "dest_" (strings_of dests)
                [("ArrDel15", v1); ("DepDelay", v2); ("ArrDelay", v3)])).
    exact Hk.
Qed.

Lemma stat_single prefix keys v1 v2 v3 table a name :
  prefix = "origin_" \/ prefix = "dest_" ->
  (forall k, k ∈ omap id keys ->
     table !! k =
       Some (group_record prefix keys
               [("ArrDel15", v1); ("DepDelay", v2); ("ArrDelay", v3)] k)) ->
  occurrences a keys = 1%nat ->
  name ∈ std_names prefix ->
  stat table a name = Some NaN.
Proof.
  intros Hp Htable Hocc Hname. unfold stat.
  rewrite (Htable a (occurrences_elem a keys Hocc)).
  apply group_record_std; assumption.
Qed.

Lemma stat_default table a name v avg :
  stat table a name = Some v -> default avg (table !! a) !! name = Some v.
Proof.
  unfold stat. destruct (table !! a); [auto | discriminate].
Qed.

(** C2, as stated, fails on a corpus of one flight: the standard deviation
    recorded for its origin, in the table and in the persisted statistics,
    is the missing value, which is not 0.  In the training features of
    [four_flights] the missing value of JFK, an origin of one flight, is
    replaced by the median of the column (0.577), not by 0. *)
Lemma single_flight_std_is_recorded_missing :
  occurrences "JFK" [Some "JFK"] = 1%nat /\
  (exists origin_stats dest_stats self' persisted,
     create_airport_features one_flight init
       = (inr (origin_stats, dest_stats), self') /\
     stat origin_stats "JFK" "origin_ArrDel15_std" = Some NaN /\
     airport_stats self' !! "origin" = Some persisted /\
     stat persisted "JFK" "origin_ArrDel15_std" = Some NaN /\
     isna NaN = true /\ is_zero NaN = false) /\
  (exists df self',
     feature_engineering four_flights init = (inr df, self') /\
     columns df !! "OriginAirportName"
       = Some (ObjCol [Some "JFK"; Some "LAX"; Some "LAX"; Some "LAX"]) /\
     columns df !! "origin_ArrDel15_std"
       = Some (NumCol [Flt 0.577; Flt 0.577; Flt 0.577; Flt 0.577])).
Proof.
  split; [reflexivity |]. split.
  - do 4 eexists. split; [vm_compute; reflexivity |].
    repeat split; vm_compute; reflexivity.
  - do 2 eexists. split; [vm_compute; reflexivity |].
    split; vm_compute; reflexivity.
Qed.

(** C2, amended.  On a corpus with the two name columns and the three
    numeric columns the aggregator returns, and for an airport of exactly
    one record in a role it records every standard deviation of that role
    as missing, in the table and in the persisted statistics alike; the
    value becomes 0.0 in the feature vector synthesized at prediction time
    for a query with that airport in that role. *)
Theorem single_record_std_is_missing_and_zero_at_prediction
    df origins dests v1 v2 v3 self a :
  columns df !! "OriginAirportName" = Some origins ->
  columns df !! "DestAirportName" = Some dests ->
  columns df !! "ArrDel15" = Some (NumCol v1) ->
  columns df !! "DepDelay" = Some (NumCol v2) ->
  columns df !! "ArrDelay" = Some (NumCol v3) ->
  exists origin_stats dest_stats self',
    create_airport_features df self = (inr (origin_stats, dest_stats), self') /\
    airport_stats self' !! "origin" = Some origin_stats /\
    airport_stats self' !! "dest" = Some dest_stats /\
    (occurrences a (strings_of origins) = 1%nat ->
     forall name, name ∈ std_names "origin_" ->
       stat origin_stats a name = Some NaN /\
       forall other day dep, exists X,
         X_sample a other day dep self' = (inr X, self') /\
         forall i : nat, feature_columns self' !! i = Some name ->
                         X !! i = Some (name, Flt 0)) /\
    (occurrences a (strings_of dests) = 1%nat ->
     forall name, name ∈ std_names "dest_" ->
       stat dest_stats a name = Some NaN /\
       forall other day dep, exists X,
         X_sample other a day dep self' = (inr X, self') /\
         forall i : nat, feature_columns self' !! i = Some name ->
                         X !! i = Some (name, Flt 0)).
Proof.
  intros Ho Hd H1 H2 H3.
  destruct (create_airport_features_spec df origins dests v1 v2 v3 self
              Ho Hd H1 H2 H3)
    as (os & ds & self' & Hrun & _ & Hso & Hsd & Hko & Hkd & Hto & Htd).
  exists os, ds, self'.
  split; [exact Hrun |]. split; [exact Hso |]. split; [exact Hsd |].
  split.
  - intros Hocc name Hname.
    assert (stat os a name = Some NaN) as Hstat
      by (apply (stat_single "origin_" (strings_of origins) v1 v2 v3);
          auto).
    split; [exact Hstat |].
    intros other day dep. eexists.
    split; [apply X_sample_spec; eassumption |].
    intros i Hi. rewrite (select_features_lookup _ _ _ _ Hi).
    rewrite (synthesized_origin os ds a other day dep name NaN Hko Hkd
               (stat_default _ _ _ _ _ Hstat)).
    reflexivity.
  - intros Hocc name Hname.
    assert (stat ds a name = Some NaN) as Hstat
      by (apply (stat_single "dest_" (strings_of dests) v1 v2 v3);
          auto).
    split; [exact Hstat |].
    intros other day dep. eexists.
    split; [apply X_sample_spec; eassumption |].
    intros i Hi. rewrite (select_features_lookup _ _ _ _ Hi).
    rewrite (synthesized_dest os ds other a day dep name NaN Hkd
               (stat_default _ _ _ _ _ Hstat)).
    reflexivity.
Qed.

Lemma single_record_std_is_missing_and_zero_at_prediction_witness :
  exists origin_stats dest_stats self',
    create_airport_features one_flight
      (sample_predictor RandomForest)
      = (inr (origin_stats, dest_stats), self') /\
    airport_stats self' !! "origin" = Some origin_stats /\
    airport_stats self' !! "dest" = Some dest_stats /\
    (occurrences "JFK" (strings_of (ObjCol [Some "JFK"])) = 1%nat ->
     forall name, name ∈ std_names "origin_" ->
       stat origin_stats "JFK" name = Some NaN /\
       forall other day dep, exists X,
         X_sample "JFK" other day dep self' = (inr X, self') /\
         forall i : nat, feature_columns self' !! i = Some name ->
                         X !! i = Some (name, Flt 0)) /\
    (occurrences "JFK" (strings_of (ObjCol [Some "LAX"])) = 1%nat ->
     forall name, name ∈ std_names "dest_" ->
       stat dest_stats "JFK" name = Some NaN /\
       forall other day dep, exists X,
         X_sample other "JFK" day dep self' = (inr X, self') /\
         forall i : nat, feature_columns self' !! i = Some name ->
                         X !! i = Some (name, Flt 0)).
Proof.
  apply (single_record_std_is_missing_and_zero_at_prediction one_flight
           (ObjCol [Some "JFK"]) (ObjCol [Some "LAX"])
           [Int 1] [Int 12] [Int 20] (sample_predictor RandomForest) "JFK");
    reflexivity.
Defined.

(** ** What training writes, and when *)

Lemma reads_only_ret {A} (a : A) : reads_only (ret a).
Proof. intros s. reflexivity. Qed.

Lemma reads_only_raise {A} e : reads_only (@raise A e).
Proof. intros s. reflexivity. Qed.

Lemma reads_only_get : reads_only get.
Proof. intros s. reflexivity. Qed.

Lemma reads_only_getitem {A} (d : gmap string A) k : reads_only (getitem d k).
Proof. intros s. apply getitem_state. Qed.

Lemma reads_only_bind {A B} (m : M A) (k : A -> M B) :
  reads_only m -> (forall a, reads_only (k a)) -> reads_only (bind m k).
Proof.
  intros Hm Hk s. unfold bind. specialize (Hm s).
  destruct (m s) as [[e | a] s']; simpl in Hm; subst s'; [reflexivity |].
  apply Hk.
Qed.

Ltac reads_only_steps :=
  repeat first
    [ apply reads_only_bind; [| intros ?]
    | apply reads_only_ret | apply reads_only_raise | apply reads_only_get
    | apply reads_only_getitem
    | match goal with
      | |- reads_only (match ?x with _ => _ end) => destruct x
      | |- reads_only (if ?b then _ else _) => destruct b
      | |- reads_only (let _ := _ in _) => cbv zeta
      end ].

Lemma reads_only_numeric_column df name : reads_only (numeric_column df name).
Proof. unfold numeric_column. reads_only_steps. Qed.

Lemma reads_only_agg_data df cols : reads_only (agg_data df cols).
Proof.
  induction cols as [| c cols IH]; simpl; reads_only_steps. exact IH.
Qed.

Lemma reads_only_groupby_agg df by_ prefix :
  reads_only (groupby_agg df by_ prefix).
Proof.
  unfold groupby_agg. reads_only_steps; apply reads_only_agg_data.
Qed.

Lemma reads_only_merge df left_on stats cols :
  reads_only (merge df left_on stats cols).
Proof. unfold merge. reads_only_steps. Qed.

Lemma reads_only_fill_missing df : reads_only (fill_missing df).
Proof. unfold fill_missing. reads_only_steps. Qed.

(** After the aggregator, feature engineering only reads the predictor. *)
Lemma feature_engineering_state df self :
  snd (feature_engineering df self) = snd (create_airport_features df self).
Proof.
  unfold feature_engineering, bind at 1.
  destruct (create_airport_features df self) as [[e | stats] s1];
    [reflexivity |].
  simpl snd.
  match goal with
  | |- snd (?m s1) = s1 => enough (reads_only m) as Hm by apply Hm
  end.
  reads_only_steps;
    first [ apply reads_only_merge | apply reads_only_numeric_column
          | apply reads_only_fill_missing ].
Qed.

Lemma same_fit_refl s : same_fit s s.
Proof. repeat split. Qed.

Lemma create_airport_features_fit df self :
  same_fit self (snd (create_airport_features df self)).
Proof.
  unfold create_airport_features, bind at 1.
  pose proof (reads_only_groupby_agg df "OriginAirportName" "origin_" self) as H1.
  destruct (groupby_agg df "OriginAirportName" "origin_" self)
    as [[e | os] s1]; simpl in H1; subst s1; [apply same_fit_refl |].
  unfold bind at 1.
  pose proof (reads_only_groupby_agg df "DestAirportName" "dest_" self) as H2.
  destruct (groupby_agg df "DestAirportName" "dest_" self)
    as [[e | ds] s2]; simpl in H2; subst s2; [apply same_fit_refl |].
  repeat split.
Qed.

Lemma feature_engineering_fit df self :
  same_fit self (snd (feature_engineering df self)).
Proof. rewrite feature_engineering_state. apply create_airport_features_fit. Qed.

Lemma numbers_of_length col vs :
  numbers_of col = Some vs -> length vs = column_length col.
Proof.
  destruct col as [vs' | [| o ss] | cats ss]; simpl; intros H;
    try discriminate; injection H as <-; reflexivity.
Qed.

Lemma numeric_column_inv df name vs self self' :
  numeric_column df name self = (inr vs, self') ->
  (exists col, columns df !! name = Some col /\ numbers_of col = Some vs) /\
  self' = self.
Proof.
  unfold numeric_column. intros H.
  apply bind_inv in H as (col & s1 & Hcol & H).
  apply getitem_inv in Hcol as [Hcol ->].
  destruct (numbers_of col) as [vs' |] eqn:E; cbv [ret raise] in H;
    [| discriminate].
  injection H as -> ->. eauto.
Qed.

Lemma merged_columns_lookup (f : string -> column) cols df k :
  k ∉ cols ->
  columns (foldr (fun c df' => set_column c (f c) df') df cols) !! k
  = columns df !! k.
Proof.
  induction cols as [| c cols IH]; intros Hk; [reflexivity |].
  simpl. rewrite lookup_insert_ne; [apply IH |]; set_solver.
Qed.

Lemma merge_inv df left_on stats cols df' self self' :
  merge df left_on stats cols self = (inr df', self') ->
  self' = self /\
  forall k, k ∉ cols -> columns df' !! k = columns df !! k.
Proof.
  unfold merge. intros H.
  apply bind_inv in H as (col & s1 & Hcol & H).
  apply getitem_inv in Hcol as [Hcol ->].
  cbv [ret] in H. injection H as <- <-.
  split; [reflexivity |]. intros k Hk. apply merged_columns_lookup, Hk.
Qed.

Lemma fill_missing_inv df df' self self' :
  fill_missing df self = (inr df', self') ->
  forall k col, columns df !! k = Some col -> fillable col = true.
Proof.
  unfold fill_missing. intros H k col Hk.
  destruct (forallb fillable (map snd (map_to_list (columns df)))) eqn:E;
    [| discriminate].
  rewrite forallb_forall in E. apply E.
  apply list_elem_of_In, list_elem_of_fmap. exists (k, col).
  split; [reflexivity |]. apply elem_of_map_to_list, Hk.
Qed.

Lemma not_stat_column_CRSDepTime prefix :
  prefix = "origin_" \/ prefix = "dest_" ->
  "CRSDepTime" ∉ stat_columns prefix.
Proof.
  intros [-> | ->]; intros H; apply list_elem_of_In in H; simpl in H;
    repeat (destruct H as [H | H]; [discriminate |]); exact H.
Qed.

(** A table without scheduled departures cannot be engineered: the
    departure periods are an empty category column, whose fill value
    'Unknown' is not a category. *)
Lemma feature_engineering_no_departure df self df' self' :
  (forall col, columns df !! "CRSDepTime" = Some col -> column_length col = 0%nat) ->
  feature_engineering df self <> (inr df', self').
Proof.
  intros Hempty H. unfold feature_engineering in H.
  apply bind_inv in H as (stats & s1 & _ & H).
  apply bind_inv in H as (dfa & s2 & Ha & H).
  apply merge_inv in Ha as [-> Ha].
  apply bind_inv in H as (dfb & s3 & Hb & H).
  apply merge_inv in Hb as [-> Hb].
  apply bind_inv in H as (dep & s4 & Hdep & H).
  apply numeric_column_inv in Hdep as [(cdep & Hdep & Ndep) ->].
  cbv zeta in H.
  apply bind_inv in H as (arr & s5 & Harr & H).
  apply numeric_column_inv in Harr as [_ ->].
  apply bind_inv in H as (hours & s6 & Hhours & H).
  apply numeric_column_inv in Hhours as [(chours & Hhours & Nhours) ->].
  apply bind_inv in H as (origin_state & s7 & Hos & H).
  apply getitem_inv in Hos as [_ ->].
  apply bind_inv in H as (dest_state & s8 & Hds & H).
  apply getitem_inv in Hds as [_ ->].
  apply bind_inv in H as (month & s9 & Hmonth & H).
  apply getitem_inv in Hmonth as [_ ->].
  apply bind_inv in H as (day & s10 & Hday & H).
  apply getitem_inv in Hday as [_ ->].
  (* the scheduled departures of the merged frame are those of [df] *)
  rewrite Hb in Hdep by (apply not_stat_column_CRSDepTime; auto).
  rewrite Ha in Hdep by (apply not_stat_column_CRSDepTime; auto).
  apply Hempty in Hdep. apply numbers_of_length in Ndep.
  rewrite Hdep in Ndep. apply length_zero_iff_nil in Ndep. subst dep.
  unfold set_column in Hhours. simpl columns in Hhours.
  rewrite lookup_insert_ne in Hhours by discriminate.
  rewrite lookup_insert_eq in Hhours.
  injection Hhours as <-. injection Nhours as <-.
  pose proof (fill_missing_inv _ _ _ _ H "departure_period"
                (CatCol period_labels [])) as Hfill.
  assert (fillable (CatCol period_labels []) = true) as Hbad.
  { apply Hfill. unfold set_column. simpl columns.
    rewrite !lookup_insert_ne by discriminate.
    apply lookup_insert_eq. }
  discriminate Hbad.
Qed.

Lemma feature_engineering_empty df self :
  empty_table df ->
  exists e self', feature_engineering df self = (inl e, self') /\
                  same_fit self self'.
Proof.
  intros [_ Hcols].
  pose proof (feature_engineering_fit df self) as Hfit.
  destruct (feature_engineering df self) as [[e | df'] self'] eqn:E.
  - exists e, self'. auto.
  - exfalso. eapply feature_engineering_no_departure; [| exact E].
    intros col Hcol. apply (Hcols _ _ Hcol).
Qed.

(** Without the target column the first aggregation raises and nothing has
    been written. *)
Lemma groupby_agg_no_target df by_ prefix self :
  columns df !! "ArrDel15" = None ->
  exists e,
    groupby_agg df by_ prefix self = (inl e, self) /\
    (is_Some (columns df !! by_) ->
     exists cols, "ArrDel15" ∈ cols /\
       e = KeyError ("Column(s) [" +:+ quote_join cols +:+ "] do not exist")).
Proof.
  intros Hnone. unfold groupby_agg.
  destruct (columns df !! by_) as [key_col |] eqn:Hk.
  - rewrite (bind_inr _ _ self key_col self) by (apply getitem_Some; exact Hk).
    assert (exists rest, missing_columns df = "ArrDel15" :: rest) as [rest ->].
    { unfold missing_columns. rewrite filter_cons.
      destruct (decide (columns df !! "ArrDel15" = None)); [eauto | contradiction]. }
    eexists. split; [reflexivity |].
    intros _. eexists. split; [| reflexivity]. left.
  - rewrite (bind_inl _ _ self (KeyError by_) self)
      by (apply getitem_None; exact Hk).
    eexists. split; [reflexivity |]. intros [? ?]. discriminate.
Qed.

Lemma strings_of_empty col : column_length col = 0%nat -> strings_of col = [].
Proof.
  destruct col as [vs | ss | cats ss]; simpl; intros H;
    apply length_zero_iff_nil in H; subst; reflexivity.
Qed.

(** On an empty table with the aggregated columns the aggregator records
    two empty tables. *)
Lemma create_airport_features_empty
    df origins dests c1 c2 c3 v1 v2 v3 self :
  empty_table df ->
  columns df !! "OriginAirportName" = Some origins ->
  columns df !! "DestAirportName" = Some dests ->
  columns df !! "ArrDel15" = Some c1 -> numbers_of c1 = Some v1 ->
  columns df !! "DepDelay" = Some c2 -> numbers_of c2 = Some v2 ->
  columns df !! "ArrDelay" = Some c3 -> numbers_of c3 = Some v3 ->
  airport_stats (snd (create_airport_features df self))
  = <["origin" := ∅]> (<["dest" := ∅]> ∅).
Proof.
  intros [_ Hcols] Ho Hd H1 N1 H2 N2 H3 N3. unfold create_airport_features.
  rewrite (bind_inr _ _ self _ self
             (groupby_agg_numbers df _ "origin_" origins c1 c2 c3 v1 v2 v3 self
                Ho H1 N1 H2 N2 H3 N3)).
  rewrite (bind_inr _ _ self _ self
             (groupby_agg_numbers df _ "dest_" dests c1 c2 c3 v1 v2 v3 self
                Hd H1 N1 H2 N2 H3 N3)).
  rewrite (strings_of_empty origins (Hcols _ _ Ho)).
  rewrite (strings_of_empty dests (Hcols _ _ Hd)).
  reflexivity.
Qed.

Section TrainingFailures.

Variable str_number : value -> string.
Variable now : string.
Variable stratified_split :
  list (list value) -> list value ->
  exn + (list (list value) * list (list value) * list value * list value).
Variable StandardScaler_fit : list (list value) -> list value -> list value.
Variable RandomForestClassifier_fit :
  list (list value) -> list value -> Classifier.
Variable GradientBoostingClassifier_fit :
  list (list value) -> list value -> Classifier.
Variable roc_auc : list value -> list Q -> exn + Q.

Abbreviation train :=
  (train_model str_number now stratified_split StandardScaler_fit
     RandomForestClassifier_fit GradientBoostingClassifier_fit roc_auc).

(** C6, amended.  [train_model] checks nothing at its start.  Without
    the target column the first aggregation raises, with a [KeyError]
    that names the column when the origin names are there, and the
    predictor is as before.  On an empty table training raises too and
    records no model, no fitted scaler, no encoder and no metadata; when
    the table has the aggregated columns (numeric, or of dtype [object] as
    in a file with its header and no record) the (empty) airport statistics
    have been recorded by then. *)
Theorem training_fails_without_target_or_records df self :
  (columns df !! "ArrDel15" = None ->
   exists e,
     train df self = (inl e, self) /\
     (is_Some (columns df !! "OriginAirportName") ->
      exists cols, "ArrDel15" ∈ cols /\
        e = KeyError ("Column(s) [" +:+ quote_join cols +:+ "] do not exist"))) /\
  (empty_table df ->
   exists e self',
     train df self = (inl e, self') /\
     model self' = model self /\
     scaler self' = scaler self /\
     label_encoders self' = label_encoders self /\
     model_metadata self' = model_metadata self /\
     (forall origins dests c1 c2 c3 v1 v2 v3,
        columns df !! "OriginAirportName" = Some origins ->
        columns df !! "DestAirportName" = Some dests ->
        columns df !! "ArrDel15" = Some c1 -> numbers_of c1 = Some v1 ->
        columns df !! "DepDelay" = Some c2 -> numbers_of c2 = Some v2 ->
        columns df !! "ArrDelay" = Some c3 -> numbers_of c3 = Some v3 ->
        airport_stats self' = <["origin" := ∅]> (<["dest" := ∅]> ∅))).
Proof.
  split.
  - intros Hnone.
    destruct (groupby_agg_no_target df "OriginAirportName" "origin_" self Hnone)
      as (e & He & Hmsg).
    exists e. split; [| exact Hmsg].
    unfold train_model, feature_engineering, create_airport_features.
    repeat (erewrite bind_inl; [reflexivity |]). exact He.
  - intros Hempty.
    destruct (feature_engineering_empty df self Hempty)
      as (e & self' & Hfe & Hm & Hs & Hmd & Hle & _).
    exists e, self'.
    split; [unfold train_model; apply bind_inl; exact Hfe |].
    split; [exact Hm |]. split; [exact Hs |]. split; [exact Hle |].
    split; [exact Hmd |].
    intros origins dests c1 c2 c3 v1 v2 v3 Ho Hd H1 N1 H2 N2 H3 N3.
    pose proof (feature_engineering_state df self) as Hst.
    rewrite Hfe in Hst. simpl in Hst. rewrite Hst.
    apply (create_airport_features_empty df origins dests c1 c2 c3 v1 v2 v3);
      assumption.
Qed.

End TrainingFailures.

Lemma no_flight_is_empty : empty_table no_flight.
Proof.
  split; [reflexivity |]. apply map_Forall_to_list.
  vm_compute. repeat constructor.
Qed.

(** C6, as stated, fails on a file with its header and no record: training
    does raise, but not at its start; the aggregator has run on the empty
    table and its statistics are on the predictor, which is no longer the
    fresh one.  Model, scaler, encoders and metadata are those of the fresh
    predictor. *)
Lemma empty_table_fails_after_recording_statistics :
  empty_table no_flight /\
  exists e self',
    sample_train_model no_flight init = (inl e, self') /\
    airport_stats init = ∅ /\
    airport_stats self' = <["origin" := ∅]> (<["dest" := ∅]> ∅) /\
    model self' = model init /\
    scaler self' = scaler init /\
    label_encoders self' = label_encoders init /\
    model_metadata self' = model_metadata init /\
    self' <> init.
Proof.
  split; [apply no_flight_is_empty |].
  do 2 eexists. split; [vm_compute; reflexivity |].
  split; [reflexivity |]. split; [vm_compute; reflexivity |].
  do 4 (split; [reflexivity |]).
  intros H. apply (f_equal airport_stats) in H.
  apply (f_equal (fun m => m !! "origin")) in H. vm_compute in H.
  discriminate H.
Qed.

Lemma training_fails_without_target_or_records_witness :
  (exists e,
     sample_train_model no_target init = (inl e, init) /\
     (is_Some (columns no_target !! "OriginAirportName") ->
      exists cols, "ArrDel15" ∈ cols /\
        e = KeyError ("Column(s) [" +:+ quote_join cols +:+ "] do not exist"))) /\
  (exists e self',
     sample_train_model no_flight init = (inl e, self') /\
     model self' = model init /\
     scaler self' = scaler init /\
     label_encoders self' = label_encoders init /\
     model_metadata self' = model_metadata init /\
     (forall origins dests c1 c2 c3 v1 v2 v3,
        columns no_flight !! "OriginAirportName" = Some origins ->
        columns no_flight !! "DestAirportName" = Some dests ->
        columns no_flight !! "ArrDel15" = Some c1 -> numbers_of c1 = Some v1 ->
        columns no_flight !! "DepDelay" = Some c2 -> numbers_of c2 = Some v2 ->
        columns no_flight !! "ArrDelay" = Some c3 -> numbers_of c3 = Some v3 ->
        airport_stats self' = <["origin" := ∅]> (<["dest" := ∅]> ∅))).
Proof.
  split.
  - apply (proj1 (training_fails_without_target_or_records
                    (fun _ => "0") "2025-01-01T00:00:00"
                    (fun X y => inr (X, X, y, y)) (fun _ => sample_transform)
                    (fun _ _ => sample_classifier) (fun _ _ => sample_classifier)
                    (fun _ _ => inr 0.5%Q) no_target init)).
    vm_compute. reflexivity.
  - apply (proj2 (training_fails_without_target_or_records
                    (fun _ => "0") "2025-01-01T00:00:00"
                    (fun X y => inr (X, X, y, y)) (fun _ => sample_transform)
                    (fun _ _ => sample_classifier) (fun _ _ => sample_classifier)
                    (fun _ _ => inr 0.5%Q) no_flight init)).
    split; [reflexivity |]. apply map_Forall_to_list.
    vm_compute. repeat constructor.
Defined.

(** * Further properties of the code *)

(** ** Artifact store *)

Lemma read_saved model_dir self fs name a :
  (let files := default ∅ (fs !! model_dir) in
   <["model_metadata.json" := JsonMetadata (model_metadata self)]>
     (<["feature_columns.json" := JsonColumns (feature_columns self)]>
        (<["airport_stats.json" := JsonStats (airport_stats self)]>
           (<["label_encoders.pkl" := PickledEncoders (label_encoders self)]>
              (<["scaler.pkl" := PickledScaler (scaler self)]>
                 (<["flight_delay_model.pkl" := PickledModel (model self)]>
                    files))))) !! name = Some a) ->
  read_file (save_model model_dir self fs) model_dir name = inr a.
Proof.
  cbv zeta. intros H. unfold read_file, save_model, filesystem in *.
  cbv zeta. rewrite lookup_insert_eq, H. reflexivity.
Qed.

Ltac read_saved_file :=
  cbv zeta;
  repeat first [ apply lookup_insert_eq
               | rewrite lookup_insert_ne by discriminate ].

(** The six reads of [load_model] on what [save_model] wrote. *)
Ltac load_saved_files model_dir self fs :=
  unfold load_model;
  rewrite (read_saved model_dir self fs "flight_delay_model.pkl"
             (PickledModel (model self))) by read_saved_file;
  cbv zeta;
  rewrite (read_saved model_dir self fs "scaler.pkl"
             (PickledScaler (scaler self))) by read_saved_file;
  rewrite (read_saved model_dir self fs "label_encoders.pkl"
             (PickledEncoders (label_encoders self))) by read_saved_file;
  rewrite (read_saved model_dir self fs "airport_stats.json"
             (JsonStats (airport_stats self))) by read_saved_file;
  rewrite (read_saved model_dir self fs "feature_columns.json"
             (JsonColumns (feature_columns self))) by read_saved_file;
  rewrite (read_saved model_dir self fs "model_metadata.json"
             (JsonMetadata (model_metadata self))) by read_saved_file.

(** X1. Loading what [save_model] wrote restores the predictor that was
    saved, whatever the loading predictor held before and whatever else the
    file system holds. *)
Theorem load_after_save_restores_predictor model_dir self other fs :
  load_model model_dir (save_model model_dir self fs) other = (inr tt, self).
Proof. load_saved_files model_dir self fs. destruct self; reflexivity. Qed.

(** X2. [save_model] writes six files of its directory and nothing else:
    after the call each of the six names holds the attribute it is named
    for, as the predictor has it; every other directory, and every other
    file of the directory, is as before. *)
Theorem save_model_writes_six_files model_dir self fs :
  let files := default ∅ (save_model model_dir self fs !! model_dir) in
  files !! "flight_delay_model.pkl" = Some (PickledModel (model self)) /\
  files !! "scaler.pkl" = Some (PickledScaler (scaler self)) /\
  files !! "label_encoders.pkl" = Some (PickledEncoders (label_encoders self)) /\
  files !! "airport_stats.json" = Some (JsonStats (airport_stats self)) /\
  files !! "feature_columns.json" = Some (JsonColumns (feature_columns self)) /\
  files !! "model_metadata.json" = Some (JsonMetadata (model_metadata self)) /\
  (forall dir, dir <> model_dir ->
     save_model model_dir self fs !! dir = fs !! dir) /\
  (forall name,
     name ∉ [ "flight_delay_model.pkl"; "scaler.pkl"; "label_encoders.pkl";
              "airport_stats.json"; "feature_columns.json";
              "model_metadata.json" ] ->
     files !! name = default ∅ (fs !! model_dir) !! name).
Proof.
  cbv zeta.
  assert (save_model model_dir self fs !! model_dir
          = Some (<["model_metadata.json" := JsonMetadata (model_metadata self)]>
                 (<["feature_columns.json" := JsonColumns (feature_columns self)]>
                 (<["airport_stats.json" := JsonStats (airport_stats self)]>
                 (<["label_encoders.pkl" := PickledEncoders (label_encoders self)]>
                 (<["scaler.pkl" := PickledScaler (scaler self)]>
                 (<["flight_delay_model.pkl" := PickledModel (model self)]>
                    (default ∅ (fs !! model_dir))))))))) as ->.
  { unfold save_model, filesystem in *. cbv zeta. apply lookup_insert_eq. }
  cbn [default from_option id].
  do 6 (split; [read_saved_file |]).
  split.
  - intros dir Hne. unfold save_model, filesystem in *. cbv zeta.
    apply lookup_insert_ne. congruence.
  - intros name Hname.
    rewrite !lookup_insert_ne; [reflexivity | | | | | |];
      intros <-; apply Hname; set_solver.
Qed.

(** X3. A directory that holds the three pickles but not
    [airport_stats.json] makes [load_model] raise [FileNotFoundError] for
    that file with the predictor half loaded: model, scaler and encoders
    are those of the files, the statistics, the schema and the metadata are
    the old ones. *)
Theorem load_model_stops_at_missing_statistics
    model_dir fs files m s enc self :
  fs !! model_dir = Some files ->
  files !! "flight_delay_model.pkl" = Some (PickledModel m) ->
  files !! "scaler.pkl" = Some (PickledScaler s) ->
  files !! "label_encoders.pkl" = Some (PickledEncoders enc) ->
  files !! "airport_stats.json" = None ->
  load_model model_dir fs self =
    (inl (FileNotFoundError (path_join model_dir "airport_stats.json")),
     {| model := m; label_encoders := enc; scaler := s;
        feature_columns := feature_columns self;
        airport_stats := airport_stats self;
        model_metadata := model_metadata self |}).
Proof.
  intros Hd Hm Hs He Hn. unfold load_model, read_file.
  rewrite Hd, Hm. cbv zeta. rewrite Hs, He, Hn. reflexivity.
Qed.

Lemma load_model_stops_at_missing_statistics_witness :
  load_model "saved_model"
    {[ "saved_model" :=
         {[ "flight_delay_model.pkl" := PickledModel (Some sample_classifier);
            "scaler.pkl" := PickledScaler (Some sample_transform);
            "label_encoders.pkl" := PickledEncoders ∅ ]} ]}
    init =
    (inl (FileNotFoundError (path_join "saved_model" "airport_stats.json")),
     {| model := Some sample_classifier; label_encoders := ∅;
        scaler := Some sample_transform;
        feature_columns := feature_columns init;
        airport_stats := airport_stats init;
        model_metadata := model_metadata init |}).
Proof.
  apply (load_model_stops_at_missing_statistics "saved_model" _
           {[ "flight_delay_model.pkl" := PickledModel (Some sample_classifier);
              "scaler.pkl" := PickledScaler (Some sample_transform);
              "label_encoders.pkl" := PickledEncoders ∅ ]});
    vm_compute; reflexivity.
Defined.

(** ** Start-up of the service *)

Lemma predict_untrained self o d day dep :
  model self = None ->
  predict_delay_probability o d day dep self =
    (inl (ValueError "Model not trained yet. Call train_model() first."), self).
Proof.
  intros H. unfold predict_delay_probability.
  rewrite (bind_inr _ _ self self self) by reflexivity.
  rewrite H. reflexivity.
Qed.

(** X4. A predictor without a model answers every complete request with a
    valid day by status 500, 'Prediction failed' and the message of
    [predict_delay_probability], and is left as it was. *)
Theorem untrained_predictor_fails_each_prediction
    model_info now self o d day dep :
  model self = None ->
  1 <= day <= 7 ->
  predict_delay model_info now (Some self)
    {| origin := Some o; destination := Some d;
       dayOfWeek := Some day; departureTime := dep |} =
    ((Error "Prediction failed"
            (Some "Model not trained yet. Call train_model() first."), 500),
     Some self).
Proof.
  intros Hm Hday.
  unfold predict_delay, try_, predict_delay_try. simpl.
  replace ((day <? 1) || (day >? 7)) with false
    by (symmetry; apply orb_false_iff; split; lia).
  rewrite (bind_inl _ _ self _ self (predict_untrained self o d day dep Hm)).
  reflexivity.
Qed.

Lemma untrained_predictor_fails_each_prediction_witness :
  predict_delay None "2025-06-01T12:00:00" (Some init)
    {| origin := Some "JFK"; destination := Some "LAX";
       dayOfWeek := Some 3; departureTime := None |} =
    ((Error "Prediction failed"
            (Some "Model not trained yet. Call train_model() first."), 500),
     Some init).
Proof.
  apply (untrained_predictor_fails_each_prediction None "2025-06-01T12:00:00"
           init "JFK" "LAX" 3 None).
  - reflexivity.
  - lia.
Defined.

(** X5. Start-up on a directory written by [save_model] sets the globals to
    the saved predictor and its metadata, and reports success exactly when
    the metadata is not empty: a predictor saved before training leaves the
    globals set and the result [False]. *)
Theorem startup_after_save model_dir self fs g :
  api_load_model model_dir (save_model model_dir self fs) g =
    (match model_metadata self with Some _ => true | None => false end,
     {| predictor := Some self; model_info := model_metadata self |}).
Proof.
  unfold api_load_model.
  assert (is_Some (save_model model_dir self fs !! model_dir)) as [files Hf].
  { unfold save_model, filesystem in *. cbv zeta.
    rewrite lookup_insert_eq. eauto. }
  rewrite Hf. load_saved_files model_dir self fs.
  destruct self; reflexivity.
Qed.

(** X6. Start-up without the model directory reports failure but leaves a
    fresh predictor in the global: the health check then says the model is
    loaded, the model information counts no airport, and a complete request
    is answered 'Prediction failed' (500), not 'Model not loaded'. *)
Theorem startup_without_directory model_dir fs g model_info' now o d day dep :
  fs !! model_dir = None ->
  1 <= day <= 7 ->
  let g' := snd (api_load_model model_dir fs g) in
  fst (api_load_model model_dir fs g) = false /\
  predictor g' = Some init /\
  model_info g' = model_info g /\
  health_check g' = true /\
  model_info_endpoint g' = inr (0%nat, 0%nat) /\
  predict_delay model_info' now (predictor g')
    {| origin := Some o; destination := Some d;
       dayOfWeek := Some day; departureTime := dep |} =
    ((Error "Prediction failed"
            (Some "Model not trained yet. Call train_model() first."), 500),
     Some init).
Proof.
  intros Hd Hday. unfold api_load_model. rewrite Hd. simpl.
  repeat (split; [reflexivity |]).
  unfold predict_delay, try_, predict_delay_try. simpl.
  replace ((day <? 1) || (day >? 7)) with false
    by (symmetry; apply orb_false_iff; split; lia).
  rewrite (bind_inl _ _ init _ init
             (predict_untrained init o d day dep eq_refl)).
  reflexivity.
Qed.

Lemma startup_without_directory_witness :
  let g' := snd (api_load_model "saved_model" ∅ initial_globals) in
  fst (api_load_model "saved_model" ∅ initial_globals) = false /\
  predictor g' = Some init /\
  model_info g' = model_info initial_globals /\
  health_check g' = true /\
  model_info_endpoint g' = inr (0%nat, 0%nat) /\
  predict_delay None "2025-06-01T12:00:00" (predictor g')
    {| origin := Some "JFK"; destination := Some "LAX";
       dayOfWeek := Some 3; departureTime := None |} =
    ((Error "Prediction failed"
            (Some "Model not trained yet. Call train_model() first."), 500),
     Some init).
Proof.
  apply (startup_without_directory "saved_model" ∅ initial_globals None
           "2025-06-01T12:00:00" "JFK" "LAX" 3 None).
  - reflexivity.
  - lia.
Defined.

(** ** Rounding *)

Lemma round_half_even_bounds q a b :
  (inject_Z a <= q)%Q -> (q <= inject_Z b)%Q ->
  a <= round_half_even q <= b.
Proof.
  intros Ha Hb. unfold round_half_even.
  pose proof (Qfloor_le q) as Hf.
  pose proof (Qfloor_resp_le _ _ Ha) as Ha'. rewrite Qfloor_Z in Ha'.
  pose proof (Qfloor_resp_le _ _ Hb) as Hb'. rewrite Qfloor_Z in Hb'.
  assert ((inject_Z (Qfloor q) < q)%Q -> Qfloor q + 1 <= b) as Hup.
  { intros Hlt.
    assert (inject_Z (Qfloor q) < inject_Z b)%Q as H by lra.
    rewrite <- Zlt_Qlt in H. lia. }
  destruct (Qcompare (q - inject_Z (Qfloor q)) (1 # 2)) eqn:E.
  - apply Qeq_alt in E.
    destruct (Z.even (Qfloor q)); [lia |].
    split; [lia |]. apply Hup. lra.
  - lia.
  - apply Qgt_alt in E. split; [lia |]. apply Hup. lra.
Qed.

Lemma pow10_pos d : 0 < pow10 d.
Proof. unfold pow10. apply Z.pow_pos_nonneg; lia. Qed.

(** Rounding to decimal digits keeps a number between two integers it lies
    between. *)
Lemma round_dec_bounds d q a b :
  (inject_Z a <= q)%Q -> (q <= inject_Z b)%Q ->
  (inject_Z a <= round_dec d q)%Q /\ (round_dec d q <= inject_Z b)%Q.
Proof.
  intros Ha Hb. unfold round_dec. rewrite Qred_correct.
  pose proof (pow10_pos d) as Hp.
  assert (0 < inject_Z (pow10 d))%Q as Hp' by (rewrite Zlt_Qlt in Hp; exact Hp).
  destruct (round_half_even_bounds (q * inject_Z (pow10 d))
              (a * pow10 d) (b * pow10 d)) as [H1 H2].
  - rewrite inject_Z_mult. nra.
  - rewrite inject_Z_mult. nra.
  - rewrite Zle_Qle, inject_Z_mult in H1, H2.
    split.
    + apply Qle_shift_div_l; [exact Hp' | exact H1].
    + apply Qle_shift_div_r; [exact Hp' | exact H2].
Qed.

(** ** The prediction endpoints *)

Lemma predict_delay_loaded model_info now self o d day dep q :
  predict_delay_probability o d day dep self = (inr q, self) ->
  1 <= day <= 7 ->
  exists name,
    day_names !! day = Some name /\
    predict_delay model_info now (Some self)
      {| origin := Some o; destination := Some d;
         dayOfWeek := Some day; departureTime := dep |}
    = ((Prediction
          {| p_origin := o; p_destination := d; p_dayOfWeek := name;
             delayProbability := round_dec 2 (q * 100);
             probabilityDecimal := round_dec 4 q;
             confidence := fst (confidence_of (known self "origin" o)
                                              (known self "dest" d));
             confidenceScore := snd (confidence_of (known self "origin" o)
                                                   (known self "dest" d));
             message := message_of q;
             originKnown := known self "origin" o;
             destinationKnown := known self "dest" d;
             modelInfo_type := from_option model_type "Unknown" model_info;
             modelInfo_accuracy := from_option roc_auc_score 0%Q model_info |}
          now, 200), Some self).
Proof.
  intros Hq Hday.
  destruct (day_name_valid day self Hday) as (name & Hname).
  exists name. split.
  { unfold day_name in Hname. destruct (day_names !! day); [| discriminate].
    cbv [ret] in Hname. congruence. }
  unfold predict_delay, try_, predict_delay_try. simpl.
  replace ((day <? 1) || (day >? 7)) with false
    by (symmetry; apply orb_false_iff; split; lia).
  rewrite (bind_inr _ _ self q self Hq).
  rewrite (bind_inr _ _ self self self) by reflexivity.
  rewrite (bind_inr _ _ self name self Hname).
  reflexivity.
Qed.

(** X7. On a loaded predictor the answer to a request with a valid day
    carries a percentage within [0,100] and a decimal probability within
    [0,1]: rounding does not leave the range. *)
Theorem response_probabilities_in_range model_info now self o d day dep :
  loaded self ->
  1 <= day <= 7 ->
  exists p,
    predict_delay model_info now (Some self)
      {| origin := Some o; destination := Some d;
         dayOfWeek := Some day; departureTime := dep |}
    = ((Prediction p now, 200), Some self) /\
    (0 <= delayProbability p)%Q /\ (delayProbability p <= 100)%Q /\
    (0 <= probabilityDecimal p)%Q /\ (probabilityDecimal p <= 1)%Q.
Proof.
  intros Hl Hday.
  destruct (loaded_predicts self o d day dep Hl) as (q & Hq & H0 & H1).
  destruct (predict_delay_loaded model_info now self o d day dep q Hq Hday)
    as (name & _ & Hresp).
  eexists. split; [exact Hresp |]. simpl.
  destruct (round_dec_bounds 2 (q * 100) 0 100) as [Ha Hb];
    [unfold inject_Z; lra | unfold inject_Z; lra |].
  destruct (round_dec_bounds 4 q 0 1) as [Hc Hd]; [exact H0 | exact H1 |].
  auto.
Qed.

Lemma response_probabilities_in_range_witness :
  exists p,
    predict_delay None "2025-06-01T12:00:00" (Some (sample_predictor RandomForest))
      {| origin := Some "JFK"; destination := Some "LAX";
         dayOfWeek := Some 6; departureTime := Some 1745 |}
    = ((Prediction p "2025-06-01T12:00:00", 200),
       Some (sample_predictor RandomForest)) /\
    (0 <= delayProbability p)%Q /\ (delayProbability p <= 100)%Q /\
    (0 <= probabilityDecimal p)%Q /\ (probabilityDecimal p <= 1)%Q.
Proof.
  apply (response_probabilities_in_range None "2025-06-01T12:00:00"
           (sample_predictor RandomForest) "JFK" "LAX" 6 (Some 1745)).
  - apply sample_predictor_loaded.
  - lia.
Defined.

(** X8. A request that lacks a required parameter is answered 400 with the
    name of the first one missing, in the order origin, destination,
    dayOfWeek, whatever the predictor holds; nothing is predicted and the
    predictor is left as it was. *)
Theorem missing_parameter_is_reported model_info now self data :
  origin data = None \/ destination data = None \/ dayOfWeek data = None ->
  exists param,
    predict_delay model_info now (Some self) data =
      ((Error ("Missing required parameter: " +:+ param) None, 400), Some self) /\
    (origin data = None -> param = "origin") /\
    (origin data <> None -> destination data = None -> param = "destination") /\
    (origin data <> None -> destination data <> None -> param = "dayOfWeek").
Proof.
  intros H. unfold predict_delay, try_, predict_delay_try, missing_parameter.
  destruct (origin data) as [o |].
  - destruct (destination data) as [d |].
    + destruct (dayOfWeek data) as [day |].
      * destruct H as [H | [H | H]]; discriminate.
      * exists "dayOfWeek". repeat split; try reflexivity; congruence.
    + exists "destination". repeat split; try reflexivity; congruence.
  - exists "origin". repeat split; try reflexivity; congruence.
Qed.

Lemma missing_parameter_is_reported_witness :
  exists param,
    predict_delay None "2025-06-01T12:00:00" (Some init)
      {| origin := Some "JFK"; destination := None;
         dayOfWeek := None; departureTime := None |} =
      ((Error ("Missing required parameter: " +:+ param) None, 400), Some init) /\
    (Some "JFK" = None -> param = "origin") /\
    (Some "JFK" <> None -> @None string = None -> param = "destination") /\
    (Some "JFK" <> None -> @None string <> None -> param = "dayOfWeek").
Proof.
  apply (missing_parameter_is_reported None "2025-06-01T12:00:00" init
           {| origin := Some "JFK"; destination := None;
              dayOfWeek := None; departureTime := None |}).
  right. left. reflexivity.
Defined.

(** ** The batch endpoint *)

Lemma batch_route_try_state r self : snd (batch_route_try r self) = self.
Proof.
  unfold batch_route_try, required.
  destruct (origin r) as [o |]; [| reflexivity].
  rewrite (bind_inr _ _ self o self) by reflexivity.
  destruct (destination r) as [d |]; [| reflexivity].
  rewrite (bind_inr _ _ self d self) by reflexivity.
  destruct (dayOfWeek r) as [day |]; [| reflexivity].
  rewrite (bind_inr _ _ self day self) by reflexivity.
  unfold bind.
  pose proof (predict_delay_probability_state o d day (departureTime r) self) as H.
  destruct (predict_delay_probability o d day (departureTime r) self)
    as [[e | p] s]; simpl in H; subst s; reflexivity.
Qed.

Lemma batch_route_spec i r self :
  batch_route i r self = (inr (entry_of self i r), self).
Proof.
  unfold batch_route, bind, try_, entry_of.
  pose proof (batch_route_try_state r self) as H.
  destruct (batch_route_try r self) as [[e | p] s]; simpl in H; subst s;
    reflexivity.
Qed.

Lemma batch_routes_spec routes : forall i self,
  batch_routes i routes self
  = (inr (imap (fun j => entry_of self (i + j)) routes), self).
Proof.
  induction routes as [| r routes IH]; intros i self; [reflexivity |].
  simpl batch_routes.
  rewrite (bind_inr _ _ self _ self (batch_route_spec i r self)).
  rewrite (bind_inr _ _ self _ self (IH (S i) self)).
  cbv [ret]. rewrite imap_cons, Nat.add_0_r. do 3 f_equal.
  apply imap_ext. intros j x _. simpl. f_equal. lia.
Qed.

(** X9. With a predictor in place a batch is always answered with status
    200 and one entry per route, in order: entry [j] carries index [j], the
    route itself and the outcome of that route alone, so a route that fails
    does not stop the others; the count of successes does not exceed the
    number of routes, and the predictor is left as it was. *)
Theorem batch_predict_answers_every_route self routes :
  exists predictions successes,
    batch_predict (Some self) (Some routes)
    = ((Batch predictions (length routes) successes, 200), Some self) /\
    length predictions = length routes /\
    (forall (j : nat) r, routes !! j = Some r ->
       predictions !! j = Some (entry_of self j r)) /\
    successes = length (filter (fun p => success p = true) predictions) /\
    (successes <= length routes)%nat.
Proof.
  exists (imap (fun j => entry_of self j) routes),
    (length (filter (fun p => success p = true)
               (imap (fun j => entry_of self j) routes))).
  split.
  { unfold batch_predict. rewrite (batch_routes_spec routes 0 self).
    reflexivity. }
  split; [apply length_imap |].
  split.
  { intros j r Hj. rewrite list_lookup_imap, Hj. reflexivity. }
  split; [reflexivity |].
  rewrite <- (length_imap (fun j => entry_of self j) routes).
  apply length_filter.
Qed.

(** X10. On a loaded predictor a route with a valid day gets in a batch the
    percentage that [/predict] gives for the same parameters. *)
Theorem batch_agrees_with_predict model_info now self o d day dep :
  loaded self ->
  1 <= day <= 7 ->
  let data := {| origin := Some o; destination := Some d;
                 dayOfWeek := Some day; departureTime := dep |} in
  exists p,
    predict_delay model_info now (Some self) data
      = ((Prediction p now, 200), Some self) /\
    batch_predict (Some self) (Some [data])
      = ((Batch [ {| index := 0; route := data;
                     outcome := inr (delayProbability p) |} ] 1 1, 200),
         Some self).
Proof.
  intros Hl Hday data.
  destruct (loaded_predicts self o d day dep Hl) as (q & Hq & _).
  destruct (predict_delay_loaded model_info now self o d day dep q Hq Hday)
    as (name & _ & Hresp).
  eexists. split; [exact Hresp |].
  unfold batch_predict. rewrite (batch_routes_spec [data] 0 self).
  simpl. unfold entry_of, batch_route_try, required. simpl.
  rewrite (bind_inr _ _ self o self) by reflexivity.
  rewrite (bind_inr _ _ self d self) by reflexivity.
  rewrite (bind_inr _ _ self day self) by reflexivity.
  rewrite (bind_inr _ _ self q self Hq).
  reflexivity.
Qed.

Lemma batch_agrees_with_predict_witness :
  let data := {| origin := Some "JFK"; destination := Some "Nowhere";
                 dayOfWeek := Some 7; departureTime := None |} in
  exists p,
    predict_delay None "2025-06-01T12:00:00"
      (Some (sample_predictor GradientBoosting)) data
      = ((Prediction p "2025-06-01T12:00:00", 200),
         Some (sample_predictor GradientBoosting)) /\
    batch_predict (Some (sample_predictor GradientBoosting)) (Some [data])
      = ((Batch [ {| index := 0; route := data;
                     outcome := inr (delayProbability p) |} ] 1 1, 200),
         Some (sample_predictor GradientBoosting)).
Proof.
  apply (batch_agrees_with_predict None "2025-06-01T12:00:00"
           (sample_predictor GradientBoosting) "JFK" "Nowhere" 7 None).
  - apply sample_predictor_loaded.
  - lia.
Defined.

(** X11. A route without a required parameter becomes an error entry whose
    text is the quoted name of the first parameter missing, whatever the
    predictor holds. *)
Theorem batch_route_missing_parameter self i r :
  origin r = None \/ destination r = None \/ dayOfWeek r = None ->
  exists param,
    batch_route i r self
    = (inr {| index := i; route := r;
              outcome := inl ("'" +:+ param +:+ "'") |}, self) /\
    (origin r = None -> param = "origin") /\
    (origin r <> None -> destination r = None -> param = "destination") /\
    (origin r <> None -> destination r <> None -> param = "dayOfWeek").
Proof.
  intros H. rewrite batch_route_spec.
  unfold entry_of, batch_route_try, required.
  destruct (origin r) as [o |].
  - rewrite (bind_inr _ _ self o self) by reflexivity.
    destruct (destination r) as [d |].
    + rewrite (bind_inr _ _ self d self) by reflexivity.
      destruct (dayOfWeek r) as [day |].
      * destruct H as [H | [H | H]]; discriminate.
      * exists "dayOfWeek". repeat split; try reflexivity; congruence.
    + exists "destination". repeat split; try reflexivity; congruence.
  - exists "origin". repeat split; try reflexivity; congruence.
Qed.

Lemma batch_route_missing_parameter_witness :
  exists param,
    batch_route 4 {| origin := None; destination := Some "LAX";
                     dayOfWeek := Some 2; departureTime := None |}
      (sample_predictor RandomForest)
    = (inr {| index := 4;
              route := {| origin := None; destination := Some "LAX";
                          dayOfWeek := Some 2; departureTime := None |};
              outcome := inl ("'" +:+ param +:+ "'") |},
       sample_predictor RandomForest) /\
    (@None string = None -> param = "origin") /\
    (@None string <> None -> Some "LAX" = None -> param = "destination") /\
    (@None string <> None -> Some "LAX" <> None -> param = "dayOfWeek").
Proof.
  apply (batch_route_missing_parameter (sample_predictor RandomForest) 4
           {| origin := None; destination := Some "LAX";
              dayOfWeek := Some 2; departureTime := None |}).
  left. reflexivity.
Defined.

(** ** Airports of the corpus *)

Lemma group_table_lookup_None (f : string -> gmap string value) ks k :
  k ∉ ks ->
  foldr (fun k table => <[k := f k]> table)
        (∅ : gmap string (gmap string value)) ks !! k = None.
Proof.
  induction ks as [| k' ks IH]; intros Hk; [apply lookup_empty |].
  simpl. rewrite lookup_insert_ne; [apply IH |]; set_solver.
Qed.

Lemma group_table_known (f : string -> gmap string value) keys k :
  is_Some (foldr (fun k table => <[k := f k]> table)
                 (∅ : gmap string (gmap string value)) (omap id keys) !! k)
  <-> Some k ∈ keys.
Proof.
  assert (k ∈ omap id keys <-> Some k ∈ keys) as Hin.
  { rewrite list_elem_of_omap. split.
    - intros ([x |] & Hx & Heq); simpl in Heq; [| discriminate].
      injection Heq as ->. exact Hx.
    - intros H. exists (Some k). auto. }
  rewrite <- Hin. split.
  - intros Hs. destruct (decide (k ∈ omap id keys)) as [| Hn]; [assumption |].
    rewrite (group_table_lookup_None f _ k Hn) in Hs. destruct Hs; discriminate.
  - intros Hk. rewrite (group_table_lookup f _ k Hk). eauto.
Qed.

(** X12. After the aggregator has run on a corpus with the two name columns
    and the three numeric columns, an airport is known to the service in a
    role exactly when it is the origin, respectively the destination, of a
    record of the corpus. *)
Theorem known_airports_are_those_of_the_corpus
    df origins dests v1 v2 v3 self a :
  columns df !! "OriginAirportName" = Some origins ->
  columns df !! "DestAirportName" = Some dests ->
  columns df !! "ArrDel15" = Some (NumCol v1) ->
  columns df !! "DepDelay" = Some (NumCol v2) ->
  columns df !! "ArrDelay" = Some (NumCol v3) ->
  let self' := snd (create_airport_features df self) in
  (known self' "origin" a = true <-> Some a ∈ strings_of origins) /\
  (known self' "dest" a = true <-> Some a ∈ strings_of dests).
Proof.
  intros Ho Hd H1 H2 H3. unfold create_airport_features.
  rewrite (bind_inr _ _ self _ self
             (groupby_agg_spec df _ "origin_" origins v1 v2 v3 self Ho H1 H2 H3)).
  rewrite (bind_inr _ _ self _ self
             (groupby_agg_spec df _ "dest_" dests v1 v2 v3 self Hd H1 H2 H3)).
  cbv zeta. unfold known. simpl airport_stats.
  rewrite lookup_insert_eq.
  rewrite lookup_insert_ne by discriminate. rewrite lookup_insert_eq.
  simpl default. rewrite !bool_decide_eq_true.
  split; apply group_table_known.
Qed.

Lemma known_airports_are_those_of_the_corpus_witness :
  let self' := snd (create_airport_features four_flights init) in
  (known self' "origin" "JFK" = true <->
     Some "JFK" ∈ strings_of
       (ObjCol [Some "JFK"; Some "LAX"; Some "LAX"; Some "LAX"])) /\
  (known self' "dest" "JFK" = true <->
     Some "JFK" ∈ strings_of
       (ObjCol [Some "LAX"; Some "JFK"; Some "JFK"; Some "JFK"])).
Proof.
  apply (known_airports_are_those_of_the_corpus four_flights
           (ObjCol [Some "JFK"; Some "LAX"; Some "LAX"; Some "LAX"])
           (ObjCol [Some "LAX"; Some "JFK"; Some "JFK"; Some "JFK"])
           [Int 0; Int 0; Int 1; Int 0] [Int 0; Int 5; Int 30; Int (-2)]
           [Int (-4); Int 3; Int 41; Int 0] init "JFK");
    reflexivity.
Defined.

(** ** The label encoder *)

Lemma string_lt_trans x y z : string_lt x y -> string_lt y z -> string_lt x z.
Proof.
  unfold string_lt. intros H1 H2.
  apply String_as_OT.cmp_lt. apply String_as_OT.cmp_lt in H1, H2.
  eapply String_as_OT.lt_trans; eassumption.
Qed.

Lemma string_lt_irrefl x : ~ string_lt x x.
Proof.
  unfold string_lt. intros H.
  assert (String.compare x x = Eq) as E by (apply String_as_OT.cmp_eq; reflexivity).
  congruence.
Qed.

Lemma string_gt_lt x y : String.compare x y = Gt -> string_lt y x.
Proof.
  unfold string_lt. intros H.
  pose proof (String_as_OT.cmp_antisym y x) as A.
  unfold String_as_OT.cmp in A. rewrite H in A. exact A.
Qed.

Lemma insert_string_elem x y l :
  y ∈ insert_string x l <-> y = x \/ y ∈ l.
Proof.
  induction l as [| z l IH]; simpl.
  - set_solver.
  - destruct (String.compare x z) eqn:E.
    + apply String_as_OT.cmp_eq in E. subst z. set_solver.
    + set_solver.
    + rewrite elem_of_cons, IH. set_solver.
Qed.

Lemma insert_string_sorted x l :
  StronglySorted string_lt l -> StronglySorted string_lt (insert_string x l).
Proof.
  induction 1 as [| z l Hs IH Hz]; simpl.
  - repeat constructor.
  - destruct (String.compare x z) eqn:E.
    + constructor; assumption.
    + constructor; [constructor; assumption |].
      constructor; [exact E |].
      eapply Forall_impl; [exact Hz |].
      intros w Hw. eapply string_lt_trans; [exact E | exact Hw].
    + constructor; [exact IH |].
      apply Forall_forall. intros w Hw.
      apply insert_string_elem in Hw as [-> | Hw].
      * apply string_gt_lt, E.
      * rewrite Forall_forall in Hz. apply Hz, Hw.
Qed.

Lemma sorted_unique_elem l x : x ∈ sorted_unique l <-> x ∈ l.
Proof.
  unfold sorted_unique. induction l as [| y l IH]; simpl.
  - reflexivity.
  - rewrite insert_string_elem, IH. set_solver.
Qed.

Lemma sorted_unique_sorted l : StronglySorted string_lt (sorted_unique l).
Proof.
  unfold sorted_unique. induction l as [| y l IH]; simpl.
  - constructor.
  - apply insert_string_sorted, IH.
Qed.

(** A value of the table is encoded by its position. *)
Lemma class_index_seen classes x :
  x ∈ classes ->
  exists i : nat, class_index classes x = Z.of_nat i /\ classes !! i = Some x.
Proof.
  intros Hin. unfold class_index.
  destruct (list_find (fun c => c = x) classes) as [[i c] |] eqn:E.
  - apply list_find_Some in E as (Hi & -> & _). eauto.
  - apply list_find_None in E. rewrite Forall_forall in E.
    exfalso. apply (E x Hin). reflexivity.
Qed.

Lemma class_index_unseen classes x :
  x ∉ classes -> class_index classes x = -1.
Proof.
  intros Hn. unfold class_index.
  destruct (list_find (fun c => c = x) classes) as [[i c] |] eqn:E;
    [| reflexivity].
  apply list_find_Some in E as (Hi & -> & _).
  exfalso. apply Hn. eapply list_elem_of_lookup_2, Hi.
Qed.

Section EncoderProperties.

Variable str_number : value -> string.

(** X13. Fitting: for a feature without an encoder, the code table recorded
    is the strictly increasing list of the distinct values of the column,
    and every entry of the column is encoded by the position of its value
    in that table; equal codes mean equal values. *)
Theorem fitted_encoder_codes df df_encoded feature col self :
  columns df !! feature = Some col ->
  label_encoders self !! feature = None ->
  exists classes codes self',
    encode_feature str_number df df_encoded feature self
    = (inr (set_column (feature +:+ "_encoded") (NumCol codes) df_encoded), self') /\
    label_encoders self' = <[feature := classes]> (label_encoders self) /\
    StronglySorted string_lt classes /\
    (forall x, x ∈ classes <-> x ∈ astype_str str_number col) /\
    Forall2 (fun x code =>
               exists i : nat, code = Int (Z.of_nat i) /\ classes !! i = Some x)
            (astype_str str_number col) codes.
Proof.
  intros Hcol Henc.
  exists (sorted_unique (astype_str str_number col)),
    (map (fun x => Int (class_index (sorted_unique (astype_str str_number col)) x))
         (astype_str str_number col)).
  eexists. split.
  { unfold encode_feature.
    rewrite (bind_inr _ _ self col self) by (apply getitem_Some; exact Hcol).
    rewrite (bind_inr _ _ self self self) by reflexivity.
    rewrite Henc. reflexivity. }
  split; [reflexivity |].
  split; [apply sorted_unique_sorted |].
  split; [intros x; apply sorted_unique_elem |].
  apply Forall2_fmap_r, Forall_Forall2_diag, Forall_forall.
  intros x Hx.
  destruct (class_index_seen (sorted_unique (astype_str str_number col)) x)
    as (i & Hi & Hl); [apply sorted_unique_elem, Hx |].
  exists i. rewrite Hi. auto.
Qed.

End EncoderProperties.

Lemma fitted_encoder_codes_witness :
  exists classes codes self',
    encode_feature (fun _ => "0") four_flights four_flights "Carrier" init
    = (inr (set_column "Carrier_encoded" (NumCol codes) four_flights), self') /\
    label_encoders self' = <["Carrier" := classes]> (label_encoders init) /\
    StronglySorted string_lt classes /\
    (forall x, x ∈ classes <-> x ∈ ["DL"; "AA"; "DL"; "UA"]) /\
    Forall2 (fun x code =>
               exists i : nat, code = Int (Z.of_nat i) /\ classes !! i = Some x)
            ["DL"; "AA"; "DL"; "UA"] codes.
Proof.
  apply (fitted_encoder_codes (fun _ => "0") four_flights four_flights "Carrier"
           (ObjCol [Some "DL"; Some "AA"; Some "DL"; Some "UA"]) init);
    reflexivity.
Defined.

(** ** What a training that returns has done *)

Lemma reads_only_inv {A} (m : M A) r s s' :
  reads_only m -> m s = (r, s') -> s' = s.
Proof. intros Hm H. specialize (Hm s). rewrite H in Hm. exact Hm. Qed.

Lemma agg_data_inv df s data s' :
  agg_data df (map fst agg_spec) s = (inr data, s') ->
  exists c1 c2 c3 v1 v2 v3,
    columns df !! "ArrDel15" = Some c1 /\ numbers_of c1 = Some v1 /\
    columns df !! "DepDelay" = Some c2 /\ numbers_of c2 = Some v2 /\
    columns df !! "ArrDelay" = Some c3 /\ numbers_of c3 = Some v3 /\
    data = [("ArrDel15", v1); ("DepDelay", v2); ("ArrDelay", v3)] /\ s' = s.
Proof.
  simpl. intros H.
  apply bind_inv in H as (c1 & s1 & Hc1 & H).
  apply getitem_inv in Hc1 as [Hc1 ->].
  destruct (numbers_of c1) as [v1 |] eqn:N1; [| discriminate].
  apply bind_inv in H as (rest1 & s1 & H & Hret).
  cbv [ret] in Hret. injection Hret as <- <-.
  apply bind_inv in H as (c2 & s2 & Hc2 & H).
  apply getitem_inv in Hc2 as [Hc2 ->].
  destruct (numbers_of c2) as [v2 |] eqn:N2; [| discriminate].
  apply bind_inv in H as (rest2 & s2 & H & Hret).
  cbv [ret] in Hret. injection Hret as <- <-.
  apply bind_inv in H as (c3 & s3 & Hc3 & H).
  apply getitem_inv in Hc3 as [Hc3 ->].
  destruct (numbers_of c3) as [v3 |] eqn:N3; [| discriminate].
  apply bind_inv in H as (rest3 & s3 & H & Hret).
  cbv [ret] in H, Hret. injection H as <- <-. injection Hret as <- <-.
  exists c1, c2, c3, v1, v2, v3. auto 10.
Qed.

Lemma groupby_agg_inv df by_ prefix s table s' :
  groupby_agg df by_ prefix s = (inr table, s') ->
  exists key_col c1 c2 c3 v1 v2 v3,
    columns df !! by_ = Some key_col /\
    columns df !! "ArrDel15" = Some c1 /\ numbers_of c1 = Some v1 /\
    columns df !! "DepDelay" = Some c2 /\ numbers_of c2 = Some v2 /\
    columns df !! "ArrDelay" = Some c3 /\ numbers_of c3 = Some v3.
Proof.
  unfold groupby_agg. intros H.
  apply bind_inv in H as (key_col & s1 & Hk & H).
  apply getitem_inv in Hk as [Hk ->].
  destruct (missing_columns df); [| discriminate].
  apply bind_inv in H as (data & s1 & Hdata & _).
  apply agg_data_inv in Hdata
    as (c1 & c2 & c3 & v1 & v2 & v3 & H1 & N1 & H2 & N2 & H3 & N3 & _).
  exists key_col, c1, c2, c3, v1, v2, v3. auto 10.
Qed.

Lemma create_airport_features_inv df s stats s' :
  create_airport_features df s = (inr stats, s') ->
  exists origins dests c1 c2 c3 v1 v2 v3,
    columns df !! "OriginAirportName" = Some origins /\
    columns df !! "DestAirportName" = Some dests /\
    columns df !! "ArrDel15" = Some c1 /\ numbers_of c1 = Some v1 /\
    columns df !! "DepDelay" = Some c2 /\ numbers_of c2 = Some v2 /\
    columns df !! "ArrDelay" = Some c3 /\ numbers_of c3 = Some v3.
Proof.
  unfold create_airport_features. intros H.
  apply bind_inv in H as (os & s1 & Hos & H).
  apply bind_inv in H as (ds & s2 & Hds & _).
  apply groupby_agg_inv in Hos
    as (origins & c1 & c2 & c3 & v1 & v2 & v3 & Ho & H1 & N1 & H2 & N2 & H3 & N3).
  apply groupby_agg_inv in Hds as (dests & _ & _ & _ & _ & _ & _ & Hd & _).
  exists origins, dests, c1, c2, c3, v1, v2, v3. auto 10.
Qed.

Lemma merged_columns_in (f : string -> column) cols df k :
  k ∈ cols \/ is_Some (columns df !! k) ->
  is_Some (columns (foldr (fun c df' => set_column c (f c) df') df cols) !! k).
Proof.
  induction cols as [| c cols IH]; intros Hk.
  - destruct Hk as [Hk | Hk]; [inversion Hk | exact Hk].
  - simpl. destruct (decide (c = k)) as [-> | Hne].
    + rewrite lookup_insert_eq. eauto.
    + rewrite lookup_insert_ne by exact Hne. apply IH.
      destruct Hk as [Hk | Hk]; [| auto].
      apply elem_of_cons in Hk as [-> | Hk]; [contradiction | auto].
Qed.

Lemma merged_nrows (f : string -> column) cols df :
  nrows (foldr (fun c df' => set_column c (f c) df') df cols) = nrows df.
Proof. induction cols as [| c cols IH]; simpl; auto. Qed.

Lemma merge_inv_full df left_on stats cols df' self self' :
  merge df left_on stats cols self = (inr df', self') ->
  self' = self /\ nrows df' = nrows df /\
  (forall k, k ∉ cols -> columns df' !! k = columns df !! k) /\
  (forall k, k ∈ cols \/ is_Some (columns df !! k) ->
             is_Some (columns df' !! k)).
Proof.
  unfold merge. intros H.
  apply bind_inv in H as (col & s1 & Hcol & H).
  apply getitem_inv in Hcol as [Hcol ->].
  cbv [ret] in H. injection H as <- <-.
  split; [reflexivity |]. split; [apply merged_nrows |].
  split.
  - intros k Hk. apply merged_columns_lookup, Hk.
  - intros k Hk. apply merged_columns_in, Hk.
Qed.

Lemma fill_missing_columns df df' self self' :
  fill_missing df self = (inr df', self') ->
  df' = {| nrows := nrows df; columns := fill_column <$> columns df |}.
Proof.
  unfold fill_missing. intros H.
  destruct (forallb fillable (map snd (map_to_list (columns df))));
    [| discriminate].
  cbv [ret] in H. congruence.
Qed.

(** The engineered table has the rows of the input, every numeric feature
    of the schema, the two derived categorical columns, and the carrier
    column exactly when the input has it. *)
Lemma feature_engineering_inv df self df' self' :
  feature_engineering df self = (inr df', self') ->
  (exists stats, create_airport_features df self = (inr stats, self')) /\
  nrows df' = nrows df /\
  (forall c, c ∈ base_feature_columns ++ ["departure_period"; "season"] ->
             has_column df' c = true) /\
  has_column df' "Carrier" = has_column df "Carrier".
Proof.
  intros H.
  pose proof (feature_engineering_state df self) as Hst.
  rewrite H in Hst. simpl in Hst.
  unfold feature_engineering in H.
  apply bind_inv in H as (stats & s1 & Hstats & H).
  assert (s1 = self') as ->.
  { rewrite Hstats in Hst. simpl in Hst. congruence. }
  split; [eauto |].
  apply bind_inv in H as (dfa & s2 & Ha & H).
  apply merge_inv_full in Ha as (-> & Hna & Ha & Ha').
  apply bind_inv in H as (dfb & s3 & Hb & H).
  apply merge_inv_full in Hb as (-> & Hnb & Hb & Hb').
  apply bind_inv in H as (dep & s4 & Hdep & H).
  apply numeric_column_inv in Hdep as [(cdep & Hdep & _) ->].
  cbv zeta in H.
  apply bind_inv in H as (arr & s5 & Harr & H).
  apply numeric_column_inv in Harr as [(carr & Harr & _) ->].
  apply bind_inv in H as (hours & s6 & Hhours & H).
  apply numeric_column_inv in Hhours as [_ ->].
  apply bind_inv in H as (origin_state & s7 & Hos & H).
  apply getitem_inv in Hos as [_ ->].
  apply bind_inv in H as (dest_state & s8 & Hds & H).
  apply getitem_inv in Hds as [_ ->].
  apply bind_inv in H as (month & s9 & Hmonth & H).
  apply getitem_inv in Hmonth as [_ ->].
  apply bind_inv in H as (day & s10 & Hday & H).
  apply getitem_inv in Hday as [Hday ->].
  apply fill_missing_columns in H. subst df'.
  unfold has_column, set_column in *. simpl columns in *. simpl nrows.
  split; [congruence |].
  split.
  - rewrite !lookup_insert_ne in Hday by discriminate.
    rewrite !lookup_insert_ne in Harr by discriminate.
    intros c Hc. apply bool_decide_eq_true. rewrite lookup_fmap.
    apply fmap_is_Some.
    apply list_elem_of_In in Hc. simpl in Hc.
    repeat (destruct Hc as [<- | Hc];
            [repeat first [ rewrite lookup_insert_eq
                          | rewrite lookup_insert_ne by discriminate ];
             first [ solve [eauto]
                   | rewrite Hday; solve [eauto]
                   | rewrite Harr; solve [eauto]
                   | rewrite Hdep; solve [eauto]
                   | apply Hb'; left; rewrite stat_columns_dest;
                     apply list_elem_of_In; simpl; solve [auto 10]
                   | apply Hb'; right; apply Ha'; left;
                     rewrite stat_columns_origin;
                     apply list_elem_of_In; simpl; solve [auto 10] ] |]).
    contradiction.
  - rewrite lookup_fmap.
    rewrite !lookup_insert_ne by discriminate.
    rewrite Hb, Ha.
    + apply bool_decide_ext. rewrite fmap_is_Some. reflexivity.
    + rewrite stat_columns_origin. intros Hin. apply list_elem_of_In in Hin.
      simpl in Hin. repeat (destruct Hin as [Hin | Hin]; [discriminate |]).
      exact Hin.
    + rewrite stat_columns_dest. intros Hin. apply list_elem_of_In in Hin.
      simpl in Hin. repeat (destruct Hin as [Hin | Hin]; [discriminate |]).
      exact Hin.
Qed.

Lemma same_model_refl s : same_model s s.
Proof. repeat split. Qed.

Lemma same_model_trans s1 s2 s3 :
  same_model s1 s2 -> same_model s2 s3 -> same_model s1 s3.
Proof.
  unfold same_model. intros (A1 & A2 & A3 & A4) (B1 & B2 & B3 & B4).
  repeat split; congruence.
Qed.

Section TrainerProperties.

Variable str_number : value -> string.
Variable now : string.
Variable stratified_split :
  list (list value) -> list value ->
  exn + (list (list value) * list (list value) * list value * list value).
Variable StandardScaler_fit : list (list value) -> list value -> list value.
Variable RandomForestClassifier_fit :
  list (list value) -> list value -> Classifier.
Variable GradientBoostingClassifier_fit :
  list (list value) -> list value -> Classifier.
Variable roc_auc : list value -> list Q -> exn + Q.

Lemma encode_feature_inv df df_encoded feature self df' self' :
  encode_feature str_number df df_encoded feature self = (inr df', self') ->
  same_model self self' /\ feature_columns self' = feature_columns self /\
  is_Some (columns df' !! (feature +:+ "_encoded")) /\
  (forall c, is_Some (columns df_encoded !! c) -> is_Some (columns df' !! c)).
Proof.
  unfold encode_feature. intros H.
  apply bind_inv in H as (col & s1 & Hcol & H).
  apply getitem_inv in Hcol as [_ ->].
  apply bind_inv in H as (s & s1 & Hget & H).
  cbv [get] in Hget. injection Hget as <- <-.
  assert (forall codes c,
            is_Some (columns df_encoded !! c) ->
            is_Some (columns (set_column (feature +:+ "_encoded") codes df_encoded) !! c))
    as Hgrow.
  { intros codes c Hc. unfold set_column. simpl.
    destruct (decide (feature +:+ "_encoded" = c)) as [-> | Hne].
    - rewrite lookup_insert_eq. eauto.
    - rewrite lookup_insert_ne by exact Hne. exact Hc. }
  destruct (label_encoders self !! feature) as [known_categories |].
  - cbv [ret] in H. injection H as <- <-.
    split; [apply same_model_refl |]. split; [reflexivity |].
    split; [| apply Hgrow].
    unfold set_column. simpl. rewrite lookup_insert_eq. eauto.
  - apply bind_inv in H as ([] & s1 & Hset & H).
    cbv [set_label_encoders] in Hset. injection Hset as <-.
    cbv [ret] in H. injection H as <- <-.
    split; [repeat split |]. split; [reflexivity |].
    split; [| apply Hgrow].
    unfold set_column. simpl. rewrite lookup_insert_eq. eauto.
Qed.

Lemma encode_features_inv df todo : forall df_encoded feats self enc self',
  encode_features str_number df todo df_encoded feats self = (inr enc, self') ->
  same_model self self' /\ feature_columns self' = feature_columns self /\
  snd enc = feats ++
    flat_map (fun feature =>
                if has_column df feature then [feature +:+ "_encoded"] else [])
             todo /\
  (forall c, is_Some (columns df_encoded !! c) -> is_Some (columns (fst enc) !! c)) /\
  (forall c,
     c ∈ flat_map (fun feature =>
                     if has_column df feature then [feature +:+ "_encoded"] else [])
                  todo ->
     is_Some (columns (fst enc) !! c)).
Proof.
  induction todo as [| feature todo IH]; intros df_encoded feats self enc self' H.
  - simpl in H. cbv [ret] in H. injection H as <- <-. simpl.
    split; [apply same_model_refl |]. split; [reflexivity |].
    split; [symmetry; apply app_nil_r |]. split; [auto |].
    intros c Hc. inversion Hc.
  - simpl in H. simpl flat_map.
    destruct (has_column df feature).
    + apply bind_inv in H as (df1 & s1 & H1 & H).
      apply encode_feature_inv in H1 as (Hm1 & Hf1 & Hnew & Hgrow).
      apply IH in H as (Hm & Hf & Hfeats & Hkeep & Hin).
      split; [eapply same_model_trans; eassumption |].
      split; [congruence |].
      split; [rewrite Hfeats, <- app_assoc; reflexivity |].
      split; [auto |].
      intros c Hc. simpl in Hc. apply elem_of_cons in Hc as [-> | Hc]; auto.
    + apply IH in H as (Hm & Hf & Hfeats & Hkeep & Hin).
      simpl. auto.
Qed.

Lemma mapM_names df names : forall self X self',
  mapM (fun c => vs <- numeric_column df c ;; ret (c, vs)) names self
  = (inr X, self') ->
  map fst X = names /\ self' = self.
Proof.
  induction names as [| c names IH]; intros self X self' H; simpl in H.
  - cbv [ret] in H. injection H as <- <-. auto.
  - apply bind_inv in H as (cv & s1 & Hcv & H).
    apply bind_inv in Hcv as (vs & s0 & Hvs & Hret).
    apply numeric_column_inv in Hvs as [_ ->].
    cbv [ret] in Hret. injection Hret as <- <-.
    apply bind_inv in H as (rest & s2 & Hrest & H).
    apply IH in Hrest as [Hnames ->].
    cbv [ret] in H. injection H as <- <-.
    simpl. rewrite Hnames. auto.
Qed.

Lemma filter_all {A} (P : A -> Prop) `{forall x, Decision (P x)} (l : list A) :
  Forall P l -> filter P l = l.
Proof.
  induction 1 as [| x l Hx Hl IH]; [reflexivity |].
  rewrite filter_cons. destruct (decide (P x)); [| contradiction].
  rewrite IH. reflexivity.
Qed.

(** On a table with every numeric feature of the schema,
    [prepare_features] records the schema in full. *)
Lemma prepare_features_inv df self X self' :
  (forall c, c ∈ base_feature_columns -> has_column df c = true) ->
  prepare_features str_number df self = (inr X, self') ->
  same_model self self' /\
  feature_columns self' = base_feature_columns ++ encoded_names df /\
  map fst X = feature_columns self'.
Proof.
  intros Hbase H. unfold prepare_features in H.
  apply bind_inv in H as (enc & s1 & Henc & H).
  apply encode_features_inv in Henc as (Hm & _ & Hfeats & Hkeep & Hin).
  cbv zeta in H.
  apply bind_inv in H as (X0 & s2 & HX & H).
  apply mapM_names in HX as [HX ->].
  apply bind_inv in H as ([] & s3 & Hset & H).
  cbv [set_feature_columns] in Hset. injection Hset as <-.
  cbv [ret] in H. injection H as <- <-.
  assert (filter (fun c => has_column (fst enc) c) (snd enc) = snd enc) as Hall.
  { apply filter_all. rewrite Hfeats. apply Forall_app. split.
    - apply Forall_forall. intros c Hc. apply Is_true_true.
      unfold has_column. apply bool_decide_eq_true. apply Hkeep.
      specialize (Hbase c Hc). unfold has_column in Hbase.
      apply bool_decide_eq_true in Hbase. exact Hbase.
    - apply Forall_forall. intros c Hc. apply Is_true_true.
      unfold has_column. apply bool_decide_eq_true. apply Hin, Hc. }
  simpl feature_columns.
  split; [destruct Hm as (A & B & C & D); repeat split; assumption |].
  rewrite Hall in *. split; [exact Hfeats |].
  rewrite map_map. simpl. exact HX.
Qed.

(** An encoder that is there is used as it is: the codes are positions in
    its table, -1 for a value it has not seen, and the predictor is not
    touched. *)
Lemma encode_feature_reuse df df_encoded feature col known_categories self :
  columns df !! feature = Some col ->
  label_encoders self !! feature = Some known_categories ->
  encode_feature str_number df df_encoded feature self
  = (inr (set_column (feature +:+ "_encoded")
            (NumCol (map (fun x => Int (class_index known_categories x))
                         (astype_str str_number col)))
            df_encoded), self).
Proof.
  intros Hcol Henc. unfold encode_feature.
  rewrite (bind_inr _ _ self col self) by (apply getitem_Some; exact Hcol).
  rewrite (bind_inr _ _ self self self) by reflexivity.
  rewrite Henc. reflexivity.
Qed.

Lemma encode_features_reuse df todo : forall df_encoded feats self enc self',
  (forall feature, feature ∈ todo -> has_column df feature = true ->
     is_Some (label_encoders self !! feature)) ->
  NoDup (map (fun feature => feature +:+ "_encoded") todo) ->
  encode_features str_number df todo df_encoded feats self = (inr enc, self') ->
  self' = self /\
  (forall c, c ∉ map (fun feature => feature +:+ "_encoded") todo ->
     columns (fst enc) !! c = columns df_encoded !! c) /\
  (forall feature col known_categories,
     feature ∈ todo ->
     columns df !! feature = Some col ->
     label_encoders self !! feature = Some known_categories ->
     columns (fst enc) !! (feature +:+ "_encoded")
     = Some (NumCol (map (fun x => Int (class_index known_categories x))
                         (astype_str str_number col)))).
Proof.
  induction todo as [| f todo IH];
    intros df_encoded feats self enc self' Henc Hnd H.
  - simpl in H. cbv [ret] in H. injection H as <- <-.
    split; [reflexivity |]. split; [reflexivity |].
    intros feature col known Hin. inversion Hin.
  - simpl in H. simpl map in Hnd. apply NoDup_cons in Hnd as [Hf Hnd].
    assert (forall feature, feature ∈ todo -> has_column df feature = true ->
              is_Some (label_encoders self !! feature)) as Henc'
      by (intros feature Hin; apply Henc; right; exact Hin).
    destruct (has_column df f) eqn:Hhas.
    + destruct (Henc f) as [known Hknown]; [left | exact Hhas |].
      unfold has_column in Hhas. apply bool_decide_eq_true in Hhas.
      destruct Hhas as [col Hcol].
      rewrite (bind_inr _ _ self _ self
                 (encode_feature_reuse df df_encoded f col known self Hcol Hknown))
        in H.
      apply IH in H as (-> & Hkeep & Hcodes); [| assumption ..].
      split; [reflexivity |]. split.
      * intros c Hc. rewrite Hkeep by (intros Hin; apply Hc; right; exact Hin).
        unfold set_column. simpl columns.
        apply lookup_insert_ne. intros <-. apply Hc. left.
      * intros feature col' known' Hin Hcol' Hknown'.
        apply elem_of_cons in Hin as [-> | Hin].
        -- rewrite Hkeep by exact Hf. unfold set_column. simpl columns.
           rewrite lookup_insert_eq.
           rewrite Hcol in Hcol'. injection Hcol' as <-.
           rewrite Hknown in Hknown'. injection Hknown' as <-. reflexivity.
        -- apply (Hcodes feature col' known' Hin Hcol' Hknown').
    + apply IH in H as (-> & Hkeep & Hcodes); [| assumption ..].
      split; [reflexivity |]. split.
      * intros c Hc. apply Hkeep. intros Hin. apply Hc. right. exact Hin.
      * intros feature col' known' Hin Hcol' Hknown'.
        apply elem_of_cons in Hin as [-> | Hin].
        -- unfold has_column in Hhas. apply bool_decide_eq_false in Hhas.
           exfalso. apply Hhas. rewrite Hcol'. eauto.
        -- apply (Hcodes feature col' known' Hin Hcol' Hknown').
Qed.

Lemma select_columns_lookup df names : forall X self self',
  select_columns df names self = (inr X, self') ->
  forall c, c ∈ names ->
    exists col vs, columns df !! c = Some col /\ numbers_of col = Some vs /\
                   (c, vs) ∈ X.
Proof.
  unfold select_columns.
  induction names as [| c0 names IH]; intros X self self' H c Hc;
    [inversion Hc |].
  simpl in H.
  apply bind_inv in H as (cv & s1 & Hcv & H).
  apply bind_inv in Hcv as (vs & s0 & Hvs & Hret).
  apply numeric_column_inv in Hvs as [(col & Hcol & Nvs) ->].
  cbv [ret] in Hret. injection Hret as <- <-.
  apply bind_inv in H as (rest & s2 & Hrest & H).
  cbv [ret] in H. injection H as <- <-.
  apply elem_of_cons in Hc as [-> | Hc].
  - exists col, vs. split; [exact Hcol |]. split; [exact Nvs | left].
  - destruct (IH rest self s2 Hrest c Hc) as (col' & vs' & H1 & H2 & H3).
    exists col', vs'. split; [exact H1 |]. split; [exact H2 | right; exact H3].
Qed.

Lemma fillna_codes d (f : string -> Z) l :
  map (fillna d) (map (fun x => Int (f x)) l) = map (fun x => Int (f x)) l.
Proof. rewrite map_map. reflexivity. Qed.

(** X14. Reuse: when every categorical feature of the table has an encoder
    already, [prepare_features] fits nothing: it leaves the encoders, the
    model, the scaler, the statistics and the metadata as they were and
    rewrites the schema only, to the names of the features it returns.  The
    encoded column it returns for such a feature holds, for a value of the
    recorded table, its position in the table, and -1 for any other
    value. *)
Theorem existing_encoder_is_reused df self X self' :
  (forall feature, feature ∈ categorical_features ->
     has_column df feature = true ->
     is_Some (label_encoders self !! feature)) ->
  prepare_features str_number df self = (inr X, self') ->
  label_encoders self' = label_encoders self /\
  model self' = model self /\ scaler self' = scaler self /\
  airport_stats self' = airport_stats self /\
  model_metadata self' = model_metadata self /\
  feature_columns self' = map fst X /\
  forall feature col known_categories,
    feature ∈ categorical_features ->
    columns df !! feature = Some col ->
    label_encoders self !! feature = Some known_categories ->
    exists codes,
      (feature +:+ "_encoded", codes) ∈ X /\
      Forall2 (fun x code =>
                 (x ∈ known_categories ->
                  exists i : nat, code = Int (Z.of_nat i) /\
                                  known_categories !! i = Some x) /\
                 (x ∉ known_categories -> code = Int (-1)))
              (astype_str str_number col) codes.
Proof.
  intros Henc H. unfold prepare_features in H.
  apply bind_inv in H as (enc & s1 & Hstep & H).
  pose proof (encode_features_inv _ _ _ _ _ _ _ Hstep)
    as (_ & _ & Hfeats & _ & _).
  apply encode_features_reuse in Hstep as (-> & _ & Hcodes);
    [| exact Henc
     | unfold categorical_features; simpl;
       repeat (constructor; [set_solver |]); constructor].
  cbv zeta in H.
  apply bind_inv in H as (X0 & s2 & HX & H).
  pose proof (mapM_names _ _ _ _ _ HX) as [Hnames ->].
  apply bind_inv in H as ([] & s3 & Hset & H).
  cbv [set_feature_columns] in Hset. injection Hset as <-.
  cbv [ret] in H. injection H as <- <-.
  cbn [label_encoders model scaler airport_stats model_metadata feature_columns].
  do 5 (split; [reflexivity |]).
  split; [rewrite map_map; simpl; symmetry; exact Hnames |].
  intros feature col known Hin Hcol Hknown.
  pose proof (Hcodes feature col known Hin Hcol Hknown) as Hcolumn.
  destruct (select_columns_lookup _ _ _ _ _ HX (feature +:+ "_encoded"))
    as (col' & vs & Hcol' & Nvs & HinX).
  { apply list_elem_of_filter. split.
    - apply Is_true_true. unfold has_column. apply bool_decide_eq_true.
      rewrite Hcolumn. eauto.
    - rewrite Hfeats. apply elem_of_app. right.
      apply list_elem_of_In, in_flat_map. exists feature.
      split; [apply list_elem_of_In; exact Hin |].
      assert (has_column df feature = true) as ->
        by (unfold has_column; apply bool_decide_eq_true; rewrite Hcol; eauto).
      left. reflexivity. }
  rewrite Hcolumn in Hcol'. injection Hcol' as <-.
  simpl in Nvs. injection Nvs as <-.
  exists (map (fun x => Int (class_index known x)) (astype_str str_number col)).
  split.
  - apply list_elem_of_fmap.
    exists (feature +:+ "_encoded",
            map (fun x => Int (class_index known x)) (astype_str str_number col)).
    split; [| exact HinX]. simpl. rewrite fillna_codes. reflexivity.
  - apply Forall2_fmap_r, Forall_Forall2_diag, Forall_forall.
    intros x _. split.
    + intros Hx. destruct (class_index_seen known x Hx) as (i & Hi & Hl).
      exists i. rewrite Hi. auto.
    + intros Hx. rewrite (class_index_unseen known x Hx). reflexivity.
Qed.

End TrainerProperties.

Lemma existing_encoder_is_reused_witness :
  let fitted :=
    snd (prepare_features (fun _ => "0") (engineered one_flight) init) in
  let again := prepare_features (fun _ => "0") (engineered four_flights) fitted in
  let X := match fst again with inr X => X | inl _ => [] end in
  label_encoders (snd again) = label_encoders fitted /\
  model (snd again) = model fitted /\ scaler (snd again) = scaler fitted /\
  airport_stats (snd again) = airport_stats fitted /\
  model_metadata (snd again) = model_metadata fitted /\
  feature_columns (snd again) = map fst X /\
  forall feature col known_categories,
    feature ∈ categorical_features ->
    columns (engineered four_flights) !! feature = Some col ->
    label_encoders fitted !! feature = Some known_categories ->
    exists codes,
      (feature +:+ "_encoded", codes) ∈ X /\
      Forall2 (fun x code =>
                 (x ∈ known_categories ->
                  exists i : nat, code = Int (Z.of_nat i) /\
                                  known_categories !! i = Some x) /\
                 (x ∉ known_categories -> code = Int (-1)))
              (astype_str (fun _ => "0") col) codes.
Proof.
  cbv zeta.
  apply (existing_encoder_is_reused (fun _ => "0") (engineered four_flights)
           (snd (prepare_features (fun _ => "0") (engineered one_flight) init))).
  - intros feature Hin _. apply list_elem_of_In in Hin. simpl in Hin.
    destruct Hin as [<- | [<- | [<- | []]]]; vm_compute; eauto.
  - vm_compute. reflexivity.
Defined.

Lemma reads_only_mapM {A B} (f : A -> M B) l :
  (forall a, reads_only (f a)) -> reads_only (mapM f l).
Proof.
  intros Hf. induction l as [| a l IH]; simpl; reads_only_steps; auto.
Qed.

Lemma reads_only_positive_scores clf X : reads_only (positive_scores clf X).
Proof.
  unfold positive_scores. destruct (predict_proba clf); [| apply reads_only_raise].
  apply reads_only_mapM. intros x. unfold positive_class. reads_only_steps.
Qed.

Lemma length_rows_of n X : length (rows_of n X) = n.
Proof. unfold rows_of. rewrite length_map. apply length_seq. Qed.

Lemma synthesized_some ot dt o d day dep k :
  is_Some (default_encodings !! k) \/
  is_Some (default avg_dest_stats (dt !! d) !! k) \/
  is_Some (default avg_origin_stats (ot !! o) !! k) \/
  is_Some (base_sample day dep !! k) ->
  is_Some (synthesized ot dt o d day dep !! k).
Proof.
  rewrite synthesized_lookup.
  destruct (default_encodings !! k); [eauto |].
  destruct (default avg_dest_stats (dt !! d) !! k); [eauto |].
  destruct (default avg_origin_stats (ot !! o) !! k); [eauto |].
  intros [[? ?] | [[? ?] | [[? ?] | ?]]]; try discriminate. assumption.
Qed.

Lemma contributed_complete prefix table airport avg k :
  complete_records prefix table ->
  k ∈ stat_columns prefix ->
  is_Some (avg !! k) ->
  is_Some (default avg (table !! airport) !! k).
Proof.
  intros Hc Hk Havg. destruct (table !! airport) as [record |] eqn:E; simpl.
  - apply (Hc airport record E k Hk).
  - exact Havg.
Qed.

(** Every name of the full schema has a value in the synthesized data when
    the records of the tables are complete. *)
Lemma schema_name_synthesized ot dt o d day dep col :
  complete_records "origin_" ot ->
  complete_records "dest_" dt ->
  col ∈ sample_schema ->
  is_Some (synthesized ot dt o d day dep !! col).
Proof.
  intros Hco Hcd Hcol. apply synthesized_some.
  apply list_elem_of_In in Hcol. simpl in Hcol.
  do 7 (destruct Hcol as [<- | Hcol];
        [right; right; right; eexists; reflexivity |]).
  do 5 (destruct Hcol as [<- | Hcol];
        [right; right; left;
         apply (contributed_complete "origin_");
         [exact Hco
         | rewrite stat_columns_origin; apply list_elem_of_In; simpl; auto 10
         | eexists; reflexivity] |]).
  do 5 (destruct Hcol as [<- | Hcol];
        [right; left;
         apply (contributed_complete "dest_");
         [exact Hcd
         | rewrite stat_columns_dest; apply list_elem_of_In; simpl; auto 10
         | eexists; reflexivity] |]).
  do 3 (destruct Hcol as [<- | Hcol]; [left; eexists; reflexivity |]).
  contradiction.
Qed.

Lemma group_record_complete prefix keys v1 v2 v3 k name :
  prefix = "origin_" \/ prefix = "dest_" ->
  name ∈ stat_columns prefix ->
  is_Some (group_record prefix keys
             [("ArrDel15", v1); ("DepDelay", v2); ("ArrDelay", v3)] k !! name).
Proof.
  intros Hp Hname. rewrite group_record_spec.
  repeat match goal with
         | |- context [round_result 3 ?x] =>
             generalize (round_result 3 x); intro
         end.
  destruct Hp; subst prefix; apply list_elem_of_In in Hname; simpl in Hname;
    repeat (destruct Hname as [<- | Hname]; [eexists; reflexivity |]);
    contradiction.
Qed.

Lemma create_airport_features_complete
    df origins dests c1 c2 c3 v1 v2 v3 self :
  columns df !! "OriginAirportName" = Some origins ->
  columns df !! "DestAirportName" = Some dests ->
  columns df !! "ArrDel15" = Some c1 -> numbers_of c1 = Some v1 ->
  columns df !! "DepDelay" = Some c2 -> numbers_of c2 = Some v2 ->
  columns df !! "ArrDelay" = Some c3 -> numbers_of c3 = Some v3 ->
  exists os ds,
    airport_stats (snd (create_airport_features df self)) !! "origin" = Some os /\
    airport_stats (snd (create_airport_features df self)) !! "dest" = Some ds /\
    complete_records "origin_" os /\ complete_records "dest_" ds.
Proof.
  intros Ho Hd H1 N1 H2 N2 H3 N3. unfold create_airport_features.
  rewrite (bind_inr _ _ self _ self
             (groupby_agg_numbers df _ "origin_" origins c1 c2 c3 v1 v2 v3 self
                Ho H1 N1 H2 N2 H3 N3)).
  rewrite (bind_inr _ _ self _ self
             (groupby_agg_numbers df _ "dest_" dests c1 c2 c3 v1 v2 v3 self
                Hd H1 N1 H2 N2 H3 N3)).
  do 2 eexists. split; [reflexivity |]. split; [reflexivity |].
  split; apply group_table_Forall; intros k name Hname;
    apply group_record_complete; auto.
Qed.

Section TrainingOutcome.

Variable str_number : value -> string.
Variable now : string.
Variable stratified_split :
  list (list value) -> list value ->
  exn + (list (list value) * list (list value) * list value * list value).
Variable StandardScaler_fit : list (list value) -> list value -> list value.
Variable RandomForestClassifier_fit :
  list (list value) -> list value -> Classifier.
Variable GradientBoostingClassifier_fit :
  list (list value) -> list value -> Classifier.
Variable roc_auc : list value -> list Q -> exn + Q.

Abbreviation train_with :=
  (train_model str_number now stratified_split StandardScaler_fit
     RandomForestClassifier_fit GradientBoostingClassifier_fit roc_auc).

Lemma train_test_split_inv X y self parts self' :
  train_test_split stratified_split X y self = (inr parts, self') ->
  n_train (length X) <> 0%nat /\ stratified_split X y = inr parts /\ self' = self.
Proof.
  unfold train_test_split. intros H.
  destruct (n_train (length X) =? 0)%nat eqn:E; [discriminate |].
  apply Nat.eqb_neq in E.
  destruct (stratified_split X y) as [e | parts']; [discriminate |].
  cbv [ret] in H. injection H as <- <-. auto.
Qed.

Lemma roc_auc_score_of_inv y scores self q self' :
  roc_auc_score_of roc_auc y scores self = (inr q, self') ->
  roc_auc y scores = inr q /\ self' = self.
Proof.
  unfold roc_auc_score_of. intros H.
  destruct (roc_auc y scores) as [e | q']; [discriminate |].
  cbv [ret] in H. injection H as <- <-. auto.
Qed.

Lemma positive_scores_any clf X scores s :
  positive_scores clf X s = (inr scores, s) ->
  forall s', positive_scores clf X s' = (inr scores, s').
Proof.
  unfold positive_scores. destruct (predict_proba clf) as [proba |];
    [| discriminate].
  revert scores s. induction X as [| x X IH]; intros scores s H s'.
  - cbv [mapM ret] in *. injection H as <-. reflexivity.
  - cbn [mapM] in *.
    apply bind_inv in H as (p & s1 & Hp & H).
    unfold positive_class in Hp.
    destruct (proba x !! 1%nat) as [p' |] eqn:E; [| discriminate].
    cbv [ret] in Hp. injection Hp as <- <-.
    apply bind_inv in H as (rest & s2 & Hrest & H).
    cbv [ret] in H. injection H as <- ->.
    rewrite (bind_inr _ _ s' p' s')
      by (unfold positive_class; rewrite E; reflexivity).
    rewrite (bind_inr _ _ s' rest s' (IH rest s Hrest s')).
    reflexivity.
Qed.

(** A training that returns: the steps it went through and the predictor
    it leaves. *)
Lemma train_model_steps df self m self' :
  train_with df self = (inr m, self') ->
  exists df' s_fe s_pf X target y X_train X_test y_train y_test
         scores_rf scores_gb score_rf score_gb,
    feature_engineering df self = (inr df', s_fe) /\
    prepare_features str_number df' s_fe = (inr X, s_pf) /\
    columns df' !! "ArrDel15" = Some target /\ numbers_of target = Some y /\
    (2 <= nrows df)%nat /\
    stratified_split (rows_of (nrows df') X) y
      = inr (X_train, X_test, y_train, y_test) /\
    let transform := StandardScaler_fit X_train in
    let rf := RandomForestClassifier_fit X_train y_train in
    let gb := GradientBoostingClassifier_fit (map transform X_train) y_train in
    let best := selection rf gb score_rf score_gb in
    (forall s, positive_scores rf X_test s = (inr scores_rf, s)) /\
    roc_auc y_test scores_rf = inr score_rf /\
    (forall s, positive_scores gb (map transform X_test) s
               = (inr scores_gb, s)) /\
    roc_auc y_test scores_gb = inr score_gb /\
    m = fst (fst best) /\
    model self' = m /\
    scaler self' = Some transform /\
    airport_stats self' = airport_stats s_fe /\
    feature_columns self' = base_feature_columns ++ encoded_names df' /\
    model_metadata self' = Some {|
      model_type := snd best;
      roc_auc_score := snd (fst best);
      training_samples := length X_train;
      test_samples := length X_test;
      feature_count := length (feature_columns self');
      delay_rate := mean y;
      trained_on := now;
      features := feature_columns self' |}.
Proof.
  intros H. unfold train_model in H.
  apply bind_inv in H as (df' & s_fe & Hfe & H).
  pose proof (feature_engineering_inv df self df' s_fe Hfe)
    as (_ & Hrows & Hcols & _).
  pose proof (feature_engineering_fit df self) as Hfe_fit.
  rewrite Hfe in Hfe_fit. simpl in Hfe_fit.
  apply bind_inv in H as (X & s_pf & Hpf & H).
  pose proof Hpf as Hpf0.
  apply prepare_features_inv in Hpf as ((Pm & Ps & Pmd & Pst) & Pfc & _);
    [| intros c Hc; apply Hcols, elem_of_app; auto].
  apply bind_inv in H as (y & s1 & Hy & H).
  apply numeric_column_inv in Hy as [(target & Htarget & Ny) ->].
  apply bind_inv in H as (parts & s2 & Hsplit & H).
  apply train_test_split_inv in Hsplit as (Hn & Hsplit & ->).
  destruct parts as [[[X_train X_test] y_train] y_test].
  apply bind_inv in H as ([] & s3 & Hset & H).
  cbv [set_scaler] in Hset. injection Hset as <-.
  cbv zeta in H.
  apply bind_inv in H as (scores1 & s4 & Hs1 & H).
  pose proof (reads_only_inv _ _ _ _ (reads_only_positive_scores _ _) Hs1) as ->.
  apply bind_inv in H as (score_rf & s5 & Hr1 & H).
  apply roc_auc_score_of_inv in Hr1 as [Hr1 ->].
  apply bind_inv in H as (scores2 & s6 & Hs2 & H).
  pose proof (reads_only_inv _ _ _ _ (reads_only_positive_scores _ _) Hs2) as ->.
  apply bind_inv in H as (score_gb & s7 & Hr2 & H).
  apply roc_auc_score_of_inv in Hr2 as [Hr2 ->].
  apply bind_inv in H as ([] & s8 & Hsm & H).
  cbv [set_model] in Hsm. injection Hsm as <-.
  apply bind_inv in H as (s9 & s10 & Hget & H).
  cbv [get] in Hget. injection Hget as <- <-.
  apply bind_inv in H as ([] & s11 & Hmd & H).
  cbv [set_model_metadata] in Hmd. injection Hmd as <-.
  cbv [ret] in H. injection H as <- <-.
  rewrite length_rows_of in Hn.
  exists df', s_fe, s_pf, X, target, y, X_train, X_test, y_train, y_test,
    scores1, scores2, score_rf, score_gb.
  split; [exact Hfe |]. split; [exact Hpf0 |].
  split; [exact Htarget |]. split; [exact Ny |].
  split.
  { rewrite <- Hrows. unfold n_train in Hn.
    destruct (nrows df') as [| [| n]]; [contradiction .. | lia]. }
  split; [exact Hsplit |].
  cbv zeta.
  split; [exact (positive_scores_any _ _ _ _ Hs1) |]. split; [exact Hr1 |].
  split; [exact (positive_scores_any _ _ _ _ Hs2) |]. split; [exact Hr2 |].
  simpl. rewrite Pfc.
  destruct Hfe_fit as (Fm & Fs & Fmd & _ & _).
  repeat split; congruence.
Qed.

Lemma train_model_inv df self m self' :
  train_with df self = (inr m, self') ->
  exists df' s_fe X y X_train X_test y_train y_test score_rf score_gb,
    feature_engineering df self = (inr df', s_fe) /\
    (2 <= nrows df)%nat /\
    stratified_split (rows_of (nrows df') X) y
      = inr (X_train, X_test, y_train, y_test) /\
    let transform := StandardScaler_fit X_train in
    let rf := RandomForestClassifier_fit X_train y_train in
    let gb := GradientBoostingClassifier_fit (map transform X_train) y_train in
    let best := selection rf gb score_rf score_gb in
    (exists scores s, positive_scores rf X_test s = (inr scores, s) /\
                      roc_auc y_test scores = inr score_rf) /\
    (exists scores s, positive_scores gb (map transform X_test) s
                        = (inr scores, s) /\
                      roc_auc y_test scores = inr score_gb) /\
    m = fst (fst best) /\
    model self' = m /\
    scaler self' = Some transform /\
    airport_stats self' = airport_stats s_fe /\
    feature_columns self' = base_feature_columns ++ encoded_names df' /\
    model_metadata self' = Some {|
      model_type := snd best;
      roc_auc_score := snd (fst best);
      training_samples := length X_train;
      test_samples := length X_test;
      feature_count := length (feature_columns self');
      delay_rate := mean y;
      trained_on := now;
      features := feature_columns self' |}.
Proof.
  intros H.
  destruct (train_model_steps df self m self' H)
    as (df' & s_fe & s_pf & X & target & y & X_train & X_test & y_train
        & y_test & scores_rf & scores_gb & score_rf & score_gb
        & Hfe & _ & _ & _ & Hn & Hsplit & Hs1 & Hr1 & Hs2 & Hr2 & Hrest).
  exists df', s_fe, X, y, X_train, X_test, y_train, y_test, score_rf, score_gb.
  split; [exact Hfe |]. split; [exact Hn |]. split; [exact Hsplit |].
  cbv zeta in *.
  split; [exists scores_rf, self; split; [apply Hs1 | exact Hr1] |].
  split; [exists scores_gb, self; split; [apply Hs2 | exact Hr2] |].
  exact Hrest.
Qed.

Lemma selection_cases rf gb score_rf score_gb :
  let best := selection rf gb score_rf score_gb in
  ((0 < score_gb)%Q /\ (score_rf < score_gb)%Q ->
     best = (Some gb, score_gb, "GradientBoosting")) /\
  ((0 < score_rf)%Q /\ (score_gb <= score_rf)%Q ->
     best = (Some rf, score_rf, "RandomForest")) /\
  ((score_rf <= 0)%Q /\ (score_gb <= 0)%Q -> best = (None, 0%Q, "")).
Proof.
  unfold selection, keep_best, Qgt_bool. simpl.
  destruct (Qle_bool score_rf 0) eqn:E1; simpl;
    destruct (Qle_bool score_gb _) eqn:E2; simpl;
    try (apply Qle_bool_iff in E1); try (apply Qle_bool_iff in E2);
    (split; [| split]); intros [A B]; try reflexivity; exfalso;
    try (assert (~ (score_rf <= 0)%Q) as N1
           by (rewrite <- Qle_bool_iff; congruence));
    try (assert (~ (score_gb <= 0)%Q) as N2
           by (rewrite <- Qle_bool_iff; congruence));
    try (assert (~ (score_gb <= score_rf)%Q) as N3
           by (rewrite <- Qle_bool_iff; congruence));
    lra.
Qed.


(** X16. A training that returns has split the prepared features of the
    engineered table and its [ArrDel15] column, fitted the random forest on
    the unscaled training part and the gradient boosting on the part scaled
    by the scaler it records, and scored each by [roc_auc] of its
    positive-class scores on the test part (scaled for the gradient
    boosting).  It deploys by these two scores: the gradient boosting when
    its score is positive and above the other, the random forest when its
    score is positive and not below, and no model at all, with an empty
    model type, when neither score is positive. *)
Theorem deployed_model_has_the_best_score df self m self' :
  train_model str_number now stratified_split StandardScaler_fit
    RandomForestClassifier_fit GradientBoostingClassifier_fit roc_auc
    df self = (inr m, self') ->
  exists df' s_fe s_pf X target y X_train X_test y_train y_test
         scores_rf scores_gb score_rf score_gb md,
    feature_engineering df self = (inr df', s_fe) /\
    prepare_features str_number df' s_fe = (inr X, s_pf) /\
    columns df' !! "ArrDel15" = Some target /\ numbers_of target = Some y /\
    stratified_split (rows_of (nrows df') X) y
      = inr (X_train, X_test, y_train, y_test) /\
    let transform := StandardScaler_fit X_train in
    let rf := RandomForestClassifier_fit X_train y_train in
    let gb := GradientBoostingClassifier_fit (map transform X_train) y_train in
    (forall s, positive_scores rf X_test s = (inr scores_rf, s)) /\
    roc_auc y_test scores_rf = inr score_rf /\
    (forall s, positive_scores gb (map transform X_test) s
               = (inr scores_gb, s)) /\
    roc_auc y_test scores_gb = inr score_gb /\
    scaler self' = Some transform /\
    model self' = m /\
    model_metadata self' = Some md /\
    ((0 < score_gb)%Q /\ (score_rf < score_gb)%Q ->
       m = Some gb /\ model_type md = "GradientBoosting" /\
       roc_auc_score md = score_gb) /\
    ((0 < score_rf)%Q /\ (score_gb <= score_rf)%Q ->
       m = Some rf /\ model_type md = "RandomForest" /\
       roc_auc_score md = score_rf) /\
    ((score_rf <= 0)%Q /\ (score_gb <= 0)%Q ->
       m = None /\ model_type md = "" /\ roc_auc_score md = 0%Q).
Proof.
  intros H.
  destruct (train_model_steps df self m self' H)
    as (df' & s_fe & s_pf & X & target & y & X_train & X_test & y_train
        & y_test & scores_rf & scores_gb & score_rf & score_gb
        & Hfe & Hpf & Htarget & Ny & _ & Hsplit & Hs1 & Hr1 & Hs2 & Hr2
        & Hm & Hmodel & Hsc & _ & _ & Hmd).
  exists df', s_fe, s_pf, X, target, y, X_train, X_test, y_train, y_test,
    scores_rf, scores_gb, score_rf, score_gb.
  eexists.
  split; [exact Hfe |]. split; [exact Hpf |].
  split; [exact Htarget |]. split; [exact Ny |]. split; [exact Hsplit |].
  cbv zeta in *.
  split; [exact Hs1 |]. split; [exact Hr1 |].
  split; [exact Hs2 |]. split; [exact Hr2 |].
  split; [exact Hsc |]. split; [exact Hmodel |]. split; [exact Hmd |].
  simpl.
  destruct (selection_cases
              (RandomForestClassifier_fit X_train y_train)
              (GradientBoostingClassifier_fit
                 (map (StandardScaler_fit X_train) X_train) y_train)
              score_rf score_gb) as (Cgb & Crf & Cnone).
  split; [| split]; intros Hc;
    [rewrite (Cgb Hc) in * | rewrite (Crf Hc) in * | rewrite (Cnone Hc) in *];
    simpl in Hm; auto.
Qed.

(** X17. After a training that returns, every query is synthesized without
    the zero default of line 335: each name of the recorded schema has a
    value in [sample_data], from the query, from the record or the average
    profile of its airport, or from the default encodings, and the feature
    vector carries that value (0.0 if it is a missing statistic). *)
Theorem trained_schema_is_synthesized df self m self' o d day dep :
  train_model str_number now stratified_split StandardScaler_fit
    RandomForestClassifier_fit GradientBoostingClassifier_fit roc_auc
    df self = (inr m, self') ->
  exists data X,
    sample_data o d day dep self' = (inr data, self') /\
    X_sample o d day dep self' = (inr X, self') /\
    forall (i : nat) col,
      feature_columns self' !! i = Some col ->
      exists v, data !! col = Some v /\ X !! i = Some (col, fillna (Flt 0) v).
Proof.
  intros H.
  destruct (train_model_inv df self m self' H)
    as (df' & s_fe & X & y & X_train & X_test & y_train & y_test & score_rf
        & score_gb & Hfe & _ & _ & _ & _ & _ & _ & _ & Hst & Hfc & _).
  destruct (feature_engineering_inv df self df' s_fe Hfe)
    as ((stats & Hcaf) & _ & _ & _).
  destruct (create_airport_features_inv df self stats s_fe Hcaf)
    as (origins & dests & c1 & c2 & c3 & v1 & v2 & v3
        & Ho & Hd & H1 & N1 & H2 & N2 & H3 & N3).
  destruct (create_airport_features_complete df origins dests c1 c2 c3
              v1 v2 v3 self Ho Hd H1 N1 H2 N2 H3 N3)
    as (os & ds & Hos & Hds & Hco & Hcd).
  rewrite Hcaf in Hos, Hds. simpl in Hos, Hds.
  rewrite <- Hst in Hos, Hds.
  exists (synthesized os ds o d day dep),
    (select_features (feature_columns self') (synthesized os ds o d day dep)).
  split; [apply sample_data_spec; assumption |].
  split; [apply X_sample_spec; assumption |].
  intros i col Hi.
  destruct (schema_name_synthesized os ds o d day dep col Hco Hcd) as [v Hv].
  { apply list_elem_of_lookup_2 in Hi. rewrite Hfc in Hi.
    apply elem_of_app in Hi as [Hi | Hi]; [apply elem_of_app; auto |].
    apply elem_of_app. right.
    unfold encoded_names, categorical_features in Hi. simpl in Hi.
    destruct (has_column df' "Carrier"), (has_column df' "departure_period"),
      (has_column df' "season"); simpl in Hi; set_solver. }
  exists v. split; [exact Hv |].
  rewrite (select_features_lookup _ _ _ _ Hi), Hv. reflexivity.
Qed.

Lemma same_model_bind {A B} (m : M A) (k : A -> M B) :
  (forall s, same_model s (snd (m s))) ->
  (forall a s, same_model s (snd (k a s))) ->
  forall s, same_model s (snd (bind m k s)).
Proof.
  intros Hm Hk s. unfold bind. specialize (Hm s).
  destruct (m s) as [[e | a] s1]; simpl in Hm; [exact Hm |].
  eapply same_model_trans; [exact Hm | apply Hk].
Qed.

Lemma reads_only_same_model {A} (m : M A) :
  reads_only m -> forall s, same_model s (snd (m s)).
Proof. intros Hm s. rewrite Hm. apply same_model_refl. Qed.

Lemma encode_feature_frame df df_encoded feature s :
  same_model s (snd (encode_feature str_number df df_encoded feature s)).
Proof.
  unfold encode_feature.
  apply same_model_bind; [apply reads_only_same_model, reads_only_getitem |].
  intros col s1.
  apply same_model_bind; [apply reads_only_same_model, reads_only_get |].
  intros s2 s3.
  destruct (label_encoders s2 !! feature).
  - apply reads_only_same_model, reads_only_ret.
  - apply same_model_bind; [intros s4; repeat split |].
    intros [] s4. apply reads_only_same_model, reads_only_ret.
Qed.

Lemma encode_features_frame df todo : forall df_encoded feats s,
  same_model s (snd (encode_features str_number df todo df_encoded feats s)).
Proof.
  induction todo as [| feature todo IH]; intros df_encoded feats s; simpl.
  - apply same_model_refl.
  - destruct (has_column df feature); [| apply IH].
    apply same_model_bind; [apply encode_feature_frame |].
    intros df1 s1. apply IH.
Qed.

Lemma prepare_features_frame df s :
  same_model s (snd (prepare_features str_number df s)).
Proof.
  unfold prepare_features.
  apply same_model_bind; [apply encode_features_frame |].
  intros enc s1. cbv zeta.
  apply same_model_bind.
  { apply reads_only_same_model. unfold select_columns.
    apply reads_only_mapM. intros c.
    reads_only_steps; apply reads_only_numeric_column. }
  intros X s2.
  apply same_model_bind; [intros s3; repeat split |].
  intros [] s3. apply reads_only_same_model, reads_only_ret.
Qed.

(** X18. A corpus of fewer than two records cannot be trained on:
    [train_model] raises, at the split of the data at the latest, and
    leaves the model, the scaler and the metadata of the predictor as they
    were. *)
Theorem training_needs_two_records df self :
  (nrows df <= 1)%nat ->
  exists e self',
    train_model str_number now stratified_split StandardScaler_fit
      RandomForestClassifier_fit GradientBoostingClassifier_fit roc_auc
      df self = (inl e, self') /\
    model self' = model self /\
    scaler self' = scaler self /\
    model_metadata self' = model_metadata self.
Proof.
  intros Hn. unfold train_model.
  pose proof (feature_engineering_fit df self) as (Fm & Fs & Fmd & _ & _).
  destruct (feature_engineering df self) as [[e | df'] s_fe] eqn:Hfe;
    simpl in Fm, Fs, Fmd.
  { exists e, s_fe. split; [apply bind_inl; exact Hfe | auto]. }
  rewrite (bind_inr _ _ self df' s_fe Hfe).
  pose proof (prepare_features_frame df' s_fe) as (Pm & Ps & Pmd & _).
  destruct (prepare_features str_number df' s_fe) as [[e | X] s_pf] eqn:Hpf;
    simpl in Pm, Ps, Pmd.
  { exists e, s_pf. split; [apply bind_inl; exact Hpf |].
    repeat split; congruence. }
  rewrite (bind_inr _ _ s_fe X s_pf Hpf).
  pose proof (reads_only_numeric_column df' "ArrDel15" s_pf) as Hy.
  destruct (numeric_column df' "ArrDel15" s_pf) as [[e | y] s1] eqn:Hnum;
    simpl in Hy; subst s1.
  { exists e, s_pf. split; [apply bind_inl; exact Hnum |].
    repeat split; congruence. }
  rewrite (bind_inr _ _ s_pf y s_pf Hnum).
  destruct (feature_engineering_inv df self df' s_fe Hfe) as (_ & Hrows & _).
  assert (n_train (length (rows_of (nrows df') X)) = 0%nat) as Hzero.
  { rewrite length_rows_of, Hrows. unfold n_train.
    destruct (nrows df) as [| [| n]]; [reflexivity | reflexivity | lia]. }
  do 2 eexists. split.
  { apply bind_inl. unfold train_test_split. rewrite Hzero. reflexivity. }
  repeat split; congruence.
Qed.

End TrainingOutcome.


Lemma deployed_model_has_the_best_score_witness :
  exists df' s_fe s_pf X target y X_train X_test y_train y_test
         scores_rf scores_gb score_rf score_gb md,
    feature_engineering four_flights init = (inr df', s_fe) /\
    prepare_features (fun _ => "0") df' s_fe = (inr X, s_pf) /\
    columns df' !! "ArrDel15" = Some target /\ numbers_of target = Some y /\
    (fun (X : list (list value)) (y : list value) =>
       @inr exn _ (X, X, y, y)) (rows_of (nrows df') X) y
      = inr (X_train, X_test, y_train, y_test) /\
    let transform := sample_transform in
    let rf := sample_classifier in
    let gb := sample_classifier in
    (forall s, positive_scores rf X_test s = (inr scores_rf, s)) /\
    @inr exn Q 0.5%Q = inr score_rf /\
    (forall s, positive_scores gb (map transform X_test) s
               = (inr scores_gb, s)) /\
    @inr exn Q 0.5%Q = inr score_gb /\
    scaler (snd (sample_train_model four_flights init)) = Some transform /\
    model (snd (sample_train_model four_flights init))
      = Some sample_classifier /\
    model_metadata (snd (sample_train_model four_flights init)) = Some md /\
    ((0 < score_gb)%Q /\ (score_rf < score_gb)%Q ->
       Some sample_classifier = Some gb /\ model_type md = "GradientBoosting" /\
       roc_auc_score md = score_gb) /\
    ((0 < score_rf)%Q /\ (score_gb <= score_rf)%Q ->
       Some sample_classifier = Some rf /\ model_type md = "RandomForest" /\
       roc_auc_score md = score_rf) /\
    ((score_rf <= 0)%Q /\ (score_gb <= 0)%Q ->
       Some sample_classifier = None /\ model_type md = "" /\
       roc_auc_score md = 0%Q).
Proof.
  apply (deployed_model_has_the_best_score (fun _ => "0") "2025-01-01T00:00:00"
           (fun X y => inr (X, X, y, y)) (fun _ => sample_transform)
           (fun _ _ => sample_classifier) (fun _ _ => sample_classifier)
           (fun _ _ => inr 0.5%Q) four_flights init (Some sample_classifier)).
  vm_compute. reflexivity.
Defined.

Lemma trained_schema_is_synthesized_witness :
  exists data X,
    sample_data "JFK" "Nowhere" 6 (Some 2215)
      (snd (sample_train_model four_flights init))
      = (inr data, snd (sample_train_model four_flights init)) /\
    X_sample "JFK" "Nowhere" 6 (Some 2215)
      (snd (sample_train_model four_flights init))
      = (inr X, snd (sample_train_model four_flights init)) /\
    forall (i : nat) col,
      feature_columns (snd (sample_train_model four_flights init)) !! i
        = Some col ->
      exists v, data !! col = Some v /\ X !! i = Some (col, fillna (Flt 0) v).
Proof.
  apply (trained_schema_is_synthesized (fun _ => "0") "2025-01-01T00:00:00"
           (fun X y => inr (X, X, y, y)) (fun _ => sample_transform)
           (fun _ _ => sample_classifier) (fun _ _ => sample_classifier)
           (fun _ _ => inr 0.5%Q) four_flights init (Some sample_classifier)).
  vm_compute. reflexivity.
Defined.

Lemma training_needs_two_records_witness :
  exists e self',
    sample_train_model one_flight init = (inl e, self') /\
    model self' = model init /\
    scaler self' = scaler init /\
    model_metadata self' = model_metadata init.
Proof.
  apply (training_needs_two_records (fun _ => "0") "2025-01-01T00:00:00"
           (fun X y => inr (X, X, y, y)) (fun _ => sample_transform)
           (fun _ _ => sample_classifier) (fun _ _ => sample_classifier)
           (fun _ _ => inr 0.5%Q) one_flight init).
  simpl. lia.
Defined.

(** ** Engineered features *)

(** X19. In clock terms the buckets of a scheduled departure [t] (HHMM) are
    01:00-06:59 night, 07:00-12:59 morning, 13:00-18:59 afternoon and
    19:00-24:59 evening; a departure before 01:00 (or from 25:00 on) has
    none. *)
Theorem departure_period_by_clock_time t :
  departure_period (Int t) =
    if t <? 100 then None
    else if t <? 700 then Some "night"
    else if t <? 1300 then Some "morning"
    else if t <? 1900 then Some "afternoon"
    else if t <? 2500 then Some "evening"
    else None.
Proof.
  unfold departure_period, floordiv. rewrite cut_integer_hour.
  pose proof (Z.div_mod t 100 ltac:(lia)) as Hdm.
  pose proof (Z.mod_pos_bound t 100 ltac:(lia)) as Hmod.
  destruct (t / 100 <=? 0) eqn:E0, (t / 100 <=? 6) eqn:E6,
    (t / 100 <=? 12) eqn:E12, (t / 100 <=? 18) eqn:E18,
    (t / 100 <=? 24) eqn:E24;
    destruct (t <? 100) eqn:F0, (t <? 700) eqn:F6, (t <? 1300) eqn:F12,
      (t <? 1900) eqn:F18, (t <? 2500) eqn:F24;
    try reflexivity; lia.
Qed.

(** X20. A query is synthesized as feature engineering would derive it:
    with or without a departure time, the synthesized [departure_hour] and
    [arrival_hour] are the hours ([// 100]) of the synthesized [CRSDepTime]
    and [CRSArrTime], and [is_weekend] is the flag that feature engineering
    gives a record of that day, 1 exactly on days 6 and 7. *)
Theorem query_features_agree_with_training d departure_time :
  let q := base_sample d departure_time in
  exists dep arr,
    q !! "CRSDepTime" = Some (Int dep) /\
    q !! "CRSArrTime" = Some (Int arr) /\
    q !! "departure_hour" = Some (floordiv 100 (Int dep)) /\
    q !! "arrival_hour" = Some (floordiv 100 (Int arr)) /\
    map Some (is_weekend_column (NumCol [Int d])) = [q !! "is_weekend"] /\
    (q !! "is_weekend" = Some (Int 1) <-> d = 6 \/ d = 7).
Proof.
  intros q.
  assert (q !! "is_weekend"
          = Some (Int (if bool_decide (d ∈ [6; 7]) then 1 else 0))) as ->
    by reflexivity.
  assert (bool_decide (as_Z (Int d) ∈ [Some 6; Some 7])
          = bool_decide (d ∈ [6; 7])) as E.
  { apply bool_decide_ext. cbn [as_Z]. rewrite !elem_of_cons, !elem_of_nil.
    split; intros [H | [H | []]]; [left | right; left | left | right; left];
      congruence. }
  assert (d ∈ [6; 7] <-> d = 6 \/ d = 7) as Hd.
  { rewrite !elem_of_cons, elem_of_nil. tauto. }
  destruct departure_time as [t |].
  - exists t, (t + 300). repeat (split; [reflexivity |]).
    split.
    { change (q !! "arrival_hour") with (Some (Int (t / 100 + 3))).
      cbn [floordiv]. do 2 f_equal.
      replace (t + 300) with (t + 3 * 100) by lia.
      rewrite Z.div_add by lia. reflexivity. }
    split.
    { cbn [is_weekend_column map]. rewrite E. reflexivity. }
    rewrite <- Hd. destruct (bool_decide (d ∈ [6; 7])) eqn:B.
    + apply bool_decide_eq_true in B. tauto.
    + apply bool_decide_eq_false in B. split; [discriminate | tauto].
  - exists 1200, 1500. repeat (split; [reflexivity |]).
    split.
    { cbn [is_weekend_column map]. rewrite E. reflexivity. }
    rewrite <- Hd. destruct (bool_decide (d ∈ [6; 7])) eqn:B.
    + apply bool_decide_eq_true in B. tauto.
    + apply bool_decide_eq_false in B. split; [discriminate | tauto].
Qed.










(** ** Filling of missing values *)

Lemma length_insert_Q x l : length (insert_Q x l) = S (length l).
Proof.
  induction l as [| y l IH]; simpl; [reflexivity |].
  destruct (Qle_bool x y); simpl; [reflexivity | rewrite IH; reflexivity].
Qed.

Lemma length_sort_Q l : length (sort_Q l) = length l.
Proof.
  unfold sort_Q. induction l as [| x l IH]; simpl; [reflexivity |].
  rewrite length_insert_Q, IH. reflexivity.
Qed.

Lemma non_na_nil vs : non_na vs = [] -> Forall (fun v => v = NaN) vs.
Proof.
  unfold non_na. induction vs as [| v vs IH]; intros H; [constructor |].
  destruct v; try discriminate. constructor; [reflexivity | apply IH, H].
Qed.

(** There is no median only when there is no value. *)
Lemma median_missing vs : median vs = NaN -> Forall (fun v => v = NaN) vs.
Proof.
  intros H. apply non_na_nil. unfold median in H.
  pose proof (length_sort_Q (non_na vs)) as Hl.
  destruct (length (sort_Q (non_na vs))) as [| n] eqn:E.
  - destruct (non_na vs); [reflexivity | discriminate].
  - destruct (Nat.odd (S n)); discriminate.
Qed.

Lemma fill_column_filled col :
  match fill_column col with
  | NumCol vs =>
      Forall (fun v => isna v = false) vs \/ Forall (fun v => v = NaN) vs
  | ObjCol ss | CatCol _ ss => Forall is_Some ss
  end.
Proof.
  destruct col as [vs | ss | cats ss]; simpl.
  - destruct (median vs) as [z | q |] eqn:E.
    + left. apply Forall_fmap, Forall_forall. intros [] _; reflexivity.
    + left. apply Forall_fmap, Forall_forall. intros [] _; reflexivity.
    + right. apply Forall_fmap. apply median_missing in E.
      eapply Forall_impl; [exact E |]. intros v ->. reflexivity.
  - apply Forall_fmap, Forall_forall. intros o _. simpl. eauto.
  - apply Forall_fmap, Forall_forall. intros o _. simpl. eauto.
Qed.

(** X22. The table that feature engineering returns has no missing entry
    in a column of strings or categories, and in a numeric column only when
    the column has no value at all (it then has no median to fill with). *)
Theorem engineered_table_is_filled df self df' self' c col :
  feature_engineering df self = (inr df', self') ->
  columns df' !! c = Some col ->
  match col with
  | NumCol vs =>
      Forall (fun v => isna v = false) vs \/ Forall (fun v => v = NaN) vs
  | ObjCol ss | CatCol _ ss => Forall is_Some ss
  end.
Proof.
  unfold feature_engineering. intros H Hc.
  do 10 (apply bind_inv in H as (? & ? & _ & H); cbv zeta in H).
  apply fill_missing_columns in H. subst df'. simpl in Hc.
  rewrite lookup_fmap in Hc.
  match type of Hc with
  | fill_column <$> ?o = _ => destruct o as [col0 |]; [| discriminate]
  end.
  injection Hc as <-. apply fill_column_filled.
Qed.

Lemma engineered_table_is_filled_witness :
  Forall is_Some [Some "morning"; Some "night"; Some "morning"; Some "morning"].
Proof.
  apply (engineered_table_is_filled four_flights init
           (match fst (feature_engineering four_flights init) with
            | inr df' => df'
            | inl _ => four_flights
            end)
           (snd (feature_engineering four_flights init))
           "departure_period"
           (CatCol period_labels
              [Some "morning"; Some "night"; Some "morning"; Some "morning"]));
    vm_compute; reflexivity.
Defined.

(** ** Recorded delay rates *)

Lemma group_values_Forall (P : value -> Prop) keys vs k :
  Forall P vs -> Forall P (group_values keys vs k).
Proof.
  intros H. unfold group_values. apply Forall_forall. intros v Hv.
  apply list_elem_of_fmap in Hv as ([o v'] & -> & Hin).
  apply list_elem_of_filter in Hin as [_ Hin].
  apply elem_of_zip_r in Hin. rewrite Forall_forall in H. apply H, Hin.
Qed.

Lemma group_values_occurrences keys vs k :
  length vs = length keys ->
  length (group_values keys vs k) = occurrences k keys.
Proof.
  unfold group_values, occurrences. rewrite length_map.
  revert vs. induction keys as [| o keys IH]; intros [| v vs] Hl;
    try discriminate; [reflexivity |].
  injection Hl as Hl. simpl zip. rewrite !filter_cons. simpl fst.
  destruct (decide (o = Some k)); simpl; rewrite (IH vs Hl); reflexivity.
Qed.

Lemma flags_non_na vs :
  Forall (fun v => v = Int 0 \/ v = Int 1) vs ->
  length (non_na vs) = length vs /\
  (0 <= Qsum (non_na vs))%Q /\
  (Qsum (non_na vs) <= inject_Z (Z.of_nat (length vs)))%Q.
Proof.
  unfold non_na. induction 1 as [| v vs Hv _ IH].
  - split; [reflexivity |]. split; apply Qle_refl.
  - destruct IH as (Hl & H0 & H1).
    assert (inject_Z (Z.of_nat (length (v :: vs)))
            == 1 + inject_Z (Z.of_nat (length vs)))%Q as E.
    { cbn [length]. rewrite Nat2Z.inj_succ, <- Z.add_1_l, inject_Z_plus.
      reflexivity. }
    destruct Hv as [-> | ->]; cbn [omap list_omap to_Q Qsum foldr length];
      rewrite ?Hl; (split; [reflexivity |]); rewrite E;
      change (inject_Z 0) with 0%Q; change (inject_Z 1) with 1%Q;
      fold (Qsum (omap to_Q vs)); split; lra.
Qed.

(** The mean of a non-empty list of 0/1 flags is a rate. *)
Lemma mean_of_flags vs :
  Forall (fun v => v = Int 0 \/ v = Int 1) vs ->
  vs <> [] ->
  exists m, mean vs = Flt m /\ (0 <= m)%Q /\ (m <= 1)%Q.
Proof.
  intros Hvs Hne. destruct (flags_non_na vs Hvs) as (Hl & H0 & H1).
  unfold mean. destruct (non_na vs) as [| q qs] eqn:E.
  - destruct vs; [congruence | discriminate].
  - exists (Qmean (q :: qs)). split; [reflexivity |].
    unfold Qmean. rewrite Qred_correct, Hl.
    assert (0 < inject_Z (Z.of_nat (length vs)))%Q as Hpos.
    { rewrite <- Hl. change 0%Q with (inject_Z 0). rewrite <- Zlt_Qlt.
      simpl length. lia. }
    split.
    + apply Qle_shift_div_l; [exact Hpos | lra].
    + apply Qle_shift_div_r; [exact Hpos | lra].
Qed.

Lemma group_record_rate prefix keys v1 v2 v3 k :
  prefix = "origin_" \/ prefix = "dest_" ->
  length v1 = length keys ->
  Forall (fun v => v = Int 0 \/ v = Int 1) v1 ->
  Some k ∈ keys ->
  let record := group_record prefix keys
                  [("ArrDel15", v1); ("DepDelay", v2); ("ArrDelay", v3)] k in
  record !! stat_name prefix "ArrDel15" "count"
    = Some (Int (Z.of_nat (occurrences k keys))) /\
  (0 < occurrences k keys)%nat /\
  exists m, record !! stat_name prefix "ArrDel15" "mean" = Some (Flt m) /\
            (0 <= m)%Q /\ (m <= 1)%Q.
Proof.
  intros Hp Hl Hv Hk record.
  assert (0 < occurrences k keys)%nat as Hocc.
  { unfold occurrences.
    destruct (filter (fun o => o = Some k) keys) as [| o l] eqn:E;
      [| simpl; lia].
    assert (Some k ∈ filter (fun o => o = Some k) keys) as Hin
      by (apply list_elem_of_filter; auto).
    rewrite E in Hin. inversion Hin. }
  pose proof (group_values_occurrences keys v1 k Hl) as Hlen.
  pose proof (group_values_Forall _ keys v1 k Hv) as Hflags.
  destruct (mean_of_flags _ Hflags) as (m & Hm & Hm0 & Hm1).
  { intros E. rewrite E in Hlen. simpl in Hlen. lia. }
  destruct (round_dec_bounds 3 m 0 1) as [Hr0 Hr1]; [exact Hm0 | exact Hm1 |].
  destruct (flags_non_na _ Hflags) as (Hnl & _ & _).
  assert (round_result 3 (agg_func "count" (group_values keys v1 k))
          = Int (Z.of_nat (occurrences k keys))) as Hcount.
  { cbn. rewrite Hnl, Hlen. reflexivity. }
  assert (round_result 3 (agg_func "mean" (group_values keys v1 k))
          = Flt (round_dec 3 m)) as Hmean.
  { change (agg_func "mean" (group_values keys v1 k))
      with (Exact (mean (group_values keys v1 k))).
    rewrite Hm. reflexivity. }
  subst record. rewrite group_record_spec, Hcount, Hmean.
  repeat match goal with
         | |- context [round_result 3 ?x] =>
             generalize (round_result 3 x); intro
         end.
  split; [destruct Hp; subst prefix; reflexivity |].
  split; [exact Hocc |].
  exists (round_dec 3 m).
  split; [destruct Hp; subst prefix; reflexivity |].
  split; assumption.
Qed.

(** X23. On a corpus whose delay flags are all 0 or 1, the record of every
    airport known in a role holds as count the number of the corpus records
    with that airport in the role, at least one, and as mean delay a rate
    between 0 and 1, also after rounding. *)
Theorem recorded_delay_rate_is_a_rate df origins dests v1 v2 v3 self a :
  columns df !! "OriginAirportName" = Some origins ->
  columns df !! "DestAirportName" = Some dests ->
  columns df !! "ArrDel15" = Some (NumCol v1) ->
  columns df !! "DepDelay" = Some (NumCol v2) ->
  columns df !! "ArrDelay" = Some (NumCol v3) ->
  length v1 = length (strings_of origins) ->
  length v1 = length (strings_of dests) ->
  Forall (fun v => v = Int 0 \/ v = Int 1) v1 ->
  let self' := snd (create_airport_features df self) in
  (known self' "origin" a = true ->
   exists m,
     stat (default ∅ (airport_stats self' !! "origin")) a "origin_ArrDel15_count"
       = Some (Int (Z.of_nat (occurrences a (strings_of origins)))) /\
     (0 < occurrences a (strings_of origins))%nat /\
     stat (default ∅ (airport_stats self' !! "origin")) a "origin_ArrDel15_mean"
       = Some (Flt m) /\
     (0 <= m)%Q /\ (m <= 1)%Q) /\
  (known self' "dest" a = true ->
   exists m,
     stat (default ∅ (airport_stats self' !! "dest")) a "dest_ArrDel15_count"
       = Some (Int (Z.of_nat (occurrences a (strings_of dests)))) /\
     (0 < occurrences a (strings_of dests))%nat /\
     stat (default ∅ (airport_stats self' !! "dest")) a "dest_ArrDel15_mean"
       = Some (Flt m) /\
     (0 <= m)%Q /\ (m <= 1)%Q).
Proof.
  intros Ho Hd H1 H2 H3 Hlo Hld Hflags. unfold create_airport_features.
  rewrite (bind_inr _ _ self _ self
             (groupby_agg_spec df _ "origin_" origins v1 v2 v3 self Ho H1 H2 H3)).
  rewrite (bind_inr _ _ self _ self
             (groupby_agg_spec df _ "dest_" dests v1 v2 v3 self Hd H1 H2 H3)).
  cbv zeta. unfold known, stat. simpl airport_stats.
  rewrite lookup_insert_eq.
  rewrite lookup_insert_ne by discriminate. rewrite lookup_insert_eq.
  simpl default. rewrite !bool_decide_eq_true, !group_table_known.
  split; intros Hk.
  - destruct (group_record_rate "origin_" (strings_of origins) v1 v2 v3 a)
      as (Hc & Hn & m & Hm & Hm0 & Hm1); auto.
    exists m. rewrite group_table_lookup.
    + auto.
    + apply list_elem_of_omap. exists (Some a). auto.
  - destruct (group_record_rate "dest_" (strings_of dests) v1 v2 v3 a)
      as (Hc & Hn & m & Hm & Hm0 & Hm1); auto.
    exists m. rewrite group_table_lookup.
    + auto.
    + apply list_elem_of_omap. exists (Some a). auto.
Qed.

Lemma recorded_delay_rate_is_a_rate_witness :
  let self' := snd (create_airport_features four_flights init) in
  (known self' "origin" "LAX" = true ->
   exists m,
     stat (default ∅ (airport_stats self' !! "origin")) "LAX"
       "origin_ArrDel15_count"
       = Some (Int (Z.of_nat (occurrences "LAX"
            (strings_of
               (ObjCol [Some "JFK"; Some "LAX"; Some "LAX"; Some "LAX"]))))) /\
     (0 < occurrences "LAX"
            (strings_of
               (ObjCol [Some "JFK"; Some "LAX"; Some "LAX"; Some "LAX"])))%nat /\
     stat (default ∅ (airport_stats self' !! "origin")) "LAX"
       "origin_ArrDel15_mean" = Some (Flt m) /\
     (0 <= m)%Q /\ (m <= 1)%Q) /\
  (known self' "dest" "LAX" = true ->
   exists m,
     stat (default ∅ (airport_stats self' !! "dest")) "LAX"
       "dest_ArrDel15_count"
       = Some (Int (Z.of_nat (occurrences "LAX"
            (strings_of
               (ObjCol [Some "LAX"; Some "JFK"; Some "JFK"; Some "JFK"]))))) /\
     (0 < occurrences "LAX"
            (strings_of
               (ObjCol [Some "LAX"; Some "JFK"; Some "JFK"; Some "JFK"])))%nat /\
     stat (default ∅ (airport_stats self' !! "dest")) "LAX"
       "dest_ArrDel15_mean" = Some (Flt m) /\
     (0 <= m)%Q /\ (m <= 1)%Q).
Proof.
  apply (recorded_delay_rate_is_a_rate four_flights
           (ObjCol [Some "JFK"; Some "LAX"; Some "LAX"; Some "LAX"])
           (ObjCol [Some "LAX"; Some "JFK"; Some "JFK"; Some "JFK"])
           [Int 0; Int 0; Int 1; Int 0] [Int 0; Int 5; Int 30; Int (-2)]
           [Int (-4); Int 3; Int 41; Int 0] init "LAX");
    try reflexivity.
  repeat (apply Forall_cons_2; [auto |]). apply Forall_nil_2.
Defined.

(** ** The airport listing *)

Lemma keys_elem d a : a ∈ keys d <-> is_Some (d !! a).
Proof.
  unfold keys. rewrite list_elem_of_fmap. split.
  - intros ([k v] & -> & Hin). apply elem_of_map_to_list in Hin. eauto.
  - intros [v Hv]. exists (a, v). split; [reflexivity |].
    apply elem_of_map_to_list, Hv.
Qed.

Lemma keys_NoDup d : NoDup (keys d).
Proof. apply NoDup_fst_map_to_list. Qed.

Lemma sorted_NoDup l : StronglySorted string_lt l -> NoDup l.
Proof.
  induction 1 as [| x l _ IH Hx]; constructor; [| exact IH].
  intros Hin. rewrite Forall_forall in Hx.
  apply (string_lt_irrefl x), Hx, Hin.
Qed.

Lemma keys_known self role a :
  a ∈ keys (default ∅ (airport_stats self !! role)) <-> known self role a = true.
Proof. unfold known. rewrite bool_decide_eq_true. apply keys_elem. Qed.

Lemma known_false self role a :
  a ∉ keys (default ∅ (airport_stats self !! role)) <-> known self role a = false.
Proof. rewrite keys_known. destruct (known self role a); split; congruence. Qed.

(** X24. The airport listing is a partition: [all] is strictly increasing
    and holds exactly the airports known in some role; [origin_only],
    [destination_only] and [both] hold those known as origin only, as
    destination only and in both roles, so every airport of [all] is in
    exactly one of them, and the counts add up. *)
Theorem airports_listing_is_a_partition g self :
  predictor g = Some self ->
  exists r,
    get_airports g = inr r /\
    StronglySorted string_lt (all_airports r) /\
    (forall a, a ∈ all_airports r <->
       known self "origin" a = true \/ known self "dest" a = true) /\
    (forall a, a ∈ origin_only r <->
       known self "origin" a = true /\ known self "dest" a = false) /\
    (forall a, a ∈ destination_only r <->
       known self "dest" a = true /\ known self "origin" a = false) /\
    (forall a, a ∈ both r <->
       known self "origin" a = true /\ known self "dest" a = true) /\
    (total_unique r
     = length (origin_only r) + length (destination_only r) + length (both r))%nat /\
    (total_unique r + length (both r) = origin_airports r + dest_airports r)%nat.
Proof.
  intros Hp. unfold get_airports. rewrite Hp. cbv zeta.
  set (os := keys (default ∅ (airport_stats self !! "origin"))).
  set (ds := keys (default ∅ (airport_stats self !! "dest"))).
  eexists. split; [reflexivity |]. cbn [all_airports origin_only
    destination_only both total_unique origin_airports dest_airports].
  assert (forall a, a ∈ os <-> known self "origin" a = true) as HO
    by (intros a; apply keys_known).
  assert (forall a, a ∈ ds <-> known self "dest" a = true) as HD
    by (intros a; apply keys_known).
  assert (forall a, a ∉ os <-> known self "origin" a = false) as HO'
    by (intros a; apply known_false).
  assert (forall a, a ∉ ds <-> known self "dest" a = false) as HD'
    by (intros a; apply known_false).
  assert (NoDup os) as HnO by apply keys_NoDup.
  assert (NoDup ds) as HnD by apply keys_NoDup.
  assert (sorted_unique (os ++ ds) ≡ₚ filter (fun apt => apt ∉ ds) os ++ ds) as Hall.
  { apply NoDup_Permutation.
    - apply sorted_NoDup, sorted_unique_sorted.
    - apply NoDup_app. split; [apply NoDup_filter, HnO |].
      split; [| exact HnD].
      intros x Hx. apply list_elem_of_filter in Hx as [Hx _]. exact Hx.
    - intros x. rewrite sorted_unique_elem, !elem_of_app, list_elem_of_filter.
      destruct (decide (x ∈ ds)); tauto. }
  assert (filter (fun apt => apt ∈ ds) os ++ filter (fun apt => apt ∉ ds) os ≡ₚ os)
    as Hsplit_os by apply filter_app_complement.
  assert (filter (fun apt => apt ∈ os) ds ++ filter (fun apt => apt ∉ os) ds ≡ₚ ds)
    as Hsplit_ds by apply filter_app_complement.
  assert (filter (fun apt => apt ∈ os) ds ≡ₚ filter (fun apt => apt ∈ ds) os) as Hboth.
  { apply NoDup_Permutation; [apply NoDup_filter, HnD | apply NoDup_filter, HnO |].
    intros x. rewrite !list_elem_of_filter. tauto. }
  apply Permutation_length in Hall, Hsplit_os, Hsplit_ds, Hboth.
  rewrite !length_app in *.
  split; [apply sorted_unique_sorted |].
  split.
  { intros a. rewrite sorted_unique_elem, elem_of_app, HO, HD. reflexivity. }
  split.
  { intros a. rewrite list_elem_of_filter, HD', HO. tauto. }
  split.
  { intros a. rewrite list_elem_of_filter, HO', HD. tauto. }
  split.
  { intros a. rewrite list_elem_of_filter, HO, HD. tauto. }
  split; lia.
Qed.

Lemma airports_listing_is_a_partition_witness :
  exists r,
    get_airports {| predictor := Some (sample_predictor RandomForest);
                    model_info := None |} = inr r /\
    StronglySorted string_lt (all_airports r) /\
    (forall a, a ∈ all_airports r <->
       known (sample_predictor RandomForest) "origin" a = true \/
       known (sample_predictor RandomForest) "dest" a = true) /\
    (forall a, a ∈ origin_only r <->
       known (sample_predictor RandomForest) "origin" a = true /\
       known (sample_predictor RandomForest) "dest" a = false) /\
    (forall a, a ∈ destination_only r <->
       known (sample_predictor RandomForest) "dest" a = true /\
       known (sample_predictor RandomForest) "origin" a = false) /\
    (forall a, a ∈ both r <->
       known (sample_predictor RandomForest) "origin" a = true /\
       known (sample_predictor RandomForest) "dest" a = true) /\
    (total_unique r
     = length (origin_only r) + length (destination_only r) + length (both r))%nat /\
    (total_unique r + length (both r) = origin_airports r + dest_airports r)%nat.
Proof.
  apply (airports_listing_is_a_partition
           {| predictor := Some (sample_predictor RandomForest);
              model_info := None |}
           (sample_predictor RandomForest)).
  reflexivity.
Defined.

(** ** The data cleaner *)

Ltac lookup_cleaned :=
  unfold clean_table, numeric_columns, string_columns, id_columns;
  cbn [foldl]; unfold update_column, table in *;
  repeat first [ rewrite lookup_alter_ne by discriminate
               | rewrite lookup_alter_eq ].

(** A column of strings is filled with 'Unknown', also where it holds the
    empty string. *)
Lemma clean_table_string_column df c :
  c ∈ string_columns ->
  clean_table df !! c
  = map (fun x => replace_empty (cell_fillna (Str "Unknown") x)) <$> df !! c.
Proof.
  intros H. apply list_elem_of_In in H. simpl in H.
  repeat (destruct H as [<- | H]); try contradiction;
    lookup_cleaned; destruct (_ !! _); simpl; try reflexivity;
    rewrite map_map; reflexivity.
Qed.

(** A column of numbers or ids, and [Cancelled], is filled with 0. *)
Lemma clean_table_number_column df c :
  c ∈ numeric_columns ++ ["Cancelled"] ++ id_columns ->
  clean_table df !! c = map (cell_fillna (Num 0)) <$> df !! c.
Proof.
  intros H. apply list_elem_of_In in H. simpl in H.
  repeat (destruct H as [<- | H]); try contradiction;
    lookup_cleaned; reflexivity.
Qed.

(** Every other column is as it was. *)
Lemma clean_table_other_column df c :
  c ∉ cleaned_columns -> clean_table df !! c = df !! c.
Proof.
  intros H. unfold clean_table, numeric_columns, string_columns, id_columns.
  cbn [foldl]. unfold update_column, table in *.
  rewrite !lookup_alter_ne; [reflexivity | ..];
    intros <-; apply H; apply list_elem_of_In; simpl; auto 20.
Qed.

Lemma cleaned_columns_cases c :
  c ∈ cleaned_columns ->
  c ∈ string_columns \/ c ∈ numeric_columns ++ ["Cancelled"] ++ id_columns.
Proof.
  unfold cleaned_columns. rewrite !elem_of_app. tauto.
Qed.

Lemma cell_fillna_filled d x : d <> Null -> cell_fillna d x <> Null.
Proof. destruct x; simpl; congruence. Qed.

Lemma replace_empty_filled x :
  x <> Null -> replace_empty x <> Null /\ replace_empty x <> Str "".
Proof.
  destruct x as [q | s |]; simpl; intros H; try (split; congruence).
  destruct (String.eqb s "") eqn:E; [split; discriminate |].
  apply String.eqb_neq in E. split; congruence.
Qed.

(** X25. The cleaner writes to the output file a table with the columns
    and the rows of the input, and leaves every other file alone.  In the
    written table none of the sixteen columns the cleaner names has a null,
    none of the seven string columns has an empty string, and every other
    column is as in the input. *)
Theorem cleaned_file_has_no_null input_file output_file fs df :
  fs !! input_file = Some df ->
  exists fs',
    clean_flight_data input_file output_file fs = Some fs' /\
    fs' !! output_file = Some (clean_table df) /\
    (forall file, file <> output_file -> fs' !! file = fs !! file) /\
    forall c,
      match clean_table df !! c, df !! c with
      | Some cells, Some old =>
          length cells = length old /\
          (c ∈ cleaned_columns -> Forall (fun x => x <> Null) cells) /\
          (c ∈ string_columns -> Forall (fun x => x <> Str "") cells) /\
          (c ∉ cleaned_columns -> cells = old)
      | None, None => True
      | _, _ => False
      end.
Proof.
  intros Hin. unfold clean_flight_data. rewrite Hin.
  eexists. split; [reflexivity |].
  split; [apply lookup_insert_eq |].
  split; [intros file Hne; apply lookup_insert_ne; congruence |].
  intros c.
  assert (c ∈ string_columns -> c ∈ cleaned_columns) as Hsub.
  { unfold cleaned_columns. rewrite !elem_of_app. tauto. }
  destruct (decide (c ∈ cleaned_columns)) as [Hc | Hc].
  - destruct (cleaned_columns_cases c Hc) as [Hs | Hn].
    + rewrite (clean_table_string_column df c Hs).
      destruct (df !! c) as [old |]; simpl; [| exact I].
      split; [apply length_map |].
      split; [| split; [| contradiction]]; intros _;
        apply Forall_fmap, Forall_forall; intros x _; simpl;
        apply replace_empty_filled, cell_fillna_filled; discriminate.
    + rewrite (clean_table_number_column df c Hn).
      destruct (df !! c) as [old |]; simpl; [| exact I].
      split; [apply length_map |].
      split; [| split; [| contradiction]].
      * intros _. apply Forall_fmap, Forall_forall. intros x _. simpl.
        apply cell_fillna_filled. discriminate.
      * intros Hs. exfalso. revert Hs Hn.
        unfold string_columns, numeric_columns, id_columns.
        rewrite !elem_of_app, !elem_of_cons, !elem_of_nil.
        intros Hs Hn.
        repeat (destruct Hs as [-> | Hs]; [
          repeat (destruct Hn as [Hn | Hn]; try discriminate; try contradiction) |]).
        contradiction.
  - rewrite (clean_table_other_column df c Hc).
    destruct (df !! c) as [old |]; [| exact I].
    split; [reflexivity |].
    split; [contradiction |]. split; [intros Hs; exfalso; auto | reflexivity].
Qed.

Lemma cleaned_file_has_no_null_witness :
  exists fs',
    clean_flight_data "flights.csv" "clean-flights.csv"
      {[ "flights.csv" := raw_flights ]} = Some fs' /\
    fs' !! "clean-flights.csv" = Some (clean_table raw_flights) /\
    (forall file, file <> "clean-flights.csv" ->
       fs' !! file = ({[ "flights.csv" := raw_flights ]} : gmap string table) !! file) /\
    forall c,
      match clean_table raw_flights !! c, raw_flights !! c with
      | Some cells, Some old =>
          length cells = length old /\
          (c ∈ cleaned_columns -> Forall (fun x => x <> Null) cells) /\
          (c ∈ string_columns -> Forall (fun x => x <> Str "") cells) /\
          (c ∉ cleaned_columns -> cells = old)
      | None, None => True
      | _, _ => False
      end.
Proof.
  apply (cleaned_file_has_no_null "flights.csv" "clean-flights.csv"
           {[ "flights.csv" := raw_flights ]} raw_flights).
  reflexivity.
Defined.

Lemma clean_cell_twice x :
  replace_empty (cell_fillna (Str "Unknown")
                   (replace_empty (cell_fillna (Str "Unknown") x)))
  = replace_empty (cell_fillna (Str "Unknown") x).
Proof.
  destruct x as [q | s |]; try reflexivity.
  simpl. destruct (String.eqb s "") eqn:E; simpl; [reflexivity |].
  rewrite E. reflexivity.
Qed.

(** X26. Cleaning is idempotent: the cleaner leaves a cleaned table as it
    is, so running it on its own output writes the same table again. *)
Theorem cleaning_is_idempotent df :
  clean_table (clean_table df) = clean_table df.
Proof.
  apply map_eq. intros c.
  destruct (decide (c ∈ cleaned_columns)) as [Hc | Hc].
  - destruct (cleaned_columns_cases c Hc) as [Hs | Hn].
    + rewrite !(clean_table_string_column _ c Hs).
      destruct (df !! c) as [old |]; simpl; [| reflexivity].
      f_equal. rewrite map_map. apply map_ext. intros x. apply clean_cell_twice.
    + rewrite !(clean_table_number_column _ c Hn).
      destruct (df !! c) as [old |]; simpl; [| reflexivity].
      f_equal. rewrite map_map. apply map_ext. intros []; reflexivity.
  - rewrite !(clean_table_other_column _ c Hc). reflexivity.
Qed.

(** ** Prediction and the predictor *)

(** X27. Prediction never writes to the predictor: whether it returns or
    raises, [predict_delay_probability] leaves the model, the scaler, the
    encoders, the statistics, the schema and the metadata as they were, so
    after any sequence of queries the predictor is the one before the
    first. *)
Theorem prediction_leaves_predictor_unchanged self
    (queries : list (string * string * Z * option Z)) :
  foldl (fun s '(origin_airport, dest_airport, day_of_week, departure_time) =>
           snd (predict_delay_probability origin_airport dest_airport
                  day_of_week departure_time s))
        self queries
  = self.
Proof.
  induction queries as [| [[[o d] day] dep] queries IH]; [reflexivity |].
  simpl. rewrite predict_delay_probability_state. exact IH.
Qed.
